(** * Tele-Vid-Bot-Archive: a shallow embedding of the bot's core

    The development follows the layout of the repository:
    - [Py]: the fragment of Python's [str] the handlers rely on;
    - [config.py]: the [Config] record;
    - [database/database.py]: the three tables and their operations;
    - [utils/media_utils.py]: ingestion, thumbnails, URL check, file cleanup;
    - [handlers/*.py]: the auth, category and video conversation flows.

    Conventions of the model:
    - Python integers are unbounded and are modelled by [Z].  A Python
      [str] is a sequence of Unicode code points and is modelled by
      [list N], so that [len] counts code points as Python does.
    - The [users] table is only read and written by primary key and is a
      [gmap Z UserRow]; [categories] and [videos] are listed and are kept
      as lists of rows in rowid order.  The [user_states] dictionaries of
      the three handler modules are [gmap Z _].
    - The database file is taken to be readable and writable: the only
      [sqlite3.Error]s modelled are the constraint violations a statement
      can meet ([UNIQUE], [NOT NULL], foreign keys when enforced).
    - A handler is a computation over the state of the process that also
      lists, in order, what it sends and which file-system calls its file
      cleanup makes.  The clock, the random file name and the outcome of
      a download are supplied from outside ([Env]). *)

From Stdlib Require Import ZArith NArith List String Ascii Bool Lia Sorted.
From stdpp Require Import base option list gmap.

Import ListNotations.
Local Open Scope Z_scope.

(** ** Python strings *)

Module Py.

(** A [str] is a sequence of code points. *)
Definition str : Type := list N.

(** An ASCII literal of the source, character by character. *)
Definition lit (s : string) : str :=
  List.map N_of_ascii (list_ascii_of_string s).

(** [len(s)] *)
Definition len (s : str) : Z := Z.of_nat (length s).

(** [s == t] *)
Fixpoint eqb (s t : str) : bool :=
  match s, t with
  | [], [] => true
  | c :: s', d :: t' => N.eqb c d && eqb s' t'
  | _, _ => false
  end.

(** [s.startswith(prefix)] *)
Fixpoint startswith (s prefix : str) : bool :=
  match prefix with
  | [] => true
  | p :: prefix' =>
      match s with
      | [] => false
      | c :: s' => N.eqb c p && startswith s' prefix'
      end
  end.

(** [s.startswith((p1, p2, ...))]: true when one of the prefixes fits. *)
Definition startswith_any (s : str) (prefixes : list str) : bool :=
  existsb (startswith s) prefixes.

(** [c.isspace()]: the code points Python treats as white space. *)
Definition isspace (c : N) : bool :=
  ((9 <=? c) && (c <=? 13) || (28 <=? c) && (c <=? 32)
   || (c =? 133) || (c =? 160) || (c =? 5760)
   || (8192 <=? c) && (c <=? 8202)
   || (c =? 8232) || (c =? 8233) || (c =? 8239) || (c =? 8287)
   || (c =? 12288))%N.

(** [s.lstrip()] *)
Fixpoint lstrip (s : str) : str :=
  match s with
  | [] => []
  | c :: s' => if isspace c then lstrip s' else s
  end.

(** [s.rstrip()] *)
Definition rstrip (s : str) : str := rev (lstrip (rev s)).

(** [s.strip()] *)
Definition strip (s : str) : str := rstrip (lstrip s).

(** Truth value of a string: [bool(s)]. *)
Definition truthy (s : str) : bool :=
  match s with [] => false | _ :: _ => true end.

(** Lexicographic comparison of code points, the order of [ORDER BY]
    on a TEXT column under the BINARY collation. *)
Fixpoint leb (s t : str) : bool :=
  match s, t with
  | [], _ => true
  | _ :: _, [] => false
  | c :: s', d :: t' => (c <? d)%N || (N.eqb c d && leb s' t')
  end.

End Py.

Notation "'py' s" := (Py.lit s%string) (at level 1, s at level 0, format "'py' s").

(** ** [utils/media_utils.py]: URL check *)

(** The first statement of [is_valid_url]: add a scheme when none of the
    two accepted ones starts the string. *)
Definition normalize_url (url : Py.str) : Py.str :=
  if negb (Py.startswith_any url [py"http://"; py"https://"])
  then py"https://" ++ url
  else url.

(** [is_valid_url(url)].  On a [str] argument no statement of the body
    raises, so the [except] branch is not taken. *)
Definition is_valid_url (url : Py.str) : bool :=
  let url := normalize_url url in
  if Py.len url <? 5 then false else true.

(** ** [config.py] *)

(** The values [Config] reads from the process environment.  The module
    refuses to load unless the required ones are set ([config_valid]). *)
Record Config := {
  ADMIN_ID : Z;
  ACCESS_PASSWORD : Py.str;
  VIDEO_DIR : Py.str;
  THUMBNAIL_DIR : Py.str
}.

(** [ACCESS_TIMEOUT = 3600]: access timeout in seconds (1 hour). *)
Definition ACCESS_TIMEOUT : Z := 3600.

(** [all([..., config.ADMIN_ID, config.ACCESS_PASSWORD])] *)
Definition config_valid (cfg : Config) : bool :=
  negb (ADMIN_ID cfg =? 0) && Py.truthy (ACCESS_PASSWORD cfg).

(** ** [database/database.py] *)

(** A row of [users]; the primary key [id] is the key of the map. *)
Record UserRow := {
  username : option Py.str;
  access_until : Z
}.

(** A row of [categories]. *)
Record CategoryRow := {
  cat_id : Z;
  cat_name : Py.str
}.

(** A row of [videos].  [type] is the TEXT column holding ["file"] or
    ["link"]. *)
Record VideoRow := {
  vid_id : Z;
  title : Py.str;
  type : Py.str;
  path_or_url : Py.str;
  category_id : Z;
  thumbnail_path : option Py.str
}.

(** The contents of the database file.  [categories_seq] and [videos_seq]
    are the AUTOINCREMENT counters (the largest rowid handed out so far). *)
Record Database := {
  users : gmap Z UserRow;
  categories : list CategoryRow;
  categories_seq : Z;
  videos : list VideoRow;
  videos_seq : Z
}.

(** The per-connection settings of SQLite that matter here. *)
Record Connection := {
  foreign_keys : bool
}.

(** [sqlite3.connect(config.DB_PATH)]: foreign key enforcement is a
    setting of the connection and is off on every new connection. *)
Definition sqlite3_connect : Connection := {| foreign_keys := false |}.

(** [PRAGMA foreign_keys = ON], executed on one connection. *)
Definition pragma_foreign_keys_on (conn : Connection) : Connection :=
  {| foreign_keys := true |}.

(** [get_connection()]: connects, sets the row factory, yields the
    connection and closes it when the [with] block ends. *)
Definition get_connection : Connection := sqlite3_connect.

(** [init_db()]: the tables are created if missing and the pragma is run
    on the connection of this call, which is closed on return. *)
Definition init_db (d : Database) : Database :=
  let conn := get_connection in
  let conn := pragma_foreign_keys_on conn in
  d.

Definition empty_db : Database :=
  {| users := ∅; categories := []; categories_seq := 0;
     videos := []; videos_seq := 0 |}.

(** *** SQL statements *)

(** [SELECT * FROM videos WHERE category_id = ?] *)
Definition select_videos_by_category (category_id0 : Z) (d : Database)
  : list VideoRow :=
  List.filter (fun v => category_id v =? category_id0) (videos d).

(** [DELETE FROM categories WHERE id = ?], run on [conn].  The
    [ON DELETE CASCADE] action of [videos.category_id] is carried out
    only when the connection enforces foreign keys. *)
Definition sql_delete_category (conn : Connection) (category_id0 : Z)
    (d : Database) : Database :=
  {| users := users d;
     categories :=
       List.filter (fun c => negb (cat_id c =? category_id0)) (categories d);
     categories_seq := categories_seq d;
     videos :=
       if foreign_keys conn
       then List.filter (fun v => negb (category_id v =? category_id0))
                        (videos d)
       else videos d;
     videos_seq := videos_seq d |}.

(** [INSERT INTO categories (name) VALUES (?)]: [None] stands for the
    [sqlite3.IntegrityError] of the UNIQUE constraint on [name]. *)
Definition sql_insert_category (name : Py.str) (d : Database)
  : option (Z * Database) :=
  if existsb (fun c => Py.eqb (cat_name c) name) (categories d)
  then None
  else
    let rowid := categories_seq d + 1 in
    Some (rowid,
          {| users := users d;
             categories :=
               categories d ++ [{| cat_id := rowid; cat_name := name |}];
             categories_seq := rowid;
             videos := videos d;
             videos_seq := videos_seq d |}).

(** [INSERT INTO videos (...) VALUES (?, ?, ?, ?, ?)], run on [conn]:
    [None] stands for the [sqlite3.IntegrityError] of a NOT NULL column
    bound to [None] or, on a connection that enforces foreign keys, of a
    [category_id] without its category. *)
Definition sql_insert_video (conn : Connection)
    (title0 video_type path_or_url0 : option Py.str) (category_id0 : Z)
    (thumbnail_path0 : option Py.str) (d : Database)
  : option (Z * Database) :=
  match title0, video_type, path_or_url0 with
  | Some t, Some ty, Some p =>
      if foreign_keys conn
         && negb (existsb (fun c => cat_id c =? category_id0) (categories d))
      then None
      else
        let rowid := videos_seq d + 1 in
        Some (rowid,
              {| users := users d;
                 categories := categories d;
                 categories_seq := categories_seq d;
                 videos :=
                   videos d ++
                     [{| vid_id := rowid; title := t; type := ty;
                         path_or_url := p; category_id := category_id0;
                         thumbnail_path := thumbnail_path0 |}];
                 videos_seq := rowid |})
  | _, _, _ => None
  end.

(** [ORDER BY] on a text key: a stable insertion sort. *)
Fixpoint insert_by {A : Type} (key : A → Py.str) (x : A) (l : list A)
  : list A :=
  match l with
  | [] => [x]
  | y :: l' =>
      if Py.leb (key x) (key y) then x :: l else y :: insert_by key x l'
  end.

Definition order_by {A : Type} (key : A → Py.str) (l : list A) : list A :=
  fold_right (insert_by key) [] l.

(** *** User operations *)

(** [get_user(user_id)] *)
Definition get_user (user_id : Z) (d : Database) : option UserRow :=
  users d !! user_id.

(** [save_user_access(user_id, username, expires_in)], with [now] the
    value of [int(time.time())] read by the call. *)
Definition save_user_access (now : Z) (user_id : Z)
    (username0 : option Py.str) (expires_in : Z) (d : Database)
  : bool * Database :=
  let conn := get_connection in
  let access_until0 := now + expires_in in
  (true,
   {| users :=
        <[user_id := {| username := username0;
                        access_until := access_until0 |}]> (users d);
      categories := categories d;
      categories_seq := categories_seq d;
      videos := videos d;
      videos_seq := videos_seq d |}).

(** [check_user_access(user_id)], with [now] the value of
    [int(time.time())] read by the call. *)
Definition check_user_access (now : Z) (user_id : Z) (d : Database) : bool :=
  match get_user user_id d with
  | None => false
  | Some user =>
      let current_time := now in
      current_time <? access_until user
  end.

(** *** Category operations *)

(** [get_all_categories()] *)
Definition get_all_categories (d : Database) : list CategoryRow :=
  order_by cat_name (categories d).

(** [add_category(name)] *)
Definition add_category (name : Py.str) (d : Database)
  : option Z * Database :=
  let conn := get_connection in
  match sql_insert_category name d with
  | Some (lastrowid, d') => (Some lastrowid, d')
  | None => (None, d)
  end.

(** [delete_category(category_id)]: the rows of the category are fetched,
    then the category is deleted on the same connection. *)
Definition delete_category (category_id0 : Z) (d : Database)
  : list VideoRow * Database :=
  let conn := get_connection in
  let videos0 := select_videos_by_category category_id0 d in
  let d' := sql_delete_category conn category_id0 d in
  (videos0, d').

(** *** Video operations *)

(** [add_video(title, video_type, path_or_url, category_id, thumbnail_path)] *)
Definition add_video (title0 video_type path_or_url0 : option Py.str)
    (category_id0 : Z) (thumbnail_path0 : option Py.str) (d : Database)
  : option Z * Database :=
  let conn := get_connection in
  match sql_insert_video conn title0 video_type path_or_url0 category_id0
                         thumbnail_path0 d with
  | Some (lastrowid, d') => (Some lastrowid, d')
  | None => (None, d)
  end.

(** [get_videos_by_category(category_id)] *)
Definition get_videos_by_category (category_id0 : Z) (d : Database)
  : list VideoRow :=
  order_by title (select_videos_by_category category_id0 d).

(** [get_video(video_id)] *)
Definition get_video (video_id : Z) (d : Database) : option VideoRow :=
  List.find (fun v => vid_id v =? video_id) (videos d).

(** [delete_video(video_id)] *)
Definition delete_video (video_id : Z) (d : Database)
  : option VideoRow * Database :=
  let conn := get_connection in
  let video := get_video video_id d in
  (video,
   {| users := users d;
      categories := categories d;
      categories_seq := categories_seq d;
      videos := List.filter (fun v => negb (vid_id v =? video_id)) (videos d);
      videos_seq := videos_seq d |}).

(** ** The file system and [os.path] *)

(** A decoded or produced picture: a bitmap with its [shape[:2]] and an
    identity for its pixels, or the result of [cv2.resize] on a picture
    (the requested size is given width first, as in the call). *)
Inductive Image : Type :=
| Bitmap (height width : Z) (pixels : Z)
| Resized (src : Image) (new_width new_height : Z).

(** [image.shape[:2]], height first. *)
Definition shape (image : Image) : Z * Z :=
  match image with
  | Bitmap h w _ => (h, w)
  | Resized _ w h => (h, w)
  end.

(** What OpenCV finds in a video file: the frame count of the container
    ([CAP_PROP_FRAME_COUNT]) and, for each position, the frame read there
    if it decodes. *)
Record VideoStream := {
  frame_count : Z;
  frame_at : Z → option Image
}.

Inductive Content : Type :=
| Video (v : VideoStream)
| Picture (image : Image)
| Blob.

Inductive Node : Type :=
| Directory
| RegularFile (c : Content).

Module os.

Definition is_sep (c : N) : bool := N.eqb c 47.

Fixpoint drop_until_sep (s : Py.str) : Py.str :=
  match s with
  | [] => []
  | c :: s' => if is_sep c then s else drop_until_sep s'
  end.

Fixpoint take_until_sep (s : Py.str) : Py.str :=
  match s with
  | [] => []
  | c :: s' => if is_sep c then [] else c :: take_until_sep s'
  end.

Fixpoint lstrip_sep (s : Py.str) : Py.str :=
  match s with
  | [] => []
  | c :: s' => if is_sep c then lstrip_sep s' else s
  end.

(** [os.path.basename(p)]: what follows the last separator. *)
Definition basename (p : Py.str) : Py.str :=
  rev (take_until_sep (rev p)).

(** [os.path.dirname(p)] *)
Definition dirname (p : Py.str) : Py.str :=
  let head := rev (drop_until_sep (rev p)) in
  if forallb is_sep head then head else rev (lstrip_sep (rev head)).

(** [os.path.join(a, b)] *)
Definition join (a b : Py.str) : Py.str :=
  if Py.startswith b (py"/") then b
  else if negb (Py.truthy a) || Py.startswith (rev a) (py"/") then a ++ b
  else a ++ py"/" ++ b.

(** [os.path.exists(p)] *)
Definition exists_ (fs : gmap Py.str Node) (p : Py.str) : bool :=
  match fs !! p with Some _ => true | None => false end.

(** [os.remove(p)]: [None] stands for the [OSError] raised when [p] is
    missing or is a directory. *)
Definition remove (fs : gmap Py.str Node) (p : Py.str)
  : option (gmap Py.str Node) :=
  match fs !! p with
  | Some (RegularFile _) => Some (delete p fs)
  | _ => None
  end.

End os.

(** The calls a function makes on the file system, in order. *)
Inductive FsOp : Type :=
| OsPathExists (p : Py.str)
| OsRemove (p : Py.str).

(** ** OpenCV *)

Module cv2.

(** [cv2.VideoCapture(path)] with [isOpened()]: [None] when the file
    cannot be opened as a video. *)
Definition VideoCapture (fs : gmap Py.str Node) (path : Py.str)
  : option VideoStream :=
  match fs !! path with
  | Some (RegularFile (Video v)) => Some v
  | _ => None
  end.

(** [cv2.resize(image, (w, h))]: [None] stands for the [cv2.error]
    raised for an empty target size. *)
Definition resize (image : Image) (dsize : Z * Z) : option Image :=
  let '(w, h) := dsize in
  if (0 <? w) && (0 <? h) then Some (Resized image w h) else None.

(** [cv2.imwrite(path, image)]: the file is written, and [True]
    returned, when the directory of [path] exists and [path] does not
    name a directory. *)
Definition imwrite (fs : gmap Py.str Node) (path : Py.str) (image : Image)
  : bool * gmap Py.str Node :=
  match fs !! os.dirname path, fs !! path with
  | Some Directory, Some Directory => (false, fs)
  | Some Directory, _ => (true, <[path := RegularFile (Picture image)]> fs)
  | _, _ => (false, fs)
  end.

End cv2.

(** ** [utils/media_utils.py] *)

(** The size [_generate] asks [cv2.resize] for, as (new_width,
    new_height), from the [height] and [width] of the frame.  [None]
    stands for the [ZeroDivisionError] of a frame without columns.
    [int(max_dim * width / height)] is a true division followed by a
    truncation; the float quotient of two integers whose sum is below
    2^53 truncates to the integer quotient, which [Z.quot] is. *)
Definition thumbnail_size (height width : Z) : option (Z * Z) :=
  let max_dim := 320 in
  if width <? height
  then Some (Z.quot (max_dim * width) height, max_dim)
  else if width =? 0 then None
  else Some (max_dim, Z.quot (max_dim * height) width).

(** [_generate()], the closure of [generate_thumbnail] run in the thread
    pool.  Every exception it raises is caught and turned into [None]. *)
Definition _generate (video_path thumbnail_path0 : Py.str)
    (fs : gmap Py.str Node) : option Py.str * gmap Py.str Node :=
  match cv2.VideoCapture fs video_path with
  | None => (None, fs)
  | Some vidcap =>
      let total_frames := frame_count vidcap in
      if total_frames =? 0 then (None, fs)
      else
        let middle_frame := total_frames / 2 in
        match frame_at vidcap middle_frame with
        | None => (None, fs)
        | Some image =>
            let '(height, width) := shape image in
            match thumbnail_size height width with
            | None => (None, fs)
            | Some (new_width, new_height) =>
                match cv2.resize image (new_width, new_height) with
                | None => (None, fs)
                | Some resized_image =>
                    let '(result, fs') :=
                      cv2.imwrite fs thumbnail_path0 resized_image in
                    if result then (Some thumbnail_path0, fs')
                    else (None, fs')
                end
            end
        end
  end.

(** [generate_thumbnail(video_path)] *)
Definition generate_thumbnail (cfg : Config) (video_path : Py.str)
    (fs : gmap Py.str Node) : option Py.str * gmap Py.str Node :=
  if negb (os.exists_ fs video_path) then (None, fs)
  else
    let thumbnail_filename := os.basename video_path ++ py".jpg" in
    let thumbnail_path0 := os.join (THUMBNAIL_DIR cfg) thumbnail_filename in
    _generate video_path thumbnail_path0 fs.

(** The media of a message, as far as the code inspects it:
    [hasattr(media, 'webpage')] with the [url] of the page when the
    attribute is there and set, [hasattr(media, 'document')] with the
    [mime_type] of the document when it has one, or anything else. *)
Inductive Media : Type :=
| MessageMediaWebPage (webpage_url : option Py.str)
| MessageMediaDocument (mime_type : option Py.str)
| MessageMediaOther.

(** What [client.download_media(message.media, video_path)] does: it
    raises, or returns a path (or [None]) after having written a file
    there (or nothing). *)
Inductive DownloadOutcome : Type :=
| DownloadRaised
| DownloadReturned (path : option Py.str) (written : option Content).

(** What the surroundings supply while one event is handled: the clock
    ([int(time.time())]), the identifier [uuid.uuid4().hex] and the
    outcome of a download. *)
Record Env := {
  now : Z;
  uuid4_hex : Py.str;
  download_media : Py.str → DownloadOutcome
}.

(** [save_video_file(client, message)] *)
Definition save_video_file (cfg : Config) (env : Env)
    (media : option Media) (fs : gmap Py.str Node)
  : (option Py.str * option Py.str) * gmap Py.str Node :=
  let video_filename := uuid4_hex env ++ py".mp4" in
  let video_path := os.join (VIDEO_DIR cfg) video_filename in
  match media with
  | Some (MessageMediaDocument (Some mime)) =>
      if Py.startswith mime (py"video/") then
        match download_media env video_path with
        | DownloadRaised => ((None, None), fs)
        | DownloadReturned downloaded_path written =>
            let fs1 :=
              match downloaded_path, written with
              | Some p, Some c => <[p := RegularFile c]> fs
              | _, _ => fs
              end in
            match downloaded_path with
            | None => ((None, None), fs1)
            | Some p =>
                if negb (Py.truthy p) || negb (os.exists_ fs1 p)
                then ((None, None), fs1)
                else
                  let '(thumbnail_path0, fs2) :=
                    generate_thumbnail cfg p fs1 in
                  ((Some p, thumbnail_path0), fs2)
            end
        end
      else ((None, None), fs)
  | _ => ((None, None), fs)
  end.

(** [delete_video_files(video)]: the result, the file system afterwards
    and the calls made on it.  An [OSError] of [os.remove] is caught and
    gives [False]. *)
Definition delete_video_files (video : VideoRow) (fs : gmap Py.str Node)
  : bool * gmap Py.str Node * list FsOp :=
  if negb (Py.eqb (type video) (py"file")) then (true, fs, [])
  else
    let video_path := path_or_url video in
    let step1 :=
      if os.exists_ fs video_path
      then (os.remove fs video_path,
            [OsPathExists video_path; OsRemove video_path])
      else (Some fs, [OsPathExists video_path]) in
    match step1 with
    | (None, ops1) => (false, fs, ops1)
    | (Some fs1, ops1) =>
        match thumbnail_path video with
        | Some thumbnail_path0 =>
            if Py.truthy thumbnail_path0 then
              if os.exists_ fs1 thumbnail_path0 then
                let ops2 :=
                  ops1 ++ [OsPathExists thumbnail_path0;
                           OsRemove thumbnail_path0] in
                match os.remove fs1 thumbnail_path0 with
                | Some fs2 => (true, fs2, ops2)
                | None => (false, fs1, ops2)
                end
              else (true, fs1, ops1 ++ [OsPathExists thumbnail_path0])
            else (true, fs1, ops1)
        | None => (true, fs1, ops1)
        end
    end.

(** ** The bot: events, state and replies *)

(** The fields of an inbound event the handlers read.  A button click
    carries no text and no media; its action token is parsed by the
    dispatcher ([Callback] below). *)
Record Event := {
  sender_id : Z;
  sender_username : option Py.str;
  text : Py.str;
  media : option Media
}.

(** The [context] dictionary kept with a conversation state: each key is
    present or not. *)
Record Context := {
  ctx_title : option Py.str;
  ctx_type : option Py.str;
  ctx_path_or_url : option Py.str;
  ctx_thumbnail_path : option Py.str;
  ctx_category_id : option Z;
  ctx_video_id : option Z
}.

(** [{}] *)
Definition empty_context : Context :=
  {| ctx_title := None; ctx_type := None; ctx_path_or_url := None;
     ctx_thumbnail_path := None; ctx_category_id := None;
     ctx_video_id := None |}.

(** What the process holds: the database, the directories, and the three
    module-level [user_states] dictionaries. *)
Record World := {
  db : Database;
  fs : gmap Py.str Node;
  auth_states : gmap Z Z;
  category_states : gmap Z (Z * Context);
  video_states : gmap Z (Z * Context)
}.

(** The texts the bot sends, with the data that fills them in and the
    rows its buttons are made from. *)
Inductive Text : Type :=
(* auth_handler *)
| WelcomePrompt
| PasswordCorrect
| IncorrectPassword
| MainMenu
(* shared *)
| AccessExpired
(* category_handler *)
| ManageCategoriesMenu
| AddCategoryPrompt
| NoCategoriesToDelete
| DeleteCategoryMenu (cats : list CategoryRow)
| ConfirmCategoryDeletion (name : Py.str) (category_id0 : Z)
| CategoryDeleted
| InvalidName
| CategoryAdded (name : Py.str)
| CategoryAddFailed
| NoCategories
| CategoriesMenu (cats : list CategoryRow)
(* video_handler *)
| ManageVideosMenu
| AddVideoPrompt
| NoCategoriesWithVideos
| DeleteVideoSelectCategory (cats : list CategoryRow)
| NoVideosInCategory
| DeleteVideoMenu (vids : list VideoRow)
| VideoNotFoundEdit
| ConfirmVideoDeletion (title0 : Py.str) (video_id : Z)
| VideoDeleted (title0 : Py.str)
| VideoDeleteFailed
| SessionExpired
| VideoAdded (title0 : option Py.str)
| VideoAddFailed
| CategoryEmpty (name : Py.str)
| SendingVideos (name : Py.str)
| FileCaption (title0 : Py.str) (video_id : Z)
| LinkCaption (title0 : Py.str) (url : Py.str)
| AllVideosSent
| VideoNotFound
| ThisIsALink
| SendingVideo
| VideoFileNotFound
| InvalidTitle
| VideoUploadPrompt (title0 : Py.str)
| InvalidURL
| InvalidLink
| Downloading
| ErrorSavingFile
| InvalidFile
| LinkProcessingIssue
| InvalidInput
| NoCategoriesFound
| SelectCategory (cats : list CategoryRow).

(** What a handler does towards the outside, in order. *)
Inductive Action : Type :=
| Respond (t : Text)                       (* event.respond *)
| Edit (t : Text)                          (* event.edit *)
| Answer (t : Text)                        (* event.answer *)
| SendMessage (t : Text)                   (* client.send_message *)
| SendFile (file : Py.str) (caption : Text) (* client.send_file *)
| Fs (op : FsOp).                          (* file cleanup *)

(** *** The handler monad: state [World], output [list Action] *)

Definition M (A : Type) : Type := World → A * World * list Action.

#[global] Instance M_ret : MRet M := λ A (x : A) w, (x, w, []).

#[global] Instance M_bind : MBind M := λ A B (k : A → M B) (c : M A) w,
  let '(x, w1, out1) := c w in
  let '(y, w2, out2) := k x w1 in
  (y, w2, out1 ++ out2).

Definition tell (a : Action) : M unit := λ w, (tt, w, [a]).

Definition read_db {A : Type} (f : Database → A) : M A :=
  λ w, (f (db w), w, []).

Definition run_db {A : Type} (f : Database → A * Database) : M A :=
  λ w, let '(x, d) := f (db w) in
       (x, {| db := d; fs := fs w; auth_states := auth_states w;
              category_states := category_states w;
              video_states := video_states w |}, []).

Definition read_fs {A : Type} (f : gmap Py.str Node → A) : M A :=
  λ w, (f (fs w), w, []).

Definition run_fs {A : Type} (f : gmap Py.str Node → A * gmap Py.str Node)
  : M A :=
  λ w, let '(x, fs') := f (fs w) in
       (x, {| db := db w; fs := fs'; auth_states := auth_states w;
              category_states := category_states w;
              video_states := video_states w |}, []).

Definition get_auth_states : M (gmap Z Z) := λ w, (auth_states w, w, []).

Definition modify_auth_states (f : gmap Z Z → gmap Z Z) : M unit :=
  λ w, (tt, {| db := db w; fs := fs w; auth_states := f (auth_states w);
               category_states := category_states w;
               video_states := video_states w |}, []).

Definition get_category_states : M (gmap Z (Z * Context)) :=
  λ w, (category_states w, w, []).

Definition modify_category_states
    (f : gmap Z (Z * Context) → gmap Z (Z * Context)) : M unit :=
  λ w, (tt, {| db := db w; fs := fs w; auth_states := auth_states w;
               category_states := f (category_states w);
               video_states := video_states w |}, []).

Definition get_video_states : M (gmap Z (Z * Context)) :=
  λ w, (video_states w, w, []).

Definition modify_video_states
    (f : gmap Z (Z * Context) → gmap Z (Z * Context)) : M unit :=
  λ w, (tt, {| db := db w; fs := fs w; auth_states := auth_states w;
               category_states := category_states w;
               video_states := f (video_states w) |}, []).

(** [for x in l: body(x)] *)
Fixpoint for_each {A : Type} (l : list A) (body : A → M unit) : M unit :=
  match l with
  | [] => mret tt
  | x :: l' => body x ;; for_each l' body
  end.

(** [delete_video_files(video)] as a step of a handler. *)
Definition do_delete_video_files (video : VideoRow) : M bool :=
  λ w, let '(ok, fs', ops) := delete_video_files video (fs w) in
       (ok, {| db := db w; fs := fs'; auth_states := auth_states w;
               category_states := category_states w;
               video_states := video_states w |}, List.map Fs ops).

(** ** [handlers/auth_handler.py] *)

Module auth_handler.

Definition STATE_WAITING_PASSWORD : Z := 1.

(** [show_main_menu(client, event)] *)
Definition show_main_menu : M unit := tell (Respond MainMenu).

(** [start_handler(event)], registered for the pattern [/start]. *)
Definition start_handler (cfg : Config) (env : Env) (event : Event)
  : M unit :=
  let user_id := sender_id event in
  let username0 := sender_username event in
  if user_id =? ADMIN_ID cfg then
    run_db (save_user_access (now env) user_id username0
                             (100 * 365 * 24 * 3600)) ;;
    show_main_menu
  else
    has_access ← read_db (check_user_access (now env) user_id);
    if has_access : bool then show_main_menu
    else
      tell (Respond WelcomePrompt) ;;
      modify_auth_states (<[user_id := STATE_WAITING_PASSWORD]>).

(** [message_handler(event)], registered for every new message. *)
Definition message_handler (cfg : Config) (env : Env) (event : Event)
  : M unit :=
  let user_id := sender_id event in
  if Py.startswith (text event) (py"/") || (user_id =? ADMIN_ID cfg)
  then mret tt
  else
    user_states ← get_auth_states;
    match user_states !! user_id with
    | Some state =>
        if state =? STATE_WAITING_PASSWORD then
          if Py.eqb (text event) (ACCESS_PASSWORD cfg) then
            let username0 := sender_username event in
            run_db (save_user_access (now env) user_id username0
                                     ACCESS_TIMEOUT) ;;
            modify_auth_states (delete user_id) ;;
            tell (Respond PasswordCorrect) ;;
            show_main_menu
          else tell (Respond IncorrectPassword)
        else mret tt
    | None => mret tt
    end.

(** [check_access(event)] *)
Definition check_access (cfg : Config) (env : Env) (event : Event)
  : M bool :=
  let user_id := sender_id event in
  if user_id =? ADMIN_ID cfg then mret true
  else read_db (check_user_access (now env) user_id).

End auth_handler.

Import auth_handler.

(** ** [handlers/category_handler.py] *)

Module category_handler.

Definition STATE_WAITING_CATEGORY_NAME : Z := 1.
Definition STATE_CONFIRM_DELETE : Z := 2.

(** [next((cat['name'] for cat in categories if cat['id'] == category_id),
    "Unknown")] *)
Definition category_name_of (cats : list CategoryRow) (category_id0 : Z)
  : Py.str :=
  match List.find (fun c => cat_id c =? category_id0) cats with
  | Some c => cat_name c
  | None => py"Unknown"
  end.

(** [on_manage_categories], pattern [menu_manage_categories]. *)
Definition on_manage_categories (cfg : Config) (env : Env) (event : Event)
  : M unit :=
  ok ← check_access cfg env event;
  if negb ok then tell (Answer AccessExpired)
  else tell (Edit ManageCategoriesMenu).

(** [on_category_add], pattern [category_add]. *)
Definition on_category_add (cfg : Config) (env : Env) (event : Event)
  : M unit :=
  ok ← check_access cfg env event;
  if negb ok then tell (Answer AccessExpired)
  else
    let user_id := sender_id event in
    modify_category_states
      (<[user_id := (STATE_WAITING_CATEGORY_NAME, empty_context)]>) ;;
    tell (Edit AddCategoryPrompt).

(** [on_category_delete], pattern [category_delete]. *)
Definition on_category_delete (cfg : Config) (env : Env) (event : Event)
  : M unit :=
  ok ← check_access cfg env event;
  if negb ok then tell (Answer AccessExpired)
  else
    cats ← read_db get_all_categories;
    match cats with
    | [] => tell (Edit NoCategoriesToDelete)
    | _ :: _ => tell (Edit (DeleteCategoryMenu cats))
    end.

(** [on_delete_category_selected], pattern [delete_cat_(\d+)]. *)
Definition on_delete_category_selected (cfg : Config) (env : Env)
    (event : Event) (category_id0 : Z) : M unit :=
  ok ← check_access cfg env event;
  if negb ok then tell (Answer AccessExpired)
  else
    cats ← read_db get_all_categories;
    let category_name := category_name_of cats category_id0 in
    let user_id := sender_id event in
    modify_category_states
      (<[user_id :=
           (STATE_CONFIRM_DELETE,
            {| ctx_title := None; ctx_type := None; ctx_path_or_url := None;
               ctx_thumbnail_path := None;
               ctx_category_id := Some category_id0;
               ctx_video_id := None |})]>) ;;
    tell (Edit (ConfirmCategoryDeletion category_name category_id0)).

(** [on_confirm_delete], pattern [confirm_delete_(\d+)]. *)
Definition on_confirm_delete (cfg : Config) (env : Env) (event : Event)
    (category_id0 : Z) : M unit :=
  ok ← check_access cfg env event;
  if negb ok then tell (Answer AccessExpired)
  else
    videos0 ← run_db (delete_category category_id0);
    for_each videos0 (λ video, do_delete_video_files video ;; mret tt) ;;
    tell (Edit CategoryDeleted).

(** [on_back_to_categories], pattern [back_to_categories]. *)
Definition on_back_to_categories (cfg : Config) (env : Env) (event : Event)
  : M unit :=
  ok ← check_access cfg env event;
  if negb ok then tell (Answer AccessExpired)
  else
    let user_id := sender_id event in
    modify_category_states (delete user_id) ;;
    tell (Edit ManageCategoriesMenu).

(** [on_back_to_main], pattern [back_to_main]. *)
Definition on_back_to_main (cfg : Config) (env : Env) (event : Event)
  : M unit :=
  ok ← check_access cfg env event;
  if negb ok then tell (Answer AccessExpired)
  else
    let user_id := sender_id event in
    modify_category_states (delete user_id) ;;
    show_main_menu.

(** [on_message(event)], registered for every new message. *)
Definition on_message (cfg : Config) (env : Env) (event : Event) : M unit :=
  let user_id := sender_id event in
  user_states ← get_category_states;
  match user_states !! user_id with
  | None => mret tt
  | Some (state, context) =>
      if state =? STATE_WAITING_CATEGORY_NAME then
        let category_name := Py.strip (text event) in
        if negb (Py.truthy category_name) then tell (Respond InvalidName)
        else
          category_id0 ← run_db (add_category category_name);
          match category_id0 with
          | Some rowid =>
              if negb (rowid =? 0) then
                modify_category_states (delete user_id) ;;
                tell (Respond (CategoryAdded category_name))
              else tell (Respond CategoryAddFailed)
          | None => tell (Respond CategoryAddFailed)
          end
      else mret tt
  end.

(** [show_categories_menu(client, event)] *)
Definition show_categories_menu : M unit :=
  cats ← read_db get_all_categories;
  match cats with
  | [] => tell (Edit NoCategories)
  | _ :: _ => tell (Edit (CategoriesMenu cats))
  end.

End category_handler.

(** ** [handlers/video_handler.py] *)

Module video_handler.

Definition STATE_WAITING_TITLE : Z := 1.
Definition STATE_WAITING_VIDEO : Z := 2.
Definition STATE_WAITING_CATEGORY : Z := 3.
Definition STATE_CONFIRM_DELETE : Z := 4.

(** [context['title'] = title] *)
Definition set_title (context : Context) (title0 : Py.str) : Context :=
  {| ctx_title := Some title0; ctx_type := ctx_type context;
     ctx_path_or_url := ctx_path_or_url context;
     ctx_thumbnail_path := ctx_thumbnail_path context;
     ctx_category_id := ctx_category_id context;
     ctx_video_id := ctx_video_id context |}.

(** [context['type'] = 'link'; context['path_or_url'] = url] *)
Definition set_link (context : Context) (url : Py.str) : Context :=
  {| ctx_title := ctx_title context; ctx_type := Some (py"link");
     ctx_path_or_url := Some url;
     ctx_thumbnail_path := ctx_thumbnail_path context;
     ctx_category_id := ctx_category_id context;
     ctx_video_id := ctx_video_id context |}.

(** [context['type'] = 'file'; context['path_or_url'] = video_path;
    context['thumbnail_path'] = thumbnail_path] *)
Definition set_file (context : Context) (video_path : Py.str)
    (thumbnail_path0 : option Py.str) : Context :=
  {| ctx_title := ctx_title context; ctx_type := Some (py"file");
     ctx_path_or_url := Some video_path;
     ctx_thumbnail_path := thumbnail_path0;
     ctx_category_id := ctx_category_id context;
     ctx_video_id := ctx_video_id context |}.

(** [context['category_id'] = category_id] *)
Definition set_category_id (context : Context) (category_id0 : Z)
  : Context :=
  {| ctx_title := ctx_title context; ctx_type := ctx_type context;
     ctx_path_or_url := ctx_path_or_url context;
     ctx_thumbnail_path := ctx_thumbnail_path context;
     ctx_category_id := Some category_id0;
     ctx_video_id := ctx_video_id context |}.

(** [show_category_selection(client, event, user_id)] *)
Definition show_category_selection (user_id : Z) : M unit :=
  cats ← read_db get_all_categories;
  match cats with
  | [] =>
      tell (Respond NoCategoriesFound) ;;
      modify_video_states (delete user_id)
  | _ :: _ => tell (Respond (SelectCategory cats))
  end.

(** [on_manage_videos], pattern [menu_manage_videos]. *)
Definition on_manage_videos (cfg : Config) (env : Env) (event : Event)
  : M unit :=
  ok ← check_access cfg env event;
  if negb ok then tell (Answer AccessExpired)
  else tell (Edit ManageVideosMenu).

(** [on_video_add], pattern [video_add]. *)
Definition on_video_add (cfg : Config) (env : Env) (event : Event)
  : M unit :=
  ok ← check_access cfg env event;
  if negb ok then tell (Answer AccessExpired)
  else
    let user_id := sender_id event in
    modify_video_states
      (<[user_id := (STATE_WAITING_TITLE, empty_context)]>) ;;
    tell (Edit AddVideoPrompt).

(** [on_video_delete], pattern [video_delete]. *)
Definition on_video_delete (cfg : Config) (env : Env) (event : Event)
  : M unit :=
  ok ← check_access cfg env event;
  if negb ok then tell (Answer AccessExpired)
  else
    cats ← read_db get_all_categories;
    match cats with
    | [] => tell (Edit NoCategoriesWithVideos)
    | _ :: _ => tell (Edit (DeleteVideoSelectCategory cats))
    end.

(** [on_delete_video_category_selected], pattern
    [delete_video_cat_(\d+)]. *)
Definition on_delete_video_category_selected (cfg : Config) (env : Env)
    (event : Event) (category_id0 : Z) : M unit :=
  ok ← check_access cfg env event;
  if negb ok then tell (Answer AccessExpired)
  else
    vids ← read_db (get_videos_by_category category_id0);
    match vids with
    | [] => tell (Edit NoVideosInCategory)
    | _ :: _ => tell (Edit (DeleteVideoMenu vids))
    end.

(** [on_delete_video_selected], pattern [delete_video_(\d+)]. *)
Definition on_delete_video_selected (cfg : Config) (env : Env)
    (event : Event) (video_id : Z) : M unit :=
  ok ← check_access cfg env event;
  if negb ok then tell (Answer AccessExpired)
  else
    video ← read_db (get_video video_id);
    match video with
    | None => tell (Edit VideoNotFoundEdit)
    | Some v =>
        let user_id := sender_id event in
        modify_video_states
          (<[user_id :=
               (STATE_CONFIRM_DELETE,
                {| ctx_title := None; ctx_type := None;
                   ctx_path_or_url := None; ctx_thumbnail_path := None;
                   ctx_category_id := None;
                   ctx_video_id := Some video_id |})]>) ;;
        tell (Edit (ConfirmVideoDeletion (title v) video_id))
    end.

(** [on_confirm_delete_video], pattern [confirm_delete_video_(\d+)]. *)
Definition on_confirm_delete_video (cfg : Config) (env : Env)
    (event : Event) (video_id : Z) : M unit :=
  ok ← check_access cfg env event;
  if negb ok then tell (Answer AccessExpired)
  else
    video ← run_db (delete_video video_id);
    match video with
    | Some v =>
        do_delete_video_files v ;;
        tell (Edit (VideoDeleted (title v)))
    | None => tell (Edit VideoDeleteFailed)
    end.

(** [on_back_to_videos], pattern [back_to_videos]. *)
Definition on_back_to_videos (cfg : Config) (env : Env) (event : Event)
  : M unit :=
  ok ← check_access cfg env event;
  if negb ok then tell (Answer AccessExpired)
  else
    let user_id := sender_id event in
    modify_video_states (delete user_id) ;;
    tell (Edit ManageVideosMenu).

(** [on_category_selected], pattern [select_category_(\d+)]. *)
Definition on_category_selected (cfg : Config) (env : Env) (event : Event)
    (category_id0 : Z) : M unit :=
  ok ← check_access cfg env event;
  if negb ok then tell (Answer AccessExpired)
  else
    let user_id := sender_id event in
    user_states ← get_video_states;
    match user_states !! user_id with
    | None => tell (Edit SessionExpired)
    | Some (state, context) =>
        let context := set_category_id context category_id0 in
        modify_video_states (<[user_id := (state, context)]>) ;;
        let title0 := ctx_title context in
        let video_type := ctx_type context in
        let path_or_url0 := ctx_path_or_url context in
        let thumbnail_path0 := ctx_thumbnail_path context in
        video_id ← run_db (add_video title0 video_type path_or_url0
                                     category_id0 thumbnail_path0);
        match video_id with
        | Some rowid =>
            if negb (rowid =? 0) then
              modify_video_states (delete user_id) ;;
              tell (Edit (VideoAdded title0))
            else tell (Edit VideoAddFailed)
        | None => tell (Edit VideoAddFailed)
        end
    end.

(** [on_categories_menu], pattern [menu_categories]. *)
Definition on_categories_menu (cfg : Config) (env : Env) (event : Event)
  : M unit :=
  ok ← check_access cfg env event;
  if negb ok then tell (Answer AccessExpired)
  else category_handler.show_categories_menu.

(** The body of the loop of [on_browse_category]. *)
Definition send_video (video : VideoRow) : M unit :=
  if Py.eqb (type video) (py"file") then
    let caption := FileCaption (title video) (vid_id video) in
    match thumbnail_path video with
    | Some tp =>
        there ← read_fs (λ fs0, os.exists_ fs0 tp);
        if Py.truthy tp && there then tell (SendFile tp caption)
        else tell (SendMessage caption)
    | None => tell (SendMessage caption)
    end
  else
    let url := path_or_url video in
    tell (SendMessage (LinkCaption (title video) url)).

(** [on_browse_category], pattern [browse_cat_(\d+)]. *)
Definition on_browse_category (cfg : Config) (env : Env) (event : Event)
    (category_id0 : Z) : M unit :=
  ok ← check_access cfg env event;
  if negb ok then tell (Answer AccessExpired)
  else
    cats ← read_db get_all_categories;
    let category_name :=
      category_handler.category_name_of cats category_id0 in
    vids ← read_db (get_videos_by_category category_id0);
    match vids with
    | [] => tell (Edit (CategoryEmpty category_name))
    | _ :: _ =>
        tell (Edit (SendingVideos category_name)) ;;
        for_each vids send_video ;;
        tell (SendMessage AllVideosSent)
    end.

(** [on_play_video], pattern [play_video_(\d+)]. *)
Definition on_play_video (cfg : Config) (env : Env) (event : Event)
    (video_id : Z) : M unit :=
  ok ← check_access cfg env event;
  if negb ok then tell (Answer AccessExpired)
  else
    video ← read_db (get_video video_id);
    match video with
    | None => tell (Answer VideoNotFound)
    | Some v =>
        if negb (Py.eqb (type v) (py"file")) then tell (Answer ThisIsALink)
        else
          there ← read_fs (λ fs0, os.exists_ fs0 (path_or_url v));
          if there : bool then
            tell (Answer SendingVideo) ;;
            tell (SendFile (path_or_url v)
                           (FileCaption (title v) (vid_id v)))
          else tell (Answer VideoFileNotFound)
    end.

(** The branch of [on_message] for a message that carries media. *)
Definition on_media (cfg : Config) (env : Env) (event : Event)
    (user_id : Z) (context : Context) (m : Media) : M unit :=
  match m with
  | MessageMediaWebPage webpage_url =>
      if Py.truthy (text event) && is_valid_url (Py.strip (text event))
      then
        let url := Py.strip (text event) in
        modify_video_states
          (<[user_id := (STATE_WAITING_CATEGORY, set_link context url)]>) ;;
        show_category_selection user_id
      else
        match webpage_url with
        | Some url =>
            if Py.truthy url then
              modify_video_states
                (<[user_id :=
                     (STATE_WAITING_CATEGORY, set_link context url)]>) ;;
              show_category_selection user_id
            else tell (Respond InvalidLink)
        | None => tell (Respond InvalidLink)
        end
  | MessageMediaDocument mime =>
      match mime with
      | Some mime_type0 =>
          if Py.startswith mime_type0 (py"video/") then
            tell (Respond Downloading) ;;
            saved ← run_fs (save_video_file cfg env (media event));
            let '(video_path, thumbnail_path0) := saved in
            match video_path with
            | Some vp =>
                if Py.truthy vp then
                  modify_video_states
                    (<[user_id :=
                         (STATE_WAITING_CATEGORY,
                          set_file context vp thumbnail_path0)]>) ;;
                  show_category_selection user_id
                else tell (Respond ErrorSavingFile)
            | None => tell (Respond ErrorSavingFile)
            end
          else tell (Respond InvalidFile)
      | None => tell (Respond InvalidFile)
      end
  | MessageMediaOther => tell (Respond LinkProcessingIssue)
  end.

(** [on_message(event)], registered for every new message. *)
Definition on_message (cfg : Config) (env : Env) (event : Event) : M unit :=
  let user_id := sender_id event in
  user_states ← get_video_states;
  match user_states !! user_id with
  | None => mret tt
  | Some (state, context) =>
      if state =? STATE_WAITING_TITLE then
        let title0 := Py.strip (text event) in
        if negb (Py.truthy title0) then tell (Respond InvalidTitle)
        else
          modify_video_states
            (<[user_id := (STATE_WAITING_VIDEO, set_title context title0)]>) ;;
          tell (Respond (VideoUploadPrompt title0))
      else if state =? STATE_WAITING_VIDEO then
        match media event with
        | None =>
            if Py.truthy (text event) then
              let url := Py.strip (text event) in
              if negb (is_valid_url url) then tell (Respond InvalidURL)
              else
                modify_video_states
                  (<[user_id :=
                       (STATE_WAITING_CATEGORY, set_link context url)]>) ;;
                show_category_selection user_id
            else tell (Respond InvalidInput)
        | Some m => on_media cfg env event user_id context m
        end
      else mret tt
  end.

End video_handler.

(** ** Dispatch *)

(** The action token of a button click, as the patterns of the
    registered handlers read it. *)
Inductive Callback : Type :=
| menu_manage_categories
| category_add
| category_delete
| delete_cat_ (category_id0 : Z)
| confirm_delete_ (category_id0 : Z)
| back_to_categories
| back_to_main
| menu_manage_videos
| video_add
| video_delete
| delete_video_cat_ (category_id0 : Z)
| delete_video_ (video_id : Z)
| confirm_delete_video_ (video_id : Z)
| back_to_videos
| select_category_ (category_id0 : Z)
| menu_categories
| browse_cat_ (category_id0 : Z)
| play_video_ (video_id : Z).

(** The handler a button click is routed to. *)
Definition on_callback (cfg : Config) (env : Env) (event : Event)
    (data : Callback) : M unit :=
  match data with
  | menu_manage_categories =>
      category_handler.on_manage_categories cfg env event
  | category_add => category_handler.on_category_add cfg env event
  | category_delete => category_handler.on_category_delete cfg env event
  | delete_cat_ c =>
      category_handler.on_delete_category_selected cfg env event c
  | confirm_delete_ c => category_handler.on_confirm_delete cfg env event c
  | back_to_categories =>
      category_handler.on_back_to_categories cfg env event
  | back_to_main => category_handler.on_back_to_main cfg env event
  | menu_manage_videos => video_handler.on_manage_videos cfg env event
  | video_add => video_handler.on_video_add cfg env event
  | video_delete => video_handler.on_video_delete cfg env event
  | delete_video_cat_ c =>
      video_handler.on_delete_video_category_selected cfg env event c
  | delete_video_ v => video_handler.on_delete_video_selected cfg env event v
  | confirm_delete_video_ v =>
      video_handler.on_confirm_delete_video cfg env event v
  | back_to_videos => video_handler.on_back_to_videos cfg env event
  | select_category_ c => video_handler.on_category_selected cfg env event c
  | menu_categories => video_handler.on_categories_menu cfg env event
  | browse_cat_ c => video_handler.on_browse_category cfg env event c
  | play_video_ v => video_handler.on_play_video cfg env event v
  end.

(** A new message goes through the handlers registered for new messages,
    in the order [register_handlers] registered them; [start_handler]
    takes part when the text matches its pattern. *)
Definition on_new_message (cfg : Config) (env : Env) (event : Event)
  : M unit :=
  (if Py.startswith (text event) (py"/start")
   then start_handler cfg env event else mret tt) ;;
  message_handler cfg env event ;;
  category_handler.on_message cfg env event ;;
  video_handler.on_message cfg env event.

(** ** Predicates on handler runs *)

(** A computation that leaves the database as it found it. *)
Definition keeps_db {A : Type} (c : M A) : Prop :=
  ∀ w, db (c w).1.2 = db w.

(** ** Sample data *)

Definition sample_cfg : Config :=
  {| ADMIN_ID := 1000;
     ACCESS_PASSWORD := py"secret";
     VIDEO_DIR := py"/srv/DATA/videos";
     THUMBNAIL_DIR := py"/srv/DATA/thumbnails" |}.

(** A deployment whose password starts with a slash. *)
Definition slash_cfg : Config :=
  {| ADMIN_ID := 1000;
     ACCESS_PASSWORD := py"/secret";
     VIDEO_DIR := py"/srv/DATA/videos";
     THUMBNAIL_DIR := py"/srv/DATA/thumbnails" |}.

(** The surroundings at clock reading [t], with no download on offer. *)
Definition env_at (t : Z) : Env :=
  {| now := t;
     uuid4_hex := py"0123456789abcdef0123456789abcdef";
     download_media := λ _, DownloadReturned None None |}.

(** A text message and a button click of user [uid]. *)
Definition message_from (uid : Z) (txt : Py.str) : Event :=
  {| sender_id := uid; sender_username := Some (py"alice");
     text := txt; media := None |}.

Definition click_from (uid : Z) : Event :=
  {| sender_id := uid; sender_username := Some (py"alice");
     text := []; media := None |}.

(** A store in which user 7 was granted access until second 100 and the
    admin's own row ran out at second 50. *)
Definition expired_db : Database :=
  {| users :=
       <[7 := {| username := Some (py"alice"); access_until := 100 |}]>
         (<[1000 := {| username := None; access_until := 50 |}]> ∅);
     categories := []; categories_seq := 0;
     videos := []; videos_seq := 0 |}.

Definition world_of (d : Database) : World :=
  {| db := d; fs := ∅; auth_states := ∅; category_states := ∅;
     video_states := ∅ |}.

(** User 7 has been asked for the password. *)
Definition awaiting_password_world : World :=
  {| db := empty_db; fs := ∅;
     auth_states := {[ 7 := auth_handler.STATE_WAITING_PASSWORD ]};
     category_states := ∅; video_states := ∅ |}.

(** The two storage directories, empty. *)
Definition media_fs : gmap Py.str Node :=
  <[py"/srv/DATA/videos" := Directory]>
    (<[py"/srv/DATA/thumbnails" := Directory]> ∅).

(** A container that announces no frame. *)
Definition empty_video : VideoStream :=
  {| frame_count := 0; frame_at := λ _, None |}.

(** Ten frames of 640x480; frame 5 decodes. *)
Definition landscape_video : VideoStream :=
  {| frame_count := 10;
     frame_at := λ pos, if pos =? 5 then Some (Bitmap 480 640 5) else None |}.

(** Ten frames one pixel wide and 400 high; frame 5 decodes. *)
Definition sliver_video : VideoStream :=
  {| frame_count := 10;
     frame_at := λ pos, if pos =? 5 then Some (Bitmap 400 1 5) else None |}.

(** The surroundings when the download stores [c] at the requested
    path. *)
Definition env_downloading (c : Content) : Env :=
  {| now := 200;
     uuid4_hex := py"0123456789abcdef0123456789abcdef";
     download_media := λ path, DownloadReturned (Some path) (Some c) |}.

Definition clip_path : Py.str := py"/srv/DATA/videos/clip.mp4".

(** A library of two categories: "Demo" holds an uploaded file (with its
    thumbnail) and a link, "Other" holds one uploaded file. *)
Definition clip_row : VideoRow :=
  {| vid_id := 1; title := py"Clip"; type := py"file";
     path_or_url := clip_path; category_id := 1;
     thumbnail_path := Some (py"/srv/DATA/thumbnails/clip.mp4.jpg") |}.

Definition talk_row : VideoRow :=
  {| vid_id := 2; title := py"Talk"; type := py"link";
     path_or_url := py"https://example.com/v"; category_id := 1;
     thumbnail_path := None |}.

Definition keep_row : VideoRow :=
  {| vid_id := 3; title := py"Keep"; type := py"file";
     path_or_url := py"/srv/DATA/videos/keep.mp4"; category_id := 2;
     thumbnail_path := None |}.

Definition library_db : Database :=
  {| users := ∅;
     categories := [ {| cat_id := 1; cat_name := py"Demo" |};
                     {| cat_id := 2; cat_name := py"Other" |} ];
     categories_seq := 2;
     videos := [clip_row; talk_row; keep_row];
     videos_seq := 3 |}.

Definition library_fs : gmap Py.str Node :=
  <[clip_path := RegularFile Blob]>
    (<[py"/srv/DATA/thumbnails/clip.mp4.jpg" := RegularFile Blob]>
       (<[py"/srv/DATA/videos/keep.mp4" := RegularFile Blob]> media_fs)).

Definition library_world : World :=
  {| db := library_db; fs := library_fs; auth_states := ∅;
     category_states := ∅; video_states := ∅ |}.

(** User 7, whose access ran out at second 100, was asked for the name
    of a new category while the access still held. *)
Definition expired_naming_world : World :=
  {| db := expired_db; fs := ∅; auth_states := ∅;
     category_states :=
       {[ 7 := (category_handler.STATE_WAITING_CATEGORY_NAME,
                empty_context) ]};
     video_states := ∅ |}.

(** ** Updates and invariants *)

(** An update the client delivers: a new message, or a button click with
    its action token. *)
Inductive Update : Type :=
| NewMessage (event : Event)
| CallbackQuery (event : Event) (data : Callback).

(** The handlers one update runs through. *)
Definition handle_update (cfg : Config) (env : Env) (u : Update) : M unit :=
  match u with
  | NewMessage event => on_new_message cfg env event
  | CallbackQuery event data => on_callback cfg env event data
  end.

(** The updates of a session, one after the other, each with the
    surroundings it meets. *)
Fixpoint handle_updates (cfg : Config) (us : list (Env * Update)) : M unit :=
  match us with
  | [] => mret tt
  | (env, u) :: us' => handle_update cfg env u ;; handle_updates cfg us'
  end.

(** The sender of an update. *)
Definition update_sender (u : Update) : Z :=
  match u with
  | NewMessage event => sender_id event
  | CallbackQuery event _ => sender_id event
  end.

(** The process right after start: tables created and empty, no
    conversation going on, and the files [files] on disk. *)
Definition initial_world (files : gmap Py.str Node) : World :=
  {| db := init_db empty_db; fs := files; auth_states := ∅;
     category_states := ∅; video_states := ∅ |}.

(** A computation whose final state is related by [R] to the state it
    started from. *)
Definition preserves (R : World → World → Prop) {A : Type} (c : M A)
  : Prop :=
  ∀ w, R w (c w).1.2.

(** The keys of the tables: row ids are positive, unique and at most the
    AUTOINCREMENT counter of their table; category names are unique. *)
Definition db_wf (d : Database) : Prop :=
  NoDup (List.map cat_id (categories d))
  ∧ NoDup (List.map cat_name (categories d))
  ∧ NoDup (List.map vid_id (videos d))
  ∧ Forall (λ c, 0 < cat_id c ≤ categories_seq d) (categories d)
  ∧ Forall (λ v, 0 < vid_id v ≤ videos_seq d) (videos d)
  ∧ 0 ≤ categories_seq d
  ∧ 0 ≤ videos_seq d.

(** What a video conversation has collected by the time it reaches a
    state: a title once the upload is awaited, and title, kind and
    location once the category is awaited. *)
Definition video_context_ready (entry : Z * Context) : Prop :=
  (entry.1 = video_handler.STATE_WAITING_VIDEO →
   is_Some (ctx_title entry.2))
  ∧ (entry.1 = video_handler.STATE_WAITING_CATEGORY →
     is_Some (ctx_title entry.2) ∧ is_Some (ctx_type entry.2)
     ∧ is_Some (ctx_path_or_url entry.2)).

Definition video_states_wf (states : gmap Z (Z * Context)) : Prop :=
  ∀ uid entry, states !! uid = Some entry → video_context_ready entry.

(** Relations between the state before and after a computation. *)

Definition same_users (w w' : World) : Prop :=
  users (db w') = users (db w).

Definition same_files (w w' : World) : Prop :=
  fs w' = fs w.

Definition same_world (w w' : World) : Prop :=
  w' = w.

(** Nothing that belongs to a user other than [uid] has changed: the
    three conversation states and the row in [users]. *)
Definition same_for_others (uid : Z) (w w' : World) : Prop :=
  ∀ uid', uid' ≠ uid →
    auth_states w' !! uid' = auth_states w !! uid'
    ∧ category_states w' !! uid' = category_states w !! uid'
    ∧ video_states w' !! uid' = video_states w !! uid'
    ∧ users (db w') !! uid' = users (db w) !! uid'.

Definition keeps_db_wf (w w' : World) : Prop :=
  db_wf (db w) → db_wf (db w').

Definition keeps_video_states_wf (w w' : World) : Prop :=
  video_states_wf (video_states w) → video_states_wf (video_states w').

(** [x] comes no later than [y] in the order of the text key. *)
Definition key_le {A : Type} (key : A → Py.str) (x y : A) : Prop :=
  Py.leb (key x) (key y) = true.

(** A session of the admin, from first contact to a stored link. *)
Definition sample_session : list (Env * Update) :=
  [ (env_at 10, NewMessage (message_from 1000 (py"/start")));
    (env_at 20, CallbackQuery (click_from 1000) category_add);
    (env_at 30, NewMessage (message_from 1000 (py"Demo")));
    (env_at 40, CallbackQuery (click_from 1000) video_add);
    (env_at 50, NewMessage (message_from 1000 (py"Clip")));
    (env_at 60, NewMessage (message_from 1000 (py"https://example.com/v")));
    (env_at 70, CallbackQuery (click_from 1000) (select_category_ 1)) ].

(** User 7 has access until second 5000 and has sent a title and a link;
    the category is awaited. *)
Definition choosing_category_world : World :=
  {| db :=
       {| users :=
            {[ 7 := {| username := Some (py"alice");
                       access_until := 5000 |} ]};
          categories := [ {| cat_id := 1; cat_name := py"Demo" |} ];
          categories_seq := 1;
          videos := []; videos_seq := 0 |};
     fs := media_fs; auth_states := ∅; category_states := ∅;
     video_states :=
       {[ 7 := (video_handler.STATE_WAITING_CATEGORY,
                {| ctx_title := Some (py"Clip");
                   ctx_type := Some (py"link");
                   ctx_path_or_url := Some (py"https://example.com/v");
                   ctx_thumbnail_path := None;
                   ctx_category_id := None;
                   ctx_video_id := None |}) ]} |}.

(** User 7 has access until second 5000 and has clicked both "Add
    Category" and "Add Video": a name and a title are awaited. *)
Definition two_flows_world : World :=
  {| db :=
       {| users :=
            {[ 7 := {| username := Some (py"alice");
                       access_until := 5000 |} ]};
          categories := [ {| cat_id := 1; cat_name := py"Demo" |} ];
          categories_seq := 1;
          videos := []; videos_seq := 0 |};
     fs := media_fs; auth_states := ∅;
     category_states :=
       {[ 7 := (category_handler.STATE_WAITING_CATEGORY_NAME,
                empty_context) ]};
     video_states :=
       {[ 7 := (video_handler.STATE_WAITING_TITLE, empty_context) ]} |}.

(** User 7 has access until second 5000 and has clicked "Add Video": a
    title is awaited. *)
Definition adding_video_world : World :=
  {| db :=
       {| users :=
            {[ 7 := {| username := Some (py"alice");
                       access_until := 5000 |} ]};
          categories := [ {| cat_id := 1; cat_name := py"Demo" |} ];
          categories_seq := 1;
          videos := []; videos_seq := 0 |};
     fs := media_fs; auth_states := ∅; category_states := ∅;
     video_states :=
       {[ 7 := (video_handler.STATE_WAITING_TITLE, empty_context) ]} |}.


(** What a button may touch. *)
Definition is_view (data : Callback) : bool :=
  match data with
  | menu_manage_categories | category_delete | menu_manage_videos
  | video_delete | delete_video_cat_ _ | menu_categories | browse_cat_ _
  | play_video_ _ => true
  | _ => false
  end.

Definition may_write_database (data : Callback) : bool :=
  match data with
  | confirm_delete_ _ | confirm_delete_video_ _ | select_category_ _ => true
  | _ => false
  end.

Definition may_write_files (data : Callback) : bool :=
  match data with
  | confirm_delete_ _ | confirm_delete_video_ _ => true
  | _ => false
  end.

Definition same_db (w w' : World) : Prop :=
  db w' = db w.



(** * Properties *)

(** ** Strings *)

Lemma startswith_length (s prefix : Py.str) :
  Py.startswith s prefix = true → (length prefix ≤ length s)%nat.
Proof.
  revert s. induction prefix as [|p prefix IH]; intros s H; simpl.
  - lia.
  - destruct s as [|c s]; simpl in H; [discriminate|].
    apply andb_true_iff in H as [_ H]. apply IH in H. simpl. lia.
Qed.

Lemma eqb_eq (s t : Py.str) : Py.eqb s t = true ↔ s = t.
Proof.
  revert t. induction s as [|c s IH]; intros [|d t]; simpl; split;
    try discriminate; try reflexivity.
  - intros H. apply andb_true_iff in H as [H1 H2].
    apply N.eqb_eq in H1. apply IH in H2. congruence.
  - intros H. injection H as -> ->.
    rewrite N.eqb_refl. simpl. apply IH. reflexivity.
Qed.

Lemma eqb_neq (s t : Py.str) : Py.eqb s t = false ↔ s ≠ t.
Proof.
  rewrite <- eqb_eq. destruct (Py.eqb s t); split; congruence.
Qed.

(** ** URL check *)

Lemma normalize_url_length (url : Py.str) : 7 ≤ Py.len (normalize_url url).
Proof.
  unfold normalize_url, Py.startswith_any, Py.len. simpl existsb.
  destruct (Py.startswith url (py"http://")) eqn:Hhttp; simpl.
  - apply startswith_length in Hhttp. simpl in Hhttp. lia.
  - destruct (Py.startswith url (py"https://")) eqn:Hhttps; simpl.
    + apply startswith_length in Hhttps. simpl in Hhttps. lia.
    + lia.
Qed.

(** C9: [is_valid_url] returns [True] on every string: the string it
    measures has at least 7 characters, so the test [len(url) < 5] never
    holds and no string is rejected. *)
Theorem is_valid_url_always_true (url : Py.str) :
  7 ≤ Py.len (normalize_url url) ∧ is_valid_url url = true.
Proof.
  pose proof (normalize_url_length url) as Hlen.
  split; [exact Hlen|].
  unfold is_valid_url.
  destruct (Py.len (normalize_url url) <? 5) eqn:Hlt; [|reflexivity].
  apply Z.ltb_lt in Hlt. lia.
Qed.

(** C2: on the three inputs of the URL test, ["test"], ["a.b"] and
    ["https://x.com"], [is_valid_url] returns [True]; for ["a.b"] the
    measured string is ["https://a.b"], of length 11. *)
Theorem is_valid_url_on_test_inputs :
  is_valid_url (py"test") = true
  ∧ is_valid_url (py"a.b") = true
  ∧ normalize_url (py"a.b") = py"https://a.b"
  ∧ Py.len (normalize_url (py"a.b")) = 11
  ∧ is_valid_url (py"https://x.com") = true.
Proof. repeat split; reflexivity. Qed.

(** ** Running handlers *)

Ltac run :=
  cbv [mbind mret M_bind M_ret tell read_db run_db read_fs run_fs
       get_auth_states modify_auth_states get_category_states
       modify_category_states get_video_states modify_video_states
       show_main_menu];
  cbn [orb andb negb app].

Lemma check_access_run (cfg : Config) (env : Env) (event : Event)
    (w : World) :
  check_access cfg env event w =
    (if sender_id event =? ADMIN_ID cfg then true
     else check_user_access (now env) (sender_id event) (db w), w, []).
Proof.
  unfold check_access. destruct (sender_id event =? ADMIN_ID cfg); reflexivity.
Qed.

(** ** Access control *)

(** C6: for the admin identity [check_access] answers [True] in every
    state of the store, whatever row (if any) is stored for it. *)
Theorem admin_always_authorized (cfg : Config) (env : Env) (event : Event)
    (w : World) :
  sender_id event = ADMIN_ID cfg →
  check_access cfg env event w = (true, w, []).
Proof.
  intros Hadmin. rewrite check_access_run.
  rewrite Hadmin, Z.eqb_refl. reflexivity.
Qed.

(** C6, at a concrete state: the admin's stored row ran out at second 50
    and the clock reads 200. *)
Lemma admin_always_authorized_witness :
  check_access sample_cfg (env_at 200) (click_from 1000) (world_of expired_db)
  = (true, world_of expired_db, []).
Proof. apply admin_always_authorized. reflexivity. Defined.

(** C4: for a sender other than the admin, [check_access] answers [True]
    exactly when a row is stored for the sender with [access_until]
    strictly after the clock reading.  A grant of [d > 0] seconds at
    clock reading [now] stores [access_until = now + d]; the sender is
    authorized at that same reading, and is not at any reading from
    [now + d] on. *)
Theorem access_follows_expiry (cfg : Config) (env : Env) (event : Event)
    (w : World) (name : option Py.str) (d : Z) :
  sender_id event ≠ ADMIN_ID cfg →
  0 < d →
  (∃ b, check_access cfg env event w = (b, w, [])
        ∧ (b = true ↔
           ∃ user, users (db w) !! sender_id event = Some user
                   ∧ now env < access_until user))
  ∧ ∃ w', run_db (save_user_access (now env) (sender_id event) name d) w
          = (true, w', [])
          ∧ users (db w') !! sender_id event
            = Some {| username := name; access_until := now env + d |}
          ∧ check_access cfg env event w' = (true, w', [])
          ∧ ∀ env', now env + d ≤ now env' →
                    check_access cfg env' event w' = (false, w', []).
Proof.
  intros Hna Hd.
  assert (Hneq : (sender_id event =? ADMIN_ID cfg) = false)
    by (apply Z.eqb_neq; exact Hna).
  split.
  - eexists. rewrite check_access_run, Hneq. split; [reflexivity|].
    unfold check_user_access, get_user.
    destruct (users (db w) !! sender_id event) as [user|]; split.
    + intros H. apply Z.ltb_lt in H. eauto.
    + intros (u & Hu & Hlt). injection Hu as ->. apply Z.ltb_lt. exact Hlt.
    + discriminate.
    + intros (u & Hu & _). discriminate.
  - eexists. split; [reflexivity|]. cbn [db users].
    split; [apply lookup_insert_eq|].
    split.
    + rewrite check_access_run, Hneq.
      unfold check_user_access, get_user. cbn [db users].
      rewrite lookup_insert_eq. cbn [access_until].
      replace (now env <? now env + d) with true
        by (symmetry; apply Z.ltb_lt; lia).
      reflexivity.
    + intros env' Hlate. rewrite check_access_run, Hneq.
      unfold check_user_access, get_user. cbn [db users].
      rewrite lookup_insert_eq. cbn [access_until].
      replace (now env' <? now env + d) with false
        by (symmetry; apply Z.ltb_ge; lia).
      reflexivity.
Qed.

(** C4, at a concrete state: user 7, whose earlier grant ran out at
    second 100, is not authorized at second 200, is authorized right
    after a one-hour grant at second 200, and no longer at second 3800. *)
Lemma access_follows_expiry_witness :
  (check_access sample_cfg (env_at 200) (click_from 7) (world_of expired_db)).1.1
  = false
  ∧ ∃ w', run_db (save_user_access 200 7 (Some (py"alice")) 3600)
                 (world_of expired_db) = (true, w', [])
          ∧ check_access sample_cfg (env_at 200) (click_from 7) w'
            = (true, w', [])
          ∧ check_access sample_cfg (env_at 3800) (click_from 7) w'
            = (false, w', []).
Proof.
  destruct (access_follows_expiry sample_cfg (env_at 200) (click_from 7)
              (world_of expired_db) (Some (py"alice")) 3600)
    as [_ (w' & Hrun & _ & Hnow & Hlater)].
  - vm_compute. discriminate.
  - lia.
  - split; [reflexivity|].
    exists w'. split; [exact Hrun|]. split; [exact Hnow|].
    apply (Hlater (env_at 3800)). vm_compute. discriminate.
Defined.

(** ** The password prompt *)

(** A message that starts with ['/'] is a command: [message_handler]
    returns at once. *)
Lemma message_handler_ignores_commands (cfg : Config) (env : Env)
    (event : Event) (w : World) :
  Py.startswith (text event) (py"/") = true →
  message_handler cfg env event w = (tt, w, []).
Proof.
  intros Hslash. unfold message_handler. rewrite Hslash. reflexivity.
Qed.

(** C8, as stated, fails on a message that is a command: user 7 is
    prompted, the password is ["secret"], and the message ["/help"]
    differs from it, yet no error message is produced. *)
Lemma wrong_password_may_get_no_reply :
  ¬ (∀ (cfg : Config) (env : Env) (event : Event) (w : World),
       sender_id event ≠ ADMIN_ID cfg →
       auth_states w !! sender_id event
         = Some auth_handler.STATE_WAITING_PASSWORD →
       text event ≠ ACCESS_PASSWORD cfg →
       message_handler cfg env event w = (tt, w, [Respond IncorrectPassword])).
Proof.
  intros H.
  specialize (H sample_cfg (env_at 200) (message_from 7 (py"/help"))
                awaiting_password_world).
  assert (Hrun : message_handler sample_cfg (env_at 200)
                   (message_from 7 (py"/help")) awaiting_password_world
                 = (tt, awaiting_password_world, []))
    by (apply message_handler_ignores_commands; reflexivity).
  rewrite Hrun in H.
  assert (Habs : (tt, awaiting_password_world, @nil Action)
                 = (tt, awaiting_password_world, [Respond IncorrectPassword])).
  { apply H; vm_compute; try reflexivity; discriminate. }
  discriminate Habs.
Qed.

(** The counterexample of C8 through the whole dispatch: no handler of
    new messages replies to the command. *)
Lemma command_gets_no_reply_at_all :
  on_new_message sample_cfg (env_at 200) (message_from 7 (py"/help"))
                 awaiting_password_world
  = (tt, awaiting_password_world, []).
Proof. vm_compute. reflexivity. Qed.

(** C8, amended: for a prompted sender other than the admin, a message
    that starts with ['/'] is ignored (nothing changes, nothing is
    sent); any other message that differs from the configured password
    changes nothing and is answered with the error message; any other
    message equal to the password stores the sender's row with
    [access_until = now + ACCESS_TIMEOUT], removes the prompt state, and
    is answered with the confirmation and the main menu. *)
Theorem password_prompt_step (cfg : Config) (env : Env) (event : Event)
    (w : World) :
  sender_id event ≠ ADMIN_ID cfg →
  auth_states w !! sender_id event
    = Some auth_handler.STATE_WAITING_PASSWORD →
  (Py.startswith (text event) (py"/") = true →
   message_handler cfg env event w = (tt, w, []))
  ∧ (Py.startswith (text event) (py"/") = false →
     text event ≠ ACCESS_PASSWORD cfg →
     message_handler cfg env event w = (tt, w, [Respond IncorrectPassword]))
  ∧ (Py.startswith (text event) (py"/") = false →
     text event = ACCESS_PASSWORD cfg →
     message_handler cfg env event w
     = (tt,
        {| db :=
             {| users :=
                  <[sender_id event :=
                      {| username := sender_username event;
                         access_until := now env + ACCESS_TIMEOUT |}]>
                    (users (db w));
                categories := categories (db w);
                categories_seq := categories_seq (db w);
                videos := videos (db w);
                videos_seq := videos_seq (db w) |};
           fs := fs w;
           auth_states := delete (sender_id event) (auth_states w);
           category_states := category_states w;
           video_states := video_states w |},
        [Respond PasswordCorrect; Respond MainMenu])).
Proof.
  intros Hna Hwait.
  assert (Hneq : (sender_id event =? ADMIN_ID cfg) = false)
    by (apply Z.eqb_neq; exact Hna).
  split; [apply message_handler_ignores_commands|].
  split.
  - intros Hslash Hne. apply eqb_neq in Hne.
    unfold message_handler. rewrite Hslash, Hneq. run.
    rewrite Hwait, Z.eqb_refl, Hne. run. reflexivity.
  - intros Hslash Heq. apply eqb_eq in Heq.
    unfold message_handler. rewrite Hslash, Hneq. run.
    rewrite Hwait, Z.eqb_refl, Heq. run. reflexivity.
Qed.

(** C8, amended, at a concrete state: user 7 is prompted at second 200;
    ["guess"] is answered with the error message and changes nothing,
    ["secret"] is accepted. *)
Lemma password_prompt_step_witness :
  message_handler sample_cfg (env_at 200) (message_from 7 (py"guess"))
                  awaiting_password_world
  = (tt, awaiting_password_world, [Respond IncorrectPassword])
  ∧ ∃ w', message_handler sample_cfg (env_at 200)
                          (message_from 7 (py"secret"))
                          awaiting_password_world
          = (tt, w', [Respond PasswordCorrect; Respond MainMenu])
          ∧ users (db w') !! 7
            = Some {| username := Some (py"alice"); access_until := 3800 |}
          ∧ auth_states w' !! 7 = None.
Proof.
  split.
  - apply (password_prompt_step sample_cfg (env_at 200)
             (message_from 7 (py"guess")) awaiting_password_world);
      vm_compute; try reflexivity; discriminate.
  - eexists. split.
    + apply (password_prompt_step sample_cfg (env_at 200)
               (message_from 7 (py"secret")) awaiting_password_world);
        vm_compute; try reflexivity; discriminate.
    + split; reflexivity.
Defined.

(** C10: when the configured password starts with ['/'], the password
    handler never grants access: whatever the message and the state,
    the handler changes nothing, and a message equal to the password is
    ignored without any reply. *)
Theorem slash_password_never_grants (cfg : Config) (env : Env)
    (event : Event) (w : World) :
  Py.startswith (ACCESS_PASSWORD cfg) (py"/") = true →
  (∃ out, message_handler cfg env event w = (tt, w, out)
          ∧ (out = [] ∨ out = [Respond IncorrectPassword]))
  ∧ (text event = ACCESS_PASSWORD cfg →
     message_handler cfg env event w = (tt, w, [])).
Proof.
  intros Hpw. split.
  - unfold message_handler.
    destruct (Py.startswith (text event) (py"/")) eqn:Hslash; cbn [orb].
    { eexists. split; [reflexivity|]. left. reflexivity. }
    destruct (sender_id event =? ADMIN_ID cfg).
    { eexists. split; [reflexivity|]. left. reflexivity. }
    run.
    destruct (auth_states w !! sender_id event) as [state|].
    2: { eexists. split; [reflexivity|]. left. reflexivity. }
    destruct (state =? auth_handler.STATE_WAITING_PASSWORD).
    2: { eexists. split; [reflexivity|]. left. reflexivity. }
    destruct (Py.eqb (text event) (ACCESS_PASSWORD cfg)) eqn:Heq.
    + apply eqb_eq in Heq. rewrite Heq in Hslash. congruence.
    + eexists. split; [reflexivity|]. right. reflexivity.
  - intros Heq. apply message_handler_ignores_commands.
    rewrite Heq. exact Hpw.
Qed.

(** C10, at a concrete state: the password is ["/secret"], user 7 is
    prompted and sends exactly ["/secret"]. *)
Lemma slash_password_never_grants_witness :
  message_handler slash_cfg (env_at 200) (message_from 7 (py"/secret"))
                  awaiting_password_world
  = (tt, awaiting_password_world, []).
Proof.
  apply (slash_password_never_grants slash_cfg (env_at 200)
           (message_from 7 (py"/secret")) awaiting_password_world);
    reflexivity.
Defined.

(** ** Thumbnails *)

(** The requested size: the longer side is 320, the shorter one is the
    scaled shorter side of the frame rounded down, and the orientation
    of the frame is kept. *)
Lemma thumbnail_size_spec (h w : Z) :
  0 < h → 0 < w →
  ∃ nw nh, thumbnail_size h w = Some (nw, nh)
           ∧ Z.max nw nh = 320
           ∧ Z.min nw nh = 320 * Z.min h w / Z.max h w
           ∧ (nw <? nh) = (w <? h).
Proof.
  intros Hh Hw. unfold thumbnail_size.
  destruct (w <? h) eqn:Hwh.
  - apply Z.ltb_lt in Hwh.
    rewrite Z.quot_div_nonneg by lia.
    assert (H0 : 0 ≤ 320 * w / h) by (apply Z.div_pos; lia).
    assert (H1 : 320 * w / h < 320)
      by (apply Z.div_lt_upper_bound; lia).
    eexists _, _. split; [reflexivity|].
    replace (Z.min h w) with w by lia.
    replace (Z.max h w) with h by lia.
    repeat split; lia.
  - apply Z.ltb_ge in Hwh.
    replace (w =? 0) with false by (symmetry; apply Z.eqb_neq; lia).
    rewrite Z.quot_div_nonneg by lia.
    assert (H0 : 0 ≤ 320 * h / w) by (apply Z.div_pos; lia).
    assert (H1 : 320 * h / w ≤ 320).
    { apply Z.lt_succ_r. apply Z.div_lt_upper_bound; lia. }
    eexists _, _. split; [reflexivity|].
    replace (Z.min h w) with h by lia.
    replace (Z.max h w) with w by lia.
    repeat split; lia.
Qed.

(** The shorter side of the requested size is at least one pixel exactly
    when the frame is at most 320 times longer than it is short. *)
Lemma thumbnail_short_side_positive (h w : Z) :
  0 < h → 0 < w →
  (0 < 320 * Z.min h w / Z.max h w ↔ Z.max h w ≤ 320 * Z.min h w).
Proof.
  intros Hh Hw.
  assert (Hmax : 0 < Z.max h w) by lia.
  split.
  - intros Hpos.
    destruct (Z_lt_le_dec (320 * Z.min h w) (Z.max h w)) as [Hlt|Hle];
      [|exact Hle].
    rewrite Z.div_small in Hpos by lia. lia.
  - intros Hle. apply Z.div_str_pos. lia.
Qed.

(** On a file that opens as a video, [generate_thumbnail] runs
    [_generate] on the name derived from the video's file name. *)
Lemma generate_thumbnail_on_video (cfg : Config) (video_path : Py.str)
    (fs : gmap Py.str Node) (v : VideoStream) :
  fs !! video_path = Some (RegularFile (Video v)) →
  generate_thumbnail cfg video_path fs
  = _generate video_path
      (os.join (THUMBNAIL_DIR cfg) (os.basename video_path ++ py".jpg")) fs
  ∧ cv2.VideoCapture fs video_path = Some v.
Proof.
  intros Hfile. unfold generate_thumbnail, os.exists_, cv2.VideoCapture.
  rewrite Hfile. split; reflexivity.
Qed.

Lemma zero_frames_no_thumbnail (cfg : Config) (video_path : Py.str)
    (fs : gmap Py.str Node) (v : VideoStream) :
  fs !! video_path = Some (RegularFile (Video v)) →
  frame_count v = 0 →
  generate_thumbnail cfg video_path fs = (None, fs).
Proof.
  intros Hfile Hzero.
  destruct (generate_thumbnail_on_video cfg video_path fs v Hfile)
    as [-> Hcap].
  unfold _generate. rewrite Hcap, Hzero. reflexivity.
Qed.

(** C7, as stated, fails on a frame whose sides differ by more than a
    factor of 320: the video has 10 frames, frame 5 decodes to a picture
    1 pixel wide and 400 high, the thumbnail directory exists and the
    target name is free, yet no thumbnail is produced (the requested
    width is [int(320 * 1 / 400) = 0]). *)
Lemma sliver_frame_gets_no_thumbnail :
  ¬ (∀ (cfg : Config) (video_path : Py.str) (fs : gmap Py.str Node)
       (v : VideoStream) (image : Image),
       fs !! video_path = Some (RegularFile (Video v)) →
       0 < frame_count v →
       frame_at v (frame_count v / 2) = Some image →
       0 < (shape image).1 → 0 < (shape image).2 →
       let target :=
         os.join (THUMBNAIL_DIR cfg) (os.basename video_path ++ py".jpg") in
       fs !! os.dirname target = Some Directory →
       fs !! target = None →
       ∃ resized,
         generate_thumbnail cfg video_path fs
         = (Some target, <[target := RegularFile (Picture resized)]> fs)
         ∧ Z.max (shape resized).1 (shape resized).2 = 320).
Proof.
  intros H.
  destruct (H sample_cfg clip_path
              (<[clip_path := RegularFile (Video sliver_video)]> media_fs)
              sliver_video (Bitmap 400 1 5))
    as (resized & Hrun & _); try reflexivity.
  assert (Hnone :
    generate_thumbnail sample_cfg clip_path
      (<[clip_path := RegularFile (Video sliver_video)]> media_fs)
    = (None, <[clip_path := RegularFile (Video sliver_video)]> media_fs))
    by reflexivity.
  rewrite Hnone in Hrun. discriminate Hrun.
Qed.

(** C7, amended: on a file that opens as a video, a frame count of zero
    gives no thumbnail.  With a frame count [T > 0] and a frame at
    position [T // 2] that decodes to a picture of [h] by [w] pixels,
    the size requested for that frame has its longer side equal to 320,
    its shorter side equal to [320 * min(h, w) // max(h, w)] and the
    orientation of the frame.  When the longer side of the frame is at
    most 320 times the shorter one and the image file can be written
    (its directory exists, its name is not a directory), the resized
    frame is written to [THUMBNAIL_DIR/<basename of the video>.jpg] and
    that path is returned; when the frame is more than 320 times longer
    than short, no thumbnail is produced. *)
Theorem thumbnail_of_middle_frame (cfg : Config) (video_path : Py.str)
    (fs : gmap Py.str Node) (v : VideoStream) :
  fs !! video_path = Some (RegularFile (Video v)) →
  let target :=
    os.join (THUMBNAIL_DIR cfg) (os.basename video_path ++ py".jpg") in
  (frame_count v = 0 → generate_thumbnail cfg video_path fs = (None, fs))
  ∧ ∀ (image : Image) (h w : Z),
      0 < frame_count v →
      frame_at v (frame_count v / 2) = Some image →
      shape image = (h, w) → 0 < h → 0 < w →
      ∃ nw nh,
        thumbnail_size h w = Some (nw, nh)
        ∧ Z.max nw nh = 320
        ∧ Z.min nw nh = 320 * Z.min h w / Z.max h w
        ∧ (nw <? nh) = (w <? h)
        ∧ (Z.max h w ≤ 320 * Z.min h w →
           fs !! os.dirname target = Some Directory →
           fs !! target ≠ Some Directory →
           generate_thumbnail cfg video_path fs
           = (Some target,
              <[target := RegularFile (Picture (Resized image nw nh))]> fs))
        ∧ (320 * Z.min h w < Z.max h w →
           generate_thumbnail cfg video_path fs = (None, fs)).
Proof.
  intros Hfile target. split.
  { apply zero_frames_no_thumbnail. exact Hfile. }
  intros image h w HT Hframe Hshape Hh Hw.
  destruct (thumbnail_size_spec h w Hh Hw)
    as (nw & nh & Hsize & Hmax & Hmin & Horient).
  exists nw, nh.
  repeat (split; [assumption|]).
  destruct (generate_thumbnail_on_video cfg video_path fs v Hfile)
    as [-> Hcap].
  fold target. unfold _generate.
  rewrite Hcap.
  replace (frame_count v =? 0) with false by (symmetry; apply Z.eqb_neq; lia).
  rewrite Hframe, Hshape, Hsize.
  pose proof (thumbnail_short_side_positive h w Hh Hw) as Hpos.
  rewrite <- Hmin in Hpos.
  split.
  - intros Hratio Hdir Hfree. apply Hpos in Hratio.
    unfold cv2.resize.
    replace ((0 <? nw) && (0 <? nh)) with true
      by (symmetry; apply andb_true_iff; split; apply Z.ltb_lt; lia).
    unfold cv2.imwrite. rewrite Hdir.
    destruct (fs !! target) as [[|c]|]; [contradiction|reflexivity..].
  - intros Hratio.
    assert (Hzero : ¬ 0 < Z.min nw nh) by (rewrite Hpos; lia).
    unfold cv2.resize.
    replace ((0 <? nw) && (0 <? nh)) with false; [reflexivity|].
    symmetry. apply andb_false_iff.
    destruct (Z_lt_le_dec 0 nw) as [Hnw|Hnw].
    + right. apply Z.ltb_ge. lia.
    + left. apply Z.ltb_ge. lia.
Qed.

(** C7, amended, at a concrete video: 10 frames, frame 5 decodes to a
    640x480 picture; the thumbnail is frame 5 resized to 320x240 and is
    stored as [clip.mp4.jpg] in the thumbnail directory. *)
Lemma thumbnail_of_middle_frame_witness :
  generate_thumbnail sample_cfg clip_path
    (<[clip_path := RegularFile (Video landscape_video)]> media_fs)
  = (Some (py"/srv/DATA/thumbnails/clip.mp4.jpg"),
     <[py"/srv/DATA/thumbnails/clip.mp4.jpg" :=
         RegularFile (Picture (Resized (Bitmap 480 640 5) 320 240))]>
       (<[clip_path := RegularFile (Video landscape_video)]> media_fs)).
Proof.
  destruct (thumbnail_of_middle_frame sample_cfg clip_path
              (<[clip_path := RegularFile (Video landscape_video)]> media_fs)
              landscape_video)
    as [_ Hmid]; [reflexivity|].
  destruct (Hmid (Bitmap 480 640 5) 480 640 ltac:(reflexivity)
              ltac:(reflexivity) ltac:(reflexivity) ltac:(reflexivity)
              ltac:(reflexivity))
    as (nw & nh & Hsize & _ & _ & _ & Hwrite & _).
  injection Hsize as <- <-.
  apply Hwrite.
  - vm_compute. discriminate.
  - reflexivity.
  - vm_compute. discriminate.
Defined.

(** ** Ingestion *)

(** C5: when the attachment is a video document and the download leaves
    a file at the path it returns, [save_video_file] returns that path
    whatever [generate_thumbnail] answers; when thumbnail generation
    fails the result is the stored path with [None] for the thumbnail,
    and this is what happens for a downloaded video of zero frames. *)
Theorem thumbnail_failure_is_not_fatal (cfg : Config) (env : Env)
    (mime p : Py.str) (written : option Content) (fs : gmap Py.str Node) :
  let message_media := Some (MessageMediaDocument (Some mime)) in
  let fs1 :=
    match written with
    | Some c => <[p := RegularFile c]> fs
    | None => fs
    end in
  Py.startswith mime (py"video/") = true →
  download_media env (os.join (VIDEO_DIR cfg) (uuid4_hex env ++ py".mp4"))
    = DownloadReturned (Some p) written →
  Py.truthy p = true →
  os.exists_ fs1 p = true →
  (save_video_file cfg env message_media fs).1.1 = Some p
  ∧ (∀ fs2, generate_thumbnail cfg p fs1 = (None, fs2) →
            save_video_file cfg env message_media fs = ((Some p, None), fs2))
  ∧ (∀ v, fs1 !! p = Some (RegularFile (Video v)) →
          frame_count v = 0 →
          save_video_file cfg env message_media fs = ((Some p, None), fs1)).
Proof.
  intros message_media fs1 Hmime Hdown Hp Hthere.
  assert (Hrun : save_video_file cfg env message_media fs
                 = (let '(thumbnail_path0, fs2) :=
                      generate_thumbnail cfg p fs1 in
                    ((Some p, thumbnail_path0), fs2))).
  { unfold save_video_file, message_media. rewrite Hmime, Hdown.
    fold fs1. rewrite Hp, Hthere. reflexivity. }
  split; [|split].
  - rewrite Hrun. destruct (generate_thumbnail cfg p fs1). reflexivity.
  - intros fs2 Hfail. rewrite Hrun, Hfail. reflexivity.
  - intros v Hfile Hzero. rewrite Hrun.
    rewrite (zero_frames_no_thumbnail cfg p fs1 v Hfile Hzero). reflexivity.
Qed.

(** C5, at a concrete download: the attachment is a [video/mp4] document
    whose container announces no frame. *)
Lemma thumbnail_failure_is_not_fatal_witness :
  let stored :=
    py"/srv/DATA/videos/0123456789abcdef0123456789abcdef.mp4" in
  save_video_file sample_cfg (env_downloading (Video empty_video))
    (Some (MessageMediaDocument (Some (py"video/mp4")))) media_fs
  = ((Some stored, None),
     <[stored := RegularFile (Video empty_video)]> media_fs).
Proof.
  intros stored.
  apply (thumbnail_failure_is_not_fatal sample_cfg
           (env_downloading (Video empty_video)) (py"video/mp4") stored
           (Some (Video empty_video)) media_fs
           ltac:(reflexivity) ltac:(reflexivity) ltac:(reflexivity)
           ltac:(reflexivity))
    with (v := empty_video).
  - apply lookup_insert_eq.
  - reflexivity.
Defined.

(** ** Deleting a category *)

(** The connection every operation of [database.py] works on does not
    enforce foreign keys: the pragma of [init_db] was given to another
    connection. *)
Remark get_connection_does_not_enforce : foreign_keys get_connection = false.
Proof. reflexivity. Qed.

(** [delete_category] returns the rows of the category and removes the
    category row; the [videos] table is left as it was, because the
    connection it runs on does not enforce foreign keys. *)
Lemma delete_category_keeps_videos (category_id0 : Z) (d : Database) :
  (delete_category category_id0 d).1 = select_videos_by_category category_id0 d
  ∧ videos (delete_category category_id0 d).2 = videos d
  ∧ ∀ c, In c (categories (delete_category category_id0 d).2)
         ↔ In c (categories d) ∧ cat_id c ≠ category_id0.
Proof.
  unfold delete_category. cbn.
  split; [reflexivity|]. split; [reflexivity|].
  intros c. rewrite filter_In, negb_true_iff, Z.eqb_neq. reflexivity.
Qed.

(** On a connection that enforces foreign keys the same statement
    removes the rows of the category, and only those. *)
Lemma cascade_when_enforced (conn : Connection) (category_id0 : Z)
    (d : Database) (v : VideoRow) :
  foreign_keys conn = true →
  In v (videos (sql_delete_category conn category_id0 d))
  ↔ In v (videos d) ∧ ¬ In v (select_videos_by_category category_id0 d).
Proof.
  intros Hfk. unfold sql_delete_category, select_videos_by_category.
  cbn. rewrite Hfk. rewrite !filter_In. rewrite negb_true_iff. split.
  - intros [Hin Hid]. split; [exact Hin|]. intros [_ Hid']. congruence.
  - intros [Hin Hnot]. split; [exact Hin|].
    destruct (category_id v =? category_id0); [tauto|reflexivity].
Qed.

(** A link has no files: nothing is looked up, nothing is removed. *)
Lemma delete_video_files_link (video : VideoRow) (fs : gmap Py.str Node) :
  type video ≠ py"file" →
  delete_video_files video fs = (true, fs, []).
Proof.
  intros Hty. apply eqb_neq in Hty.
  unfold delete_video_files. rewrite Hty. reflexivity.
Qed.

(** For an uploaded file the first call looks up the video file. *)
Lemma delete_video_files_file (video : VideoRow) (fs : gmap Py.str Node) :
  type video = py"file" →
  ∃ ops, (delete_video_files video fs).2
         = OsPathExists (path_or_url video) :: ops.
Proof.
  intros Hty. apply eqb_eq in Hty.
  unfold delete_video_files. rewrite Hty. cbn [negb].
  destruct (os.exists_ fs (path_or_url video)).
  - destruct (os.remove fs (path_or_url video)) as [fs1|]; [|eauto].
    destruct (thumbnail_path video) as [tp|]; [|eauto].
    destruct (Py.truthy tp); [|eauto].
    destruct (os.exists_ fs1 tp); [|eauto].
    destruct (os.remove fs1 tp); eauto.
  - destruct (thumbnail_path video) as [tp|]; [|eauto].
    destruct (Py.truthy tp); [|eauto].
    destruct (os.exists_ fs tp); [|eauto].
    destruct (os.remove fs tp); eauto.
Qed.

(** C1: the admin confirms the deletion of "Demo", which holds the
    uploaded "Clip" and the link "Talk".  The category row is removed,
    the files of "Clip" are looked up and removed, nothing is attempted
    for "Talk" — and the rows of "Clip" and "Talk" are still in the
    [videos] table afterwards. *)
Theorem category_deletion_keeps_video_rows :
  on_callback sample_cfg (env_at 200) (click_from 1000) (confirm_delete_ 1)
              library_world
  = (tt,
     {| db :=
          {| users := ∅;
             categories := [ {| cat_id := 2; cat_name := py"Other" |} ];
             categories_seq := 2;
             videos := [clip_row; talk_row; keep_row];
             videos_seq := 3 |};
        fs := <[py"/srv/DATA/videos/keep.mp4" := RegularFile Blob]> media_fs;
        auth_states := ∅; category_states := ∅; video_states := ∅ |},
     [ Fs (OsPathExists clip_path);
       Fs (OsRemove clip_path);
       Fs (OsPathExists (py"/srv/DATA/thumbnails/clip.mp4.jpg"));
       Fs (OsRemove (py"/srv/DATA/thumbnails/clip.mp4.jpg"));
       Edit CategoryDeleted ]).
Proof. vm_compute. reflexivity. Qed.

(** ** Expired access *)

(** C3: user 7's access ran out at second 100 and the clock reads 200,
    so [check_access] answers [False]; the user's message "Demo" still
    goes through the handlers of new messages, creates the category row
    and is answered with the success text, not with the request to
    restart. *)
Theorem expired_user_adds_category :
  check_access sample_cfg (env_at 200) (message_from 7 (py"Demo"))
               expired_naming_world
  = (false, expired_naming_world, [])
  ∧ on_new_message sample_cfg (env_at 200) (message_from 7 (py"Demo"))
                   expired_naming_world
    = (tt,
       {| db :=
            {| users := users expired_db;
               categories := [ {| cat_id := 1; cat_name := py"Demo" |} ];
               categories_seq := 1;
               videos := []; videos_seq := 0 |};
          fs := ∅; auth_states := ∅; category_states := ∅;
          video_states := ∅ |},
       [Respond (CategoryAdded (py"Demo"))]).
Proof. split; vm_compute; reflexivity. Qed.

(** X24: every handler of a button click starts with [check_access]: without
    access the click changes nothing and is answered with the request to
    restart the bot. *)
Lemma callbacks_deny_without_access (cfg : Config) (env : Env)
    (event : Event) (data : Callback) (w : World) :
  check_access cfg env event w = (false, w, []) →
  on_callback cfg env event data w = (tt, w, [Answer AccessExpired]).
Proof.
  intros Hdenied.
  destruct data;
    cbv [on_callback
         category_handler.on_manage_categories
         category_handler.on_category_add
         category_handler.on_category_delete
         category_handler.on_delete_category_selected
         category_handler.on_confirm_delete
         category_handler.on_back_to_categories
         category_handler.on_back_to_main
         video_handler.on_manage_videos
         video_handler.on_video_add
         video_handler.on_video_delete
         video_handler.on_delete_video_category_selected
         video_handler.on_delete_video_selected
         video_handler.on_confirm_delete_video
         video_handler.on_back_to_videos
         video_handler.on_category_selected
         video_handler.on_categories_menu
         video_handler.on_browse_category
         video_handler.on_play_video];
    run; rewrite Hdenied; reflexivity.
Qed.

(** X19: the handler of the category name never looks at the sender's access:
    for a sender asked for a name, a message whose stripped text is not
    empty and is not the name of a category creates the category row. *)
Lemma category_name_is_accepted_unchecked (cfg : Config) (env : Env)
    (event : Event) (w : World) (context : Context) :
  category_states w !! sender_id event
    = Some (category_handler.STATE_WAITING_CATEGORY_NAME, context) →
  Py.truthy (Py.strip (text event)) = true →
  existsb (λ c, Py.eqb (cat_name c) (Py.strip (text event)))
          (categories (db w)) = false →
  0 ≤ categories_seq (db w) →
  ∃ w', category_handler.on_message cfg env event w
        = (tt, w', [Respond (CategoryAdded (Py.strip (text event)))])
        ∧ categories (db w')
          = categories (db w)
            ++ [ {| cat_id := categories_seq (db w) + 1;
                    cat_name := Py.strip (text event) |} ].
Proof.
  intros Hstate Hname Hfresh Hseq.
  unfold category_handler.on_message. run.
  rewrite Hstate. cbn [Z.eqb category_handler.STATE_WAITING_CATEGORY_NAME
                       Pos.eqb].
  rewrite Hname. run.
  unfold add_category, sql_insert_category. rewrite Hfresh.
  replace (categories_seq (db w) + 1 =? 0) with false
    by (symmetry; apply Z.eqb_neq; lia).
  run. eexists. split; reflexivity.
Qed.

(** ** What leaves the database alone *)

Section KeepsDb.

Context {A B : Type}.

Lemma keeps_db_ret (x : A) : keeps_db (mret x).
Proof. intros w. reflexivity. Qed.

Lemma keeps_db_bind (c : M A) (k : A → M B) :
  keeps_db c → (∀ x, keeps_db (k x)) → keeps_db (c ≫= k).
Proof.
  intros Hc Hk w. specialize (Hc w).
  cbv [mbind M_bind]. destruct (c w) as [[x w1] out1]. cbn in Hc.
  specialize (Hk x w1). destruct (k x w1) as [[y w2] out2]. cbn in *.
  congruence.
Qed.

Lemma keeps_db_read_db (f : Database → A) : keeps_db (read_db f).
Proof. intros w. reflexivity. Qed.

Lemma keeps_db_read_fs (f : gmap Py.str Node → A) : keeps_db (read_fs f).
Proof. intros w. reflexivity. Qed.

Lemma keeps_db_run_fs (f : gmap Py.str Node → A * gmap Py.str Node) :
  keeps_db (run_fs f).
Proof. intros w. unfold run_fs. destruct (f (fs w)). reflexivity. Qed.

End KeepsDb.

Lemma keeps_db_tell (a : Action) : keeps_db (tell a).
Proof. intros w. reflexivity. Qed.

Lemma keeps_db_modify_auth_states (f : gmap Z Z → gmap Z Z) :
  keeps_db (modify_auth_states f).
Proof. intros w. reflexivity. Qed.

Lemma keeps_db_modify_category_states
    (f : gmap Z (Z * Context) → gmap Z (Z * Context)) :
  keeps_db (modify_category_states f).
Proof. intros w. reflexivity. Qed.

Lemma keeps_db_get_video_states : keeps_db get_video_states.
Proof. intros w. reflexivity. Qed.

Lemma keeps_db_modify_video_states
    (f : gmap Z (Z * Context) → gmap Z (Z * Context)) :
  keeps_db (modify_video_states f).
Proof. intros w. reflexivity. Qed.

Lemma keeps_db_do_delete_video_files (video : VideoRow) :
  keeps_db (do_delete_video_files video).
Proof.
  intros w. unfold do_delete_video_files.
  destruct (delete_video_files video (fs w)) as [[ok fs'] ops]. reflexivity.
Qed.

Lemma keeps_db_for_each {A : Type} (l : list A) (body : A → M unit) :
  (∀ x, keeps_db (body x)) → keeps_db (for_each l body).
Proof.
  intros Hbody. induction l as [|x l IH]; simpl.
  - apply keeps_db_ret.
  - apply keeps_db_bind; [apply Hbody|intros _; exact IH].
Qed.

Create HintDb keeps_db.

#[local] Hint Resolve keeps_db_ret keeps_db_read_db keeps_db_read_fs
  keeps_db_run_fs keeps_db_tell keeps_db_modify_auth_states
  keeps_db_modify_category_states keeps_db_get_video_states
  keeps_db_modify_video_states keeps_db_do_delete_video_files : keeps_db.

(** Split a handler at its binds and branches, closing the steps that
    are known to keep the database. *)
Ltac keeps_db_steps :=
  repeat first
    [ progress auto with keeps_db
    | apply keeps_db_bind; [|intros ?]
    | match goal with
      | |- keeps_db (match ?x with _ => _ end) => destruct x
      end ].

Lemma keeps_db_show_category_selection (user_id : Z) :
  keeps_db (video_handler.show_category_selection user_id).
Proof. unfold video_handler.show_category_selection. keeps_db_steps. Qed.

#[local] Hint Resolve keeps_db_show_category_selection : keeps_db.

(** X25: the video flow's handler of new messages, which does not call
    [check_access] either, never writes to the database: it only moves
    the conversation on and stores files. *)
Lemma video_on_message_keeps_db (cfg : Config) (env : Env) (event : Event) :
  keeps_db (video_handler.on_message cfg env event).
Proof.
  unfold video_handler.on_message, video_handler.on_media.
  keeps_db_steps.
Qed.

Lemma bind_run {A B : Type} (c : M A) (k : A → M B) (w : World) :
  (c ≫= k) w
  = (let '(x, w1, out1) := c w in
     let '(y, w2, out2) := k x w1 in
     (y, w2, out1 ++ out2)).
Proof. reflexivity. Qed.

Lemma db_after_run_db {A B : Type} (f : Database → A * Database)
    (k : A → M B) (w : World) :
  (∀ x, keeps_db (k x)) →
  db ((run_db f ≫= k) w).1.2 = (f (db w)).2.
Proof.
  intros Hk. rewrite bind_run. unfold run_db.
  destruct (f (db w)) as [x d] eqn:Hf.
  set (w1 := {| db := d; fs := fs w; auth_states := auth_states w;
                category_states := category_states w;
                video_states := video_states w |}).
  specialize (Hk x w1).
  destruct (k x w1) as [[y w2] out2]. exact Hk.
Qed.

(** For a sender with access, confirming the deletion of a category
    removes the category row and leaves every row of [videos] in
    place, whatever the store holds. *)
Lemma confirm_delete_keeps_video_rows (cfg : Config) (env : Env)
    (event : Event) (category_id0 : Z) (w : World) :
  check_access cfg env event w = (true, w, []) →
  let w' :=
    (category_handler.on_confirm_delete cfg env event category_id0 w).1.2 in
  videos (db w') = videos (db w)
  ∧ categories (db w')
    = List.filter (λ c, negb (cat_id c =? category_id0)) (categories (db w)).
Proof.
  intros Hok w'.
  assert (Hdb : db w' = (delete_category category_id0 (db w)).2).
  { subst w'. unfold category_handler.on_confirm_delete.
    rewrite bind_run, Hok. cbn [negb].
    match goal with
    | |- context [(run_db ?f ≫= ?k) w] =>
        pose proof (db_after_run_db f k w) as Hrun;
        destruct ((run_db f ≫= k) w) as [[y w2] out2]
    end.
    apply Hrun. intros videos0.
    keeps_db_steps. apply keeps_db_for_each. intros video. keeps_db_steps. }
  rewrite Hdb. split; reflexivity.
Qed.

(** * Further properties *)

(** ** Relating the state before and after a handler *)

Section Preserves.

Context (R : World → World → Prop) `{!PreOrder R}.

Lemma preserves_ret {A : Type} (x : A) : preserves R (mret x).
Proof. intros w. cbn. reflexivity. Qed.

Lemma preserves_bind {A B : Type} (c : M A) (k : A → M B) :
  preserves R c → (∀ x, preserves R (k x)) → preserves R (c ≫= k).
Proof.
  intros Hc Hk w. specialize (Hc w). rewrite bind_run.
  destruct (c w) as [[x w1] out1]. cbn in Hc.
  specialize (Hk x w1). destruct (k x w1) as [[y w2] out2]. cbn in *.
  etransitivity; eassumption.
Qed.

Lemma preserves_tell (a : Action) : preserves R (tell a).
Proof. intros w. cbn. reflexivity. Qed.

Lemma preserves_read_db {A : Type} (f : Database → A) :
  preserves R (read_db f).
Proof. intros w. cbn. reflexivity. Qed.

Lemma preserves_read_fs {A : Type} (f : gmap Py.str Node → A) :
  preserves R (read_fs f).
Proof. intros w. cbn. reflexivity. Qed.

Lemma preserves_get_auth_states : preserves R get_auth_states.
Proof. intros w. cbn. reflexivity. Qed.

Lemma preserves_get_category_states : preserves R get_category_states.
Proof. intros w. cbn. reflexivity. Qed.

Lemma preserves_get_video_states : preserves R get_video_states.
Proof. intros w. cbn. reflexivity. Qed.

Lemma preserves_for_each {A : Type} (l : list A) (body : A → M unit) :
  (∀ x, preserves R (body x)) → preserves R (for_each l body).
Proof.
  intros Hbody. induction l as [|x l IH]; simpl.
  - apply preserves_ret.
  - apply preserves_bind; [apply Hbody|intros _; exact IH].
Qed.

End Preserves.

Create HintDb preserves.

#[local] Hint Resolve preserves_ret preserves_tell preserves_read_db
  preserves_read_fs preserves_get_auth_states preserves_get_category_states
  preserves_get_video_states : preserves.

(** Split a handler at its binds and branches; what is left are the
    steps that write. *)
Ltac preserves_steps :=
  repeat first
    [ progress auto with preserves typeclass_instances
    | apply preserves_bind; [typeclasses eauto| |intros ?]
    | apply preserves_for_each; [typeclasses eauto|intros ?]
    | match goal with
      | |- preserves _ (match ?x with _ => _ end) => destruct x
      end ].

#[local] Instance same_users_preorder : PreOrder same_users.
Proof.
  split; [intros w; reflexivity|].
  intros w1 w2 w3 H12 H23. unfold same_users in *. congruence.
Qed.

#[local] Instance same_files_preorder : PreOrder same_files.
Proof.
  split; [intros w; reflexivity|].
  intros w1 w2 w3 H12 H23. unfold same_files in *. congruence.
Qed.

#[local] Instance same_world_preorder : PreOrder same_world.
Proof.
  split; [intros w; reflexivity|].
  intros w1 w2 w3 H12 H23. unfold same_world in *. congruence.
Qed.

#[local] Instance same_for_others_preorder (uid : Z) :
  PreOrder (same_for_others uid).
Proof.
  split.
  - intros w uid' _. repeat split.
  - intros w1 w2 w3 H12 H23 uid' Hne.
    destruct (H12 uid' Hne) as (Ha & Hc & Hv & Hu).
    destruct (H23 uid' Hne) as (Ha' & Hc' & Hv' & Hu').
    repeat split; congruence.
Qed.

#[local] Instance keeps_db_wf_preorder : PreOrder keeps_db_wf.
Proof.
  split; [intros w H; exact H|].
  intros w1 w2 w3 H12 H23 H. apply H23, H12, H.
Qed.

#[local] Instance keeps_video_states_wf_preorder :
  PreOrder keeps_video_states_wf.
Proof.
  split; [intros w H; exact H|].
  intros w1 w2 w3 H12 H23 H. apply H23, H12, H.
Qed.

(** ** Listings *)

Lemma leb_total (s t : Py.str) : Py.leb s t = true ∨ Py.leb t s = true.
Proof.
  revert t. induction s as [|c s IH]; intros [|d t]; simpl; auto.
  destruct (N.lt_trichotomy c d) as [Hlt|[Heq|Hgt]].
  - left. apply orb_true_iff. left. apply N.ltb_lt. exact Hlt.
  - subst d. rewrite N.ltb_irrefl, N.eqb_refl. simpl. apply IH.
  - right. apply orb_true_iff. left. apply N.ltb_lt. exact Hgt.
Qed.

Lemma leb_trans (s t u : Py.str) :
  Py.leb s t = true → Py.leb t u = true → Py.leb s u = true.
Proof.
  revert t u. induction s as [|c s IH]; intros [|d t] [|e u]; simpl;
    try reflexivity; try discriminate.
  rewrite !orb_true_iff, !andb_true_iff, !N.ltb_lt, !N.eqb_eq.
  intros [Hcd|[Hcd Hst]] [Hde|[Hde Htu]].
  - left. lia.
  - left. lia.
  - left. lia.
  - right. split; [lia|]. eapply IH; eassumption.
Qed.

Section OrderBy.

Context {A : Type} (key : A → Py.str).

Lemma insert_by_perm (x : A) (l : list A) : insert_by key x l ≡ₚ x :: l.
Proof.
  induction l as [|y l IH]; simpl; [reflexivity|].
  destruct (Py.leb (key x) (key y)); [reflexivity|].
  rewrite IH. apply Permutation_swap.
Qed.

Lemma order_by_perm (l : list A) : order_by key l ≡ₚ l.
Proof.
  induction l as [|x l IH]; simpl; [reflexivity|].
  rewrite insert_by_perm. rewrite IH. reflexivity.
Qed.

Lemma insert_by_sorted (x : A) (l : list A) :
  StronglySorted (key_le key) l → StronglySorted (key_le key) (insert_by key x l).
Proof.
  induction 1 as [|y l Hsorted IH Hall]; simpl.
  - constructor; constructor.
  - destruct (Py.leb (key x) (key y)) eqn:Hxy.
    + constructor; [constructor; assumption|].
      constructor; [exact Hxy|].
      eapply Forall_impl; [exact Hall|].
      intros z Hyz. eapply leb_trans; eassumption.
    + constructor; [exact IH|].
      assert (Hyx : key_le key y x).
      { destruct (leb_total (key x) (key y)) as [H|H]; [congruence|exact H]. }
      rewrite insert_by_perm. constructor; assumption.
Qed.

Lemma order_by_sorted (l : list A) : StronglySorted (key_le key) (order_by key l).
Proof.
  induction l as [|x l IH]; simpl; [constructor|].
  apply insert_by_sorted. exact IH.
Qed.

End OrderBy.

(** X1: [get_all_categories] returns every category row exactly once, in
    ascending order of the names. *)
Theorem get_all_categories_sorted (d : Database) :
  get_all_categories d ≡ₚ categories d
  ∧ StronglySorted (key_le cat_name) (get_all_categories d).
Proof.
  split; [apply order_by_perm|apply order_by_sorted].
Qed.

(** X2: [get_videos_by_category] returns the rows of [videos] whose
    [category_id] is the one asked for, each as often as it is stored,
    in ascending order of the titles; for a category without videos
    (also one that does not exist) the result is empty. *)
Theorem get_videos_by_category_sorted (category_id0 : Z) (d : Database) :
  get_videos_by_category category_id0 d
    ≡ₚ List.filter (λ v, category_id v =? category_id0) (videos d)
  ∧ (∀ v, In v (get_videos_by_category category_id0 d)
          ↔ In v (videos d) ∧ category_id v = category_id0)
  ∧ StronglySorted (key_le title) (get_videos_by_category category_id0 d)
  ∧ ((∀ v, In v (videos d) → category_id v ≠ category_id0) →
     get_videos_by_category category_id0 d = []).
Proof.
  assert (Hperm : get_videos_by_category category_id0 d
                    ≡ₚ List.filter (λ v, category_id v =? category_id0)
                                   (videos d))
    by apply order_by_perm.
  split; [exact Hperm|]. split; [|split].
  - intros v. split.
    + intros Hin. apply list_elem_of_In in Hin. rewrite Hperm in Hin.
      apply list_elem_of_In, filter_In in Hin.
      rewrite Z.eqb_eq in Hin. exact Hin.
    + intros [Hin Hid]. apply list_elem_of_In. rewrite Hperm.
      apply list_elem_of_In, filter_In. rewrite Z.eqb_eq. auto.
  - apply order_by_sorted.
  - intros Hnone. apply Permutation_nil_r. rewrite Hperm.
    clear Hperm. induction (videos d) as [|v l IH]; simpl; [reflexivity|].
    destruct (category_id v =? category_id0) eqn:Hid.
    + apply Z.eqb_eq in Hid. destruct (Hnone v); [left; reflexivity|exact Hid].
    + apply IH. intros v' Hin. apply Hnone. right. exact Hin.
Qed.

(** ** The tables *)

Section MapFilter.

Context {A B : Type} (f : A → B) (p : A → bool).

Lemma elem_of_map_filter (y : B) (l : list A) :
  y ∈ List.map f (List.filter p l) → y ∈ List.map f l.
Proof.
  rewrite !list_elem_of_In, !in_map_iff.
  intros (x & Hfx & Hin). apply filter_In in Hin as [Hin _]. eauto.
Qed.

Lemma NoDup_map_filter (l : list A) :
  NoDup (List.map f l) → NoDup (List.map f (List.filter p l)).
Proof.
  induction l as [|x l IH]; simpl; [auto|].
  rewrite NoDup_cons. intros [Hx Hl].
  destruct (p x); simpl; [|auto].
  apply NoDup_cons. split; [|auto].
  intros Hin. apply Hx. eapply elem_of_map_filter. exact Hin.
Qed.

Lemma Forall_filter_bool (P : A → Prop) (l : list A) :
  Forall P l → Forall P (List.filter p l).
Proof.
  induction 1 as [|x l Hx Hl IH]; simpl; [constructor|].
  destruct (p x); [constructor; assumption|assumption].
Qed.

Lemma filter_all (l : list A) :
  (∀ x, In x l → p x = true) → List.filter p l = l.
Proof.
  induction l as [|x l IH]; simpl; [reflexivity|].
  intros Hall. rewrite (Hall x) by (left; reflexivity).
  f_equal. apply IH. intros y Hy. apply Hall. right. exact Hy.
Qed.

End MapFilter.

Lemma find_app_snoc {A : Type} (p : A → bool) (l : list A) (x : A) :
  List.find p (l ++ [x])
  = match List.find p l with
    | Some y => Some y
    | None => if p x then Some x else None
    end.
Proof.
  induction l as [|y l IH]; simpl; [reflexivity|].
  destruct (p y); [reflexivity|exact IH].
Qed.

Lemma find_none_iff {A : Type} (p : A → bool) (l : list A) :
  List.find p l = None ↔ ∀ x, In x l → p x = false.
Proof.
  split; [apply find_none|].
  induction l as [|y l IH]; simpl; [reflexivity|].
  intros Hall. rewrite (Hall y) by (left; reflexivity).
  apply IH. intros x Hx. apply Hall. right. exact Hx.
Qed.

Lemma find_filter_other {A : Type} (p q : A → bool) (l : list A) :
  (∀ x, p x = true → q x = true) →
  List.find p (List.filter q l) = List.find p l.
Proof.
  intros Hpq. induction l as [|y l IH]; simpl; [reflexivity|].
  destruct (q y) eqn:Hq; simpl.
  - destruct (p y); [reflexivity|exact IH].
  - destruct (p y) eqn:Hp; [|exact IH].
    apply Hpq in Hp. congruence.
Qed.

Lemma existsb_name_iff (name : Py.str) (cats : list CategoryRow) :
  existsb (λ c, Py.eqb (cat_name c) name) cats = true
  ↔ name ∈ List.map cat_name cats.
Proof.
  rewrite existsb_exists, list_elem_of_In, in_map_iff.
  split; intros (c & H1 & H2).
  - apply eqb_eq in H2. eauto.
  - exists c. split; [exact H2|]. apply eqb_eq. exact H1.
Qed.

Lemma fresh_rowid_not_in {A : Type} (rowid : A → Z) (seq : Z) (l : list A) :
  Forall (λ x, 0 < rowid x ≤ seq) l → seq + 1 ∉ List.map rowid l.
Proof.
  intros Hall Hin. apply list_elem_of_In, in_map_iff in Hin.
  destruct Hin as (x & Hx & Hin).
  apply list_elem_of_In in Hin.
  rewrite Forall_forall in Hall. specialize (Hall x Hin). lia.
Qed.

Lemma db_wf_empty : db_wf (init_db empty_db).
Proof.
  unfold db_wf. cbn. repeat split; try constructor; lia.
Qed.

Lemma db_wf_save_user_access (now0 uid : Z) (name : option Py.str)
    (d0 : Z) (d : Database) :
  db_wf d → db_wf (save_user_access now0 uid name d0 d).2.
Proof. intros H. exact H. Qed.

Lemma db_wf_add_category (name : Py.str) (d : Database) :
  db_wf d → db_wf (add_category name d).2.
Proof.
  intros Hwf. unfold add_category, sql_insert_category.
  destruct (existsb _ (categories d)) eqn:Hex; [exact Hwf|].
  destruct Hwf as (Hids & Hnames & Hvids & Hcat & Hvid & Hcs & Hvs).
  unfold db_wf. cbn. rewrite !map_app. cbn.
  repeat split; try assumption; try lia.
  - apply NoDup_app. split; [exact Hids|]. split; [|apply NoDup_singleton].
    intros x Hx Hx'. apply list_elem_of_singleton in Hx'. subst x.
    exact (fresh_rowid_not_in cat_id _ _ Hcat Hx).
  - apply NoDup_app. split; [exact Hnames|]. split; [|apply NoDup_singleton].
    intros x Hx Hx'. apply list_elem_of_singleton in Hx'. subst x.
    apply existsb_name_iff in Hx. congruence.
  - apply Forall_app. split.
    + eapply Forall_impl; [exact Hcat|]. cbn. intros c Hc. lia.
    + constructor; [cbn; lia|constructor].
Qed.

Lemma db_wf_delete_category (category_id0 : Z) (d : Database) :
  db_wf d → db_wf (delete_category category_id0 d).2.
Proof.
  intros (Hids & Hnames & Hvids & Hcat & Hvid & Hcs & Hvs).
  unfold db_wf. cbn.
  repeat split; try assumption.
  - apply NoDup_map_filter. exact Hids.
  - apply NoDup_map_filter. exact Hnames.
  - apply Forall_filter_bool. exact Hcat.
Qed.

Lemma db_wf_add_video (title0 video_type path_or_url0 : option Py.str)
    (category_id0 : Z) (thumbnail_path0 : option Py.str) (d : Database) :
  db_wf d →
  db_wf (add_video title0 video_type path_or_url0 category_id0
                   thumbnail_path0 d).2.
Proof.
  intros Hwf. unfold add_video, sql_insert_video.
  destruct title0 as [t|], video_type as [ty|], path_or_url0 as [p|];
    try exact Hwf.
  cbn [get_connection sqlite3_connect foreign_keys andb].
  destruct Hwf as (Hids & Hnames & Hvids & Hcat & Hvid & Hcs & Hvs).
  unfold db_wf. cbn. rewrite !map_app. cbn.
  repeat split; try assumption; try lia.
  - apply NoDup_app. split; [exact Hvids|]. split; [|apply NoDup_singleton].
    intros x Hx Hx'. apply list_elem_of_singleton in Hx'. subst x.
    exact (fresh_rowid_not_in vid_id _ _ Hvid Hx).
  - apply Forall_app. split.
    + eapply Forall_impl; [exact Hvid|]. cbn. intros v Hv. lia.
    + constructor; [cbn; lia|constructor].
Qed.

Lemma db_wf_delete_video (video_id : Z) (d : Database) :
  db_wf d → db_wf (delete_video video_id d).2.
Proof.
  intros (Hids & Hnames & Hvids & Hcat & Hvid & Hcs & Hvs).
  unfold db_wf. cbn.
  repeat split; try assumption.
  - apply NoDup_map_filter. exact Hvids.
  - apply Forall_filter_bool. exact Hvid.
Qed.

Lemma get_video_fresh (d : Database) :
  db_wf d → get_video (videos_seq d + 1) d = None.
Proof.
  intros (_ & _ & _ & _ & Hvid & _). unfold get_video.
  apply find_none_iff. intros v Hin. apply Z.eqb_neq.
  apply list_elem_of_In in Hin.
  rewrite Forall_forall in Hvid. specialize (Hvid v Hin). lia.
Qed.

(** X3: in a store with well-formed keys, [add_video] with a title, a
    kind and a location stores the row under the next id of the table,
    whatever [category_id] is given (that the category exists is not
    checked); [get_video] then returns that row, the listing of its
    category contains it, and every other lookup answers as before. *)
Theorem add_video_round_trip (t ty p : Py.str) (cid : Z)
    (thumb : option Py.str) (d : Database) :
  db_wf d →
  let rowid := videos_seq d + 1 in
  let row := {| vid_id := rowid; title := t; type := ty; path_or_url := p;
                category_id := cid; thumbnail_path := thumb |} in
  ∃ d', add_video (Some t) (Some ty) (Some p) cid thumb d = (Some rowid, d')
        ∧ get_video rowid d' = Some row
        ∧ (∀ id', id' ≠ rowid → get_video id' d' = get_video id' d)
        ∧ In row (get_videos_by_category cid d')
        ∧ categories d' = categories d
        ∧ users d' = users d.
Proof.
  intros Hwf rowid row. eexists. split; [reflexivity|].
  cbn [get_video videos]. unfold get_video.
  split; [|split; [|split; [|split; reflexivity]]].
  - cbn [videos]. rewrite find_app_snoc.
    pose proof (get_video_fresh d Hwf) as Hfresh. unfold get_video in Hfresh.
    fold rowid in Hfresh. rewrite Hfresh. cbn [vid_id].
    rewrite Z.eqb_refl. reflexivity.
  - intros id' Hne. cbn [videos]. rewrite find_app_snoc.
    destruct (List.find _ (videos d)); [reflexivity|].
    cbn [vid_id].
    destruct (Z.eqb_spec (videos_seq d + 1) id') as [Heq|_];
      [subst rowid; congruence|reflexivity].
  - apply list_elem_of_In. unfold get_videos_by_category.
    rewrite order_by_perm. apply list_elem_of_In.
    unfold select_videos_by_category. apply filter_In. cbn [videos].
    split; [apply in_or_app; right; left; reflexivity|].
    cbn [category_id]. apply Z.eqb_refl.
Qed.

(** Closed instances of [db_wf]. *)
Ltac not_in_list :=
  let H := fresh in
  intros H;
  repeat (apply elem_of_cons in H; destruct H as [H|H]; [discriminate H|]);
  apply elem_of_nil in H; exact H.

Ltac db_wf_closed :=
  unfold db_wf; vm_compute;
  repeat split; try discriminate;
  repeat first [ apply NoDup_nil_2 | apply NoDup_cons_2
               | apply Forall_nil_2 | apply Forall_cons_2 ];
  try (split; [reflexivity|discriminate]);
  not_in_list.

Lemma library_db_wf : db_wf library_db.
Proof. db_wf_closed. Qed.

(** X3, in the sample library: a link filed under category 99, which
    does not exist, is stored as row 4. *)
Lemma add_video_round_trip_witness :
  ∃ d', add_video (Some (py"Loose")) (Some (py"link"))
                  (Some (py"https://example.com/x")) 99 None library_db
        = (Some 4, d')
        ∧ get_video 4 d'
          = Some {| vid_id := 4; title := py"Loose"; type := py"link";
                    path_or_url := py"https://example.com/x";
                    category_id := 99; thumbnail_path := None |}.
Proof.
  destruct (add_video_round_trip (py"Loose") (py"link")
              (py"https://example.com/x") 99 None library_db)
    as (d' & Hadd & Hget & _).
  - exact library_db_wf.
  - exists d'. split; [exact Hadd|exact Hget].
Defined.

Lemma database_eta (d : Database) :
  {| users := users d; categories := categories d;
     categories_seq := categories_seq d; videos := videos d;
     videos_seq := videos_seq d |} = d.
Proof. destruct d; reflexivity. Qed.

Lemma delete_video_missing (video_id : Z) (d : Database) :
  get_video video_id d = None → delete_video video_id d = (None, d).
Proof.
  intros Hnone. unfold delete_video. rewrite Hnone. f_equal.
  rewrite filter_all; [apply database_eta|].
  intros v Hin. apply negb_true_iff.
  unfold get_video in Hnone. rewrite find_none_iff in Hnone.
  apply Hnone. exact Hin.
Qed.

Lemma get_video_after_delete (video_id id' : Z) (d : Database) :
  get_video id' (delete_video video_id d).2
  = if id' =? video_id then None else get_video id' d.
Proof.
  unfold get_video, delete_video. cbn [snd videos].
  destruct (Z.eqb_spec id' video_id) as [->|Hne].
  - apply find_none_iff. intros v Hin. apply filter_In in Hin as [_ Hid].
    apply negb_true_iff in Hid. exact Hid.
  - apply find_filter_other. intros v Hv. apply Z.eqb_eq in Hv.
    apply negb_true_iff, Z.eqb_neq. congruence.
Qed.

(** X4: [delete_video] returns the row [get_video] finds for the id and
    removes every row of that id: the id is not found afterwards, every
    other id is found as before, and categories and users are not
    touched.  For an id that is not stored it returns [None] and leaves
    the database as it was. *)
Theorem delete_video_spec (video_id : Z) (d : Database) :
  (delete_video video_id d).1 = get_video video_id d
  ∧ get_video video_id (delete_video video_id d).2 = None
  ∧ (∀ id', id' ≠ video_id →
            get_video id' (delete_video video_id d).2 = get_video id' d)
  ∧ categories (delete_video video_id d).2 = categories d
  ∧ users (delete_video video_id d).2 = users d
  ∧ (get_video video_id d = None → delete_video video_id d = (None, d)).
Proof.
  split; [reflexivity|]. split.
  { rewrite get_video_after_delete, Z.eqb_refl. reflexivity. }
  split.
  { intros id' Hne. rewrite get_video_after_delete.
    destruct (Z.eqb_spec id' video_id); [contradiction|reflexivity]. }
  split; [reflexivity|]. split; [reflexivity|].
  apply delete_video_missing.
Qed.

Lemma add_category_duplicate (name : Py.str) (d : Database) :
  name ∈ List.map cat_name (categories d) →
  add_category name d = (None, d).
Proof.
  intros Hin. apply existsb_name_iff in Hin.
  unfold add_category, sql_insert_category. rewrite Hin. reflexivity.
Qed.

Lemma add_category_fresh (name : Py.str) (d : Database) :
  name ∉ List.map cat_name (categories d) →
  add_category name d
  = (Some (categories_seq d + 1),
     {| users := users d;
        categories :=
          categories d
          ++ [ {| cat_id := categories_seq d + 1; cat_name := name |} ];
        categories_seq := categories_seq d + 1;
        videos := videos d;
        videos_seq := videos_seq d |}).
Proof.
  intros Hnot. unfold add_category, sql_insert_category.
  destruct (existsb _ (categories d)) eqn:Hex; [|reflexivity].
  apply existsb_name_iff in Hex. contradiction.
Qed.

(** X5: in a store with well-formed keys, [add_category] refuses a name
    that is already taken ([None], nothing changes) and stores any other
    name (the empty string included) under an id no category has: the
    listing then holds the new row next to the old ones, and videos and
    users are not touched. *)
Theorem add_category_spec (name : Py.str) (d : Database) :
  db_wf d →
  (name ∈ List.map cat_name (categories d) →
   add_category name d = (None, d))
  ∧ (name ∉ List.map cat_name (categories d) →
     ∃ rowid d',
       add_category name d = (Some rowid, d')
       ∧ (rowid ∉ List.map cat_id (categories d))
       ∧ 0 < rowid
       ∧ (∀ c, In c (get_all_categories d')
               ↔ In c (get_all_categories d)
                 ∨ c = {| cat_id := rowid; cat_name := name |})
       ∧ videos d' = videos d
       ∧ users d' = users d).
Proof.
  intros (_ & _ & _ & Hcat & _ & Hcs & _).
  split; [apply add_category_duplicate|].
  intros Hnot. eexists _, _. split; [apply add_category_fresh, Hnot|].
  split; [exact (fresh_rowid_not_in cat_id _ _ Hcat)|].
  split; [lia|]. split; [|split; reflexivity].
  intros c. unfold get_all_categories. cbn [categories].
  rewrite <- !list_elem_of_In, !order_by_perm, !list_elem_of_In.
  rewrite in_app_iff. cbn [In]. intuition congruence.
Qed.

(** X5, in the sample library: "Demo" is taken, "News" becomes
    category 3. *)
Lemma add_category_spec_witness :
  add_category (py"Demo") library_db = (None, library_db)
  ∧ ∃ d', add_category (py"News") library_db = (Some 3, d').
Proof.
  destruct (add_category_spec (py"Demo") library_db library_db_wf)
    as [Hdup _].
  destruct (add_category_spec (py"News") library_db library_db_wf)
    as [_ Hnew].
  split.
  - apply Hdup. vm_compute. apply list_elem_of_here.
  - destruct Hnew as (rowid & d' & Hadd & _); [vm_compute; not_in_list|].
    exists d'. rewrite Hadd. f_equal. f_equal.
    vm_compute in Hadd. congruence.
Defined.

(** X6: a grant replaces whatever was stored for the user: of two grants
    in a row only the second counts, so the expiry is reset and not
    extended; the access of every other user is as before. *)
Theorem save_user_access_overrides (now1 now2 uid uid' t d1 d2 : Z)
    (name1 name2 : option Py.str) (d : Database) :
  let first := (save_user_access now1 uid name1 d1 d).2 in
  let second := (save_user_access now2 uid name2 d2 first).2 in
  second = (save_user_access now2 uid name2 d2 d).2
  ∧ check_user_access t uid second = (t <? now2 + d2)
  ∧ (uid' ≠ uid →
     check_user_access t uid' second = check_user_access t uid' d).
Proof.
  cbn. split; [|split].
  - f_equal. apply insert_insert_eq.
  - unfold check_user_access, get_user. cbn [users].
    rewrite lookup_insert_eq. reflexivity.
  - intros Hne. unfold check_user_access, get_user. cbn [users].
    rewrite !lookup_insert_ne by congruence. reflexivity.
Qed.

(** X6, with numbers: a one-hour grant at second 0 followed by a
    one-minute grant at second 10 leaves the user without access at
    second 100. *)
Lemma save_user_access_overrides_witness :
  check_user_access 100 7
    (save_user_access 10 7 None 60
       (save_user_access 0 7 None 3600 empty_db).2).2
  = false.
Proof.
  destruct (save_user_access_overrides 0 10 7 8 100 3600 60 None None
              empty_db) as (_ & Hcheck & _).
  cbv zeta in Hcheck. rewrite Hcheck. reflexivity.
Defined.

(** ** File cleanup *)

Lemma lookup_delete_cases (fs : gmap Py.str Node) (p q : Py.str) :
  delete p fs !! q = fs !! q ∨ (delete p fs !! q = None ∧ q = p).
Proof.
  destruct (decide (p = q)) as [->|Hne].
  - right. split; [apply lookup_delete_eq|reflexivity].
  - left. apply lookup_delete_ne. exact Hne.
Qed.

Lemma delete_video_files_frame (video : VideoRow)
    (fs : gmap Py.str Node) (q : Py.str) :
  (delete_video_files video fs).1.2 !! q = fs !! q
  ∨ ((delete_video_files video fs).1.2 !! q = None
     ∧ type video = py"file"
     ∧ (q = path_or_url video ∨ thumbnail_path video = Some q)).
Proof.
  unfold delete_video_files.
  destruct (Py.eqb (type video) (py"file")) eqn:Hty; cbn [negb];
    [apply eqb_eq in Hty|left; reflexivity].
  unfold os.exists_, os.remove.
  destruct (fs !! path_or_url video) as [[|c]|] eqn:Hp; cbn;
    try (left; reflexivity).
  - (* the video file is there *)
    destruct (thumbnail_path video) as [tp|] eqn:Htp.
    2: { destruct (lookup_delete_cases fs (path_or_url video) q)
           as [H|[H ->]]; [left; exact H|right; auto]. }
    destruct (Py.truthy tp); cbn.
    2: { destruct (lookup_delete_cases fs (path_or_url video) q)
           as [H|[H ->]]; [left; exact H|right; auto]. }
    destruct (delete (path_or_url video) fs !! tp) as [[|c']|] eqn:Ht; cbn.
    + destruct (lookup_delete_cases fs (path_or_url video) q)
        as [H|[H ->]]; [left; exact H|right; auto].
    + destruct (lookup_delete_cases (delete (path_or_url video) fs) tp q)
        as [H|[H ->]]; [|right; auto].
      rewrite H.
      destruct (lookup_delete_cases fs (path_or_url video) q)
        as [H'|[H' ->]]; [left; exact H'|right; auto].
    + destruct (lookup_delete_cases fs (path_or_url video) q)
        as [H|[H ->]]; [left; exact H|right; auto].
  - (* the video file is missing *)
    destruct (thumbnail_path video) as [tp|] eqn:Htp; [|left; reflexivity].
    destruct (Py.truthy tp); cbn; [|left; reflexivity].
    destruct (fs !! tp) as [[|c']|] eqn:Ht; cbn; try (left; reflexivity).
    destruct (lookup_delete_cases fs tp q) as [H|[H ->]];
      [left; exact H|right; auto].
Qed.

(** X7: [delete_video_files] never creates or changes a file, and the
    only paths it can remove are the video's own location and its own
    thumbnail path, and only for a video of kind ["file"]. *)
Theorem delete_video_files_only_own_files (video : VideoRow)
    (fs : gmap Py.str Node) (q : Py.str) :
  (delete_video_files video fs).1.2 !! q = fs !! q
  ∨ ((delete_video_files video fs).1.2 !! q = None
     ∧ type video = py"file"
     ∧ (q = path_or_url video ∨ thumbnail_path video = Some q)).
Proof. apply delete_video_files_frame. Qed.

(** X8: for a video of kind ["file"], a [True] result means that neither
    the video's location nor its non-empty thumbnail path exists
    afterwards.  Missing files are no failure: unless one of the two
    paths names a directory the result is [True], and when neither path
    exists the file system is left as it was. *)
Theorem delete_video_files_outcome (video : VideoRow)
    (fs : gmap Py.str Node) :
  type video = py"file" →
  let result := delete_video_files video fs in
  (result.1.1 = true →
   os.exists_ result.1.2 (path_or_url video) = false
   ∧ ∀ tp, thumbnail_path video = Some tp → Py.truthy tp = true →
           os.exists_ result.1.2 tp = false)
  ∧ (fs !! path_or_url video ≠ Some Directory →
     (∀ tp, thumbnail_path video = Some tp → fs !! tp ≠ Some Directory) →
     result.1.1 = true)
  ∧ (fs !! path_or_url video = None →
     (∀ tp, thumbnail_path video = Some tp → fs !! tp = None) →
     result.1 = (true, fs)).
Proof.
  intros Hty result. subst result. apply eqb_eq in Hty.
  unfold delete_video_files. rewrite Hty. cbn [negb].
  unfold os.exists_, os.remove.
  destruct (fs !! path_or_url video) as [[|c]|] eqn:Hp; cbn [fst snd].
  - (* a directory *)
    split; [discriminate|]. split; [congruence|discriminate].
  - (* a regular file *)
    destruct (thumbnail_path video) as [tp|] eqn:Htp; cbn [fst snd].
    2: { rewrite lookup_delete_eq. repeat split; try discriminate. }
    destruct (Py.truthy tp) eqn:Htruthy; cbn [fst snd].
    2: { rewrite lookup_delete_eq.
         split; [|split; [reflexivity|discriminate]].
         intros _. split; [reflexivity|].
         intros tp' [= <-]. congruence. }
    destruct (delete (path_or_url video) fs !! tp) as [[|c']|] eqn:Ht; cbn [fst snd].
    + split; [discriminate|]. split; [|discriminate].
      intros _ Hnodir. exfalso. apply (Hnodir tp eq_refl).
      destruct (lookup_delete_cases fs (path_or_url video) tp)
        as [H|[H _]]; congruence.
    + split; [|split; [reflexivity|discriminate]].
      intros _. split.
      * destruct (lookup_delete_cases (delete (path_or_url video) fs) tp
                    (path_or_url video)) as [H|[H _]];
          rewrite H; [rewrite lookup_delete_eq|]; reflexivity.
      * intros tp' [= <-] _. rewrite lookup_delete_eq. reflexivity.
    + split; [|split; [reflexivity|discriminate]].
      intros _. rewrite lookup_delete_eq. split; [reflexivity|].
      intros tp' [= <-] _. rewrite Ht. reflexivity.
  - (* missing *)
    destruct (thumbnail_path video) as [tp|] eqn:Htp; cbn [fst snd].
    2: { rewrite Hp. repeat split; discriminate. }
    destruct (Py.truthy tp) eqn:Htruthy; cbn [fst snd].
    2: { rewrite Hp. split; [|split; reflexivity].
         intros _. split; [reflexivity|]. intros tp' [= <-]. congruence. }
    destruct (fs !! tp) as [[|c']|] eqn:Ht; cbn [fst snd].
    + split; [discriminate|]. split.
      * intros _ Hnodir. exfalso. exact (Hnodir tp eq_refl Ht).
      * intros _ Hnone. specialize (Hnone tp eq_refl). congruence.
    + split; [|split; [reflexivity|]].
      * intros _. split.
        -- destruct (lookup_delete_cases fs tp (path_or_url video))
             as [H|[H _]]; rewrite H; [rewrite Hp|]; reflexivity.
        -- intros tp' [= <-] _. rewrite lookup_delete_eq. reflexivity.
      * intros _ Hnone. specialize (Hnone tp eq_refl). congruence.
    + rewrite Hp. split; [|split; reflexivity].
      intros _. split; [reflexivity|].
      intros tp' [= <-] _. rewrite Ht. reflexivity.
Qed.

(** X8, at a video whose files are both gone already. *)
Lemma delete_video_files_outcome_witness :
  (delete_video_files clip_row media_fs).1 = (true, media_fs).
Proof.
  pose proof (delete_video_files_outcome clip_row media_fs eq_refl)
    as (_ & _ & Hmissing).
  apply Hmissing; [reflexivity|]. intros tp [= <-]. reflexivity.
Defined.

(** ** What ingestion leaves on disk *)

Lemma generate_outcome (video_path target : Py.str)
    (fs : gmap Py.str Node) :
  _generate video_path target fs = (None, fs)
  ∨ ∃ v image nw nh,
      cv2.VideoCapture fs video_path = Some v
      ∧ frame_count v ≠ 0
      ∧ frame_at v (frame_count v / 2) = Some image
      ∧ 0 < nw ∧ 0 < nh
      ∧ _generate video_path target fs
        = (Some target,
           <[target := RegularFile (Picture (Resized image nw nh))]> fs).
Proof.
  unfold _generate.
  destruct (cv2.VideoCapture fs video_path) as [v|]; [|left; reflexivity].
  destruct (Z.eqb_spec (frame_count v) 0) as [Hzero|Hpos];
    [left; reflexivity|].
  destruct (frame_at v (frame_count v / 2)) as [image|] eqn:Hframe;
    [|left; reflexivity].
  destruct (shape image) as [h w].
  destruct (thumbnail_size h w) as [[nw nh]|]; [|left; reflexivity].
  unfold cv2.resize.
  destruct (0 <? nw) eqn:Hnw; cbn [andb]; [|left; reflexivity].
  destruct (0 <? nh) eqn:Hnh; [|left; reflexivity].
  apply Z.ltb_lt in Hnw, Hnh.
  unfold cv2.imwrite.
  destruct (fs !! os.dirname target) as [[|c]|]; try (left; reflexivity).
  destruct (fs !! target) as [[|c]|]; [left; reflexivity| |];
    right; exists v, image, nw, nh; auto 10.
Qed.

(** X9: a thumbnail generation that fails leaves the file system exactly
    as it was.  One that succeeds returns
    [THUMBNAIL_DIR/<basename of the video>.jpg] and has written that one
    file and no other: the frame at position [total_frames // 2] of the
    video, resized to a size with positive sides. *)
Theorem generate_thumbnail_writes_only_thumbnail (cfg : Config)
    (video_path : Py.str) (fs : gmap Py.str Node) :
  let target :=
    os.join (THUMBNAIL_DIR cfg) (os.basename video_path ++ py".jpg") in
  generate_thumbnail cfg video_path fs = (None, fs)
  ∨ ∃ v image nw nh,
      fs !! video_path = Some (RegularFile (Video v))
      ∧ frame_count v ≠ 0
      ∧ frame_at v (frame_count v / 2) = Some image
      ∧ 0 < nw ∧ 0 < nh
      ∧ generate_thumbnail cfg video_path fs
        = (Some target,
           <[target := RegularFile (Picture (Resized image nw nh))]> fs).
Proof.
  intros target. unfold generate_thumbnail.
  destruct (os.exists_ fs video_path); cbn [negb]; [|left; reflexivity].
  fold target.
  destruct (generate_outcome video_path target fs)
    as [Hfail|(v & image & nw & nh & Hcap & Hrest)]; [left; exact Hfail|].
  right. exists v, image, nw, nh. split; [|exact Hrest].
  unfold cv2.VideoCapture in Hcap.
  destruct (fs !! video_path) as [[|[v'| |]]|]; congruence.
Qed.

Lemma generate_thumbnail_keeps_files (cfg : Config) (video_path p : Py.str)
    (fs : gmap Py.str Node) :
  os.exists_ fs p = true →
  os.exists_ (generate_thumbnail cfg video_path fs).2 p = true.
Proof.
  intros Hthere. unfold generate_thumbnail.
  destruct (os.exists_ fs video_path); cbn [negb snd]; [|exact Hthere].
  destruct (generate_outcome video_path
              (os.join (THUMBNAIL_DIR cfg)
                       (os.basename video_path ++ py".jpg")) fs)
    as [->|(v & image & nw & nh & _ & _ & _ & _ & _ & ->)];
    cbn [snd]; [exact Hthere|].
  unfold os.exists_ in *. rewrite lookup_insert.
  case_decide; [reflexivity|exact Hthere].
Qed.

(** X10: whatever the message and the download, [save_video_file] never
    returns a thumbnail without a video path, and a video path it
    returns is not empty and names a file that exists when the call
    returns.  A message whose media is not a document of a [video/]
    type is refused before anything is downloaded: the result is
    [(None, None)] and the file system is untouched. *)
Theorem save_video_file_result (cfg : Config) (env : Env)
    (message_media : option Media) (fs : gmap Py.str Node) :
  let result := save_video_file cfg env message_media fs in
  (result.1.1 = None → result.1.2 = None)
  ∧ (∀ p, result.1.1 = Some p →
          Py.truthy p = true ∧ os.exists_ result.2 p = true)
  ∧ ((∀ mime, message_media = Some (MessageMediaDocument (Some mime)) →
              Py.startswith mime (py"video/") = false) →
     result = ((None, None), fs)).
Proof.
  intros result. subst result. unfold save_video_file.
  destruct message_media as [[url|[mime|]|]|];
    try (cbn [fst snd]; repeat split; congruence).
  destruct (Py.startswith mime (py"video/")) eqn:Hmime.
  2: { cbn [fst snd]. repeat split; congruence. }
  assert (Hrefused : ∀ fs',
    (((None, None, fs') : option Py.str * option Py.str * _).1.1 = None →
     ((None, None, fs') : option Py.str * option Py.str * _).1.2 = None)
    ∧ (∀ p, ((None, None, fs') : option Py.str * option Py.str * _).1.1
            = Some p →
            Py.truthy p = true
            ∧ os.exists_ ((None, None, fs')
                          : option Py.str * option Py.str * _).2 p = true)
    ∧ ((∀ mime0,
          Some (MessageMediaDocument (Some mime))
          = Some (MessageMediaDocument (Some mime0)) →
          Py.startswith mime0 (py"video/") = false) →
       ((None, None, fs') : option Py.str * option Py.str * _)
       = (None, None, fs))).
  { intros fs'. cbn [fst snd]. split; [reflexivity|].
    split; [intros p Hp; discriminate Hp|].
    intros Hnot. specialize (Hnot mime eq_refl). congruence. }
  destruct (download_media env _) as [|[p|] written];
    try apply Hrefused.
  set (fs1 := match written with
              | Some c => <[p := RegularFile c]> fs
              | None => fs
              end).
  destruct (Py.truthy p) eqn:Hp; cbn [negb orb]; [|apply Hrefused].
  destruct (os.exists_ fs1 p) eqn:Hthere; cbn [negb]; [|apply Hrefused].
  pose proof (generate_thumbnail_keeps_files cfg p p fs1 Hthere) as Hkept.
  destruct (generate_thumbnail cfg p fs1) as [thumb fs2]. cbn [fst snd] in *.
  split; [discriminate|]. split.
  - intros p' [= <-]. split; assumption.
  - intros Hnot. specialize (Hnot mime eq_refl). congruence.
Qed.

(** X10, at a picture sent as a document. *)
Lemma save_video_file_result_witness :
  save_video_file sample_cfg (env_downloading Blob)
    (Some (MessageMediaDocument (Some (py"image/png")))) media_fs
  = ((None, None), media_fs).
Proof.
  apply (save_video_file_result sample_cfg (env_downloading Blob)
           (Some (MessageMediaDocument (Some (py"image/png")))) media_fs).
  intros mime [= <-]. reflexivity.
Defined.

(** ** The steps that write, relation by relation *)

Ltac unfold_step :=
  intros ?w;
  cbv [preserves modify_auth_states modify_category_states
       modify_video_states run_db run_fs do_delete_video_files];
  repeat match goal with
         | |- context [delete_video_files ?v ?f] =>
             destruct (delete_video_files v f) as [[? ?] ?]
         | |- context [let '(_, _) := ?e in _] => destruct e eqn:?
         end;
  cbn [fst snd db fs auth_states category_states video_states].

Section WritesUsers.

Lemma same_users_modify_auth_states (f : gmap Z Z → gmap Z Z) :
  preserves same_users (modify_auth_states f).
Proof. unfold_step. reflexivity. Qed.

Lemma same_users_modify_category_states f :
  preserves same_users (modify_category_states f).
Proof. unfold_step. reflexivity. Qed.

Lemma same_users_modify_video_states f :
  preserves same_users (modify_video_states f).
Proof. unfold_step. reflexivity. Qed.

Lemma same_users_run_fs {A : Type}
    (f : gmap Py.str Node → A * gmap Py.str Node) :
  preserves same_users (run_fs f).
Proof. unfold_step. reflexivity. Qed.

Lemma same_users_do_delete_video_files (video : VideoRow) :
  preserves same_users (do_delete_video_files video).
Proof. unfold_step. reflexivity. Qed.

Lemma same_users_run_db {A : Type} (f : Database → A * Database) :
  (∀ d, users (f d).2 = users d) → preserves same_users (run_db f).
Proof.
  intros Hf. unfold_step. unfold same_users. cbn [db].
  match goal with H : f _ = _ |- _ => rewrite <- (Hf (db w)), H end.
  reflexivity.
Qed.

Lemma add_category_users (name : Py.str) (d : Database) :
  users (add_category name d).2 = users d.
Proof.
  unfold add_category, sql_insert_category.
  destruct (existsb _ _); reflexivity.
Qed.

Lemma add_video_users title0 video_type path_or_url0 category_id0
    thumbnail_path0 (d : Database) :
  users (add_video title0 video_type path_or_url0 category_id0
                   thumbnail_path0 d).2 = users d.
Proof.
  unfold add_video, sql_insert_video.
  destruct title0, video_type, path_or_url0; reflexivity.
Qed.

End WritesUsers.

#[local] Hint Resolve same_users_modify_auth_states
  same_users_modify_category_states same_users_modify_video_states
  same_users_run_fs same_users_do_delete_video_files : preserves.

#[local] Hint Extern 1 (preserves same_users (run_db (add_category _))) =>
  apply same_users_run_db; intros; apply add_category_users : preserves.
#[local] Hint Extern 1 (preserves same_users (run_db (add_video _ _ _ _ _))) =>
  apply same_users_run_db; intros; apply add_video_users : preserves.
#[local] Hint Extern 1 (preserves same_users (run_db (delete_category _))) =>
  apply same_users_run_db; intros; reflexivity : preserves.
#[local] Hint Extern 1 (preserves same_users (run_db (delete_video _))) =>
  apply same_users_run_db; intros; reflexivity : preserves.

Section WritesFiles.

Lemma same_files_modify_auth_states (f : gmap Z Z → gmap Z Z) :
  preserves same_files (modify_auth_states f).
Proof. unfold_step. reflexivity. Qed.

Lemma same_files_modify_category_states f :
  preserves same_files (modify_category_states f).
Proof. unfold_step. reflexivity. Qed.

Lemma same_files_modify_video_states f :
  preserves same_files (modify_video_states f).
Proof. unfold_step. reflexivity. Qed.

Lemma same_files_run_db {A : Type} (f : Database → A * Database) :
  preserves same_files (run_db f).
Proof. unfold_step. reflexivity. Qed.

End WritesFiles.

#[local] Hint Resolve same_files_modify_auth_states
  same_files_modify_category_states same_files_modify_video_states
  same_files_run_db : preserves.

Section WritesWf.

Lemma keeps_db_wf_modify_auth_states (f : gmap Z Z → gmap Z Z) :
  preserves keeps_db_wf (modify_auth_states f).
Proof. unfold_step. intros H. exact H. Qed.

Lemma keeps_db_wf_modify_category_states f :
  preserves keeps_db_wf (modify_category_states f).
Proof. unfold_step. intros H. exact H. Qed.

Lemma keeps_db_wf_modify_video_states f :
  preserves keeps_db_wf (modify_video_states f).
Proof. unfold_step. intros H. exact H. Qed.

Lemma keeps_db_wf_run_fs {A : Type}
    (f : gmap Py.str Node → A * gmap Py.str Node) :
  preserves keeps_db_wf (run_fs f).
Proof. unfold_step. intros H. exact H. Qed.

Lemma keeps_db_wf_do_delete_video_files (video : VideoRow) :
  preserves keeps_db_wf (do_delete_video_files video).
Proof. unfold_step. intros H. exact H. Qed.

Lemma keeps_db_wf_run_db {A : Type} (f : Database → A * Database) :
  (∀ d, db_wf d → db_wf (f d).2) → preserves keeps_db_wf (run_db f).
Proof.
  intros Hf. unfold_step. unfold keeps_db_wf. cbn [db]. intros Hwf.
  match goal with H : f _ = _ |- _ =>
    specialize (Hf (db w) Hwf); rewrite H in Hf end.
  exact Hf.
Qed.

End WritesWf.

#[local] Hint Resolve keeps_db_wf_modify_auth_states
  keeps_db_wf_modify_category_states keeps_db_wf_modify_video_states
  keeps_db_wf_run_fs keeps_db_wf_do_delete_video_files : preserves.

#[local] Hint Extern 1 (preserves keeps_db_wf (run_db (save_user_access _ _ _ _))) =>
  apply keeps_db_wf_run_db; intros; apply db_wf_save_user_access; assumption
  : preserves.
#[local] Hint Extern 1 (preserves keeps_db_wf (run_db (add_category _))) =>
  apply keeps_db_wf_run_db; intros; apply db_wf_add_category; assumption
  : preserves.
#[local] Hint Extern 1 (preserves keeps_db_wf (run_db (add_video _ _ _ _ _))) =>
  apply keeps_db_wf_run_db; intros; apply db_wf_add_video; assumption
  : preserves.
#[local] Hint Extern 1 (preserves keeps_db_wf (run_db (delete_category _))) =>
  apply keeps_db_wf_run_db; intros; apply db_wf_delete_category; assumption
  : preserves.
#[local] Hint Extern 1 (preserves keeps_db_wf (run_db (delete_video _))) =>
  apply keeps_db_wf_run_db; intros; apply db_wf_delete_video; assumption
  : preserves.

(** ** Invariants of a session *)

Ltac unfold_handlers :=
  cbv [handle_update on_new_message on_callback
       start_handler message_handler check_access show_main_menu
       category_handler.on_manage_categories
       category_handler.on_category_add
       category_handler.on_category_delete
       category_handler.on_delete_category_selected
       category_handler.on_confirm_delete
       category_handler.on_back_to_categories
       category_handler.on_back_to_main
       category_handler.on_message
       category_handler.show_categories_menu
       video_handler.on_manage_videos
       video_handler.on_video_add
       video_handler.on_video_delete
       video_handler.on_delete_video_category_selected
       video_handler.on_delete_video_selected
       video_handler.on_confirm_delete_video
       video_handler.on_back_to_videos
       video_handler.on_category_selected
       video_handler.on_categories_menu
       video_handler.on_browse_category
       video_handler.on_play_video
       video_handler.send_video
       video_handler.on_media
       video_handler.on_message
       video_handler.show_category_selection].

Lemma handle_update_keeps_db_wf (cfg : Config) (env : Env) (u : Update) :
  preserves keeps_db_wf (handle_update cfg env u).
Proof.
  destruct u as [event|event data]; [|destruct data];
    unfold_handlers; preserves_steps.
Qed.

Lemma preserves_handle_updates (R : World → World → Prop) `{!PreOrder R}
    (cfg : Config) (us : list (Env * Update)) :
  (∀ env u, In (env, u) us → preserves R (handle_update cfg env u)) →
  preserves R (handle_updates cfg us).
Proof.
  induction us as [|[env u] us IH]; intros Hall; simpl.
  - apply preserves_ret; assumption.
  - apply preserves_bind; [assumption| |intros _].
    + apply Hall. left. reflexivity.
    + apply IH. intros env' u' Hin. apply Hall. right. exact Hin.
Qed.

(** X11: the keys of the tables stay well formed through every session:
    whatever updates arrive, from whomever and in whatever order, row
    ids remain positive, unique and below the counter of their table,
    and no two categories share a name. *)
Theorem db_wf_invariant (cfg : Config) (us : list (Env * Update))
    (w : World) :
  db_wf (db w) → db_wf (db (handle_updates cfg us w).1.2).
Proof.
  revert w. change (preserves keeps_db_wf (handle_updates cfg us)).
  apply preserves_handle_updates; [typeclasses eauto|].
  intros env u _. apply handle_update_keeps_db_wf.
Qed.

(** X11, for the sample session started on empty tables: the keys are
    well formed at its end, when the store holds the category "Demo"
    and the link "Clip". *)
Lemma db_wf_invariant_witness :
  let w := (handle_updates sample_cfg sample_session
                           (initial_world media_fs)).1.2 in
  db_wf (db w)
  ∧ categories (db w) = [ {| cat_id := 1; cat_name := py"Demo" |} ]
  ∧ videos (db w)
    = [ {| vid_id := 1; title := py"Clip"; type := py"link";
           path_or_url := py"https://example.com/v"; category_id := 1;
           thumbnail_path := None |} ].
Proof.
  intros w. split.
  - apply (db_wf_invariant sample_cfg sample_session
             (initial_world media_fs)).
    exact db_wf_empty.
  - split; vm_compute; reflexivity.
Defined.

Section WritesOthers.

Context (uid : Z).

Lemma same_for_others_modify_auth_insert (state : Z) :
  preserves (same_for_others uid) (modify_auth_states (<[uid := state]>)).
Proof.
  unfold_step. intros uid' Hne. cbn.
  rewrite lookup_insert_ne by congruence. repeat split.
Qed.

Lemma same_for_others_modify_auth_delete :
  preserves (same_for_others uid) (modify_auth_states (delete uid)).
Proof.
  unfold_step. intros uid' Hne. cbn.
  rewrite lookup_delete_ne by congruence. repeat split.
Qed.

Lemma same_for_others_modify_category_insert (entry : Z * Context) :
  preserves (same_for_others uid)
            (modify_category_states (<[uid := entry]>)).
Proof.
  unfold_step. intros uid' Hne. cbn.
  rewrite lookup_insert_ne by congruence. repeat split.
Qed.

Lemma same_for_others_modify_category_delete :
  preserves (same_for_others uid) (modify_category_states (delete uid)).
Proof.
  unfold_step. intros uid' Hne. cbn.
  rewrite lookup_delete_ne by congruence. repeat split.
Qed.

Lemma same_for_others_modify_video_insert (entry : Z * Context) :
  preserves (same_for_others uid)
            (modify_video_states (<[uid := entry]>)).
Proof.
  unfold_step. intros uid' Hne. cbn.
  rewrite lookup_insert_ne by congruence. repeat split.
Qed.

Lemma same_for_others_modify_video_delete :
  preserves (same_for_others uid) (modify_video_states (delete uid)).
Proof.
  unfold_step. intros uid' Hne. cbn.
  rewrite lookup_delete_ne by congruence. repeat split.
Qed.

Lemma same_for_others_run_fs {A : Type}
    (f : gmap Py.str Node → A * gmap Py.str Node) :
  preserves (same_for_others uid) (run_fs f).
Proof. unfold_step. intros uid' Hne. repeat split. Qed.

Lemma same_for_others_do_delete_video_files (video : VideoRow) :
  preserves (same_for_others uid) (do_delete_video_files video).
Proof. unfold_step. intros uid' Hne. repeat split. Qed.

Lemma same_for_others_run_db {A : Type} (f : Database → A * Database) :
  (∀ d uid', uid' ≠ uid → users (f d).2 !! uid' = users d !! uid') →
  preserves (same_for_others uid) (run_db f).
Proof.
  intros Hf. unfold_step. intros uid' Hne. cbn.
  match goal with H : f _ = _ |- _ =>
    specialize (Hf (db w) uid' Hne); rewrite H in Hf end.
  repeat split. exact Hf.
Qed.

Lemma same_for_others_save_user_access (now0 : Z) (name : option Py.str)
    (d0 : Z) :
  preserves (same_for_others uid)
            (run_db (save_user_access now0 uid name d0)).
Proof.
  apply same_for_others_run_db. intros d uid' Hne. cbn.
  apply lookup_insert_ne. congruence.
Qed.

End WritesOthers.

#[local] Hint Resolve same_for_others_modify_auth_insert
  same_for_others_modify_auth_delete same_for_others_modify_category_insert
  same_for_others_modify_category_delete same_for_others_modify_video_insert
  same_for_others_modify_video_delete same_for_others_run_fs
  same_for_others_do_delete_video_files same_for_others_save_user_access
  : preserves.

#[local] Hint Extern 1 (preserves (same_for_others _) (run_db (add_category _))) =>
  apply same_for_others_run_db; intros; rewrite add_category_users;
  reflexivity : preserves.
#[local] Hint Extern 1
  (preserves (same_for_others _) (run_db (add_video _ _ _ _ _))) =>
  apply same_for_others_run_db; intros; rewrite add_video_users;
  reflexivity : preserves.
#[local] Hint Extern 1
  (preserves (same_for_others _) (run_db (delete_category _))) =>
  apply same_for_others_run_db; intros; reflexivity : preserves.
#[local] Hint Extern 1
  (preserves (same_for_others _) (run_db (delete_video _))) =>
  apply same_for_others_run_db; intros; reflexivity : preserves.

(** X12: handling an update never touches what belongs to another user:
    for every user other than the sender, the password prompt, the
    category conversation, the video conversation and the row in
    [users] are the same after the update as before. *)
Theorem updates_touch_only_their_sender (cfg : Config) (env : Env)
    (u : Update) (w : World) :
  same_for_others (update_sender u) w (handle_update cfg env u w).1.2.
Proof.
  revert w.
  change (preserves (same_for_others (update_sender u))
                    (handle_update cfg env u)).
  destruct u as [event|event data]; [|destruct data];
    cbn [update_sender]; unfold_handlers; preserves_steps.
Qed.

Section WritesVideoStates.

Lemma keeps_vwf_modify_auth_states (f : gmap Z Z → gmap Z Z) :
  preserves keeps_video_states_wf (modify_auth_states f).
Proof. unfold_step. intros H. exact H. Qed.

Lemma keeps_vwf_modify_category_states f :
  preserves keeps_video_states_wf (modify_category_states f).
Proof. unfold_step. intros H. exact H. Qed.

Lemma keeps_vwf_run_db {A : Type} (f : Database → A * Database) :
  preserves keeps_video_states_wf (run_db f).
Proof. unfold_step. intros H. exact H. Qed.

Lemma keeps_vwf_run_fs {A : Type}
    (f : gmap Py.str Node → A * gmap Py.str Node) :
  preserves keeps_video_states_wf (run_fs f).
Proof. unfold_step. intros H. exact H. Qed.

Lemma keeps_vwf_do_delete_video_files (video : VideoRow) :
  preserves keeps_video_states_wf (do_delete_video_files video).
Proof. unfold_step. intros H. exact H. Qed.

Lemma keeps_vwf_delete (uid : Z) :
  preserves keeps_video_states_wf (modify_video_states (delete uid)).
Proof.
  unfold_step. intros Hwf uid' entry Hlook. cbn [video_states] in *.
  apply lookup_delete_Some in Hlook as [_ Hlook]. eapply Hwf, Hlook.
Qed.

Lemma keeps_vwf_insert (uid : Z) (entry : Z * Context) :
  video_context_ready entry →
  preserves keeps_video_states_wf (modify_video_states (<[uid := entry]>)).
Proof.
  intros Hready. unfold_step. intros Hwf uid' entry' Hlook.
  cbn [video_states] in *.
  apply lookup_insert_Some in Hlook as [[_ <-]|[_ Hlook]];
    [exact Hready|eapply Hwf, Hlook].
Qed.

End WritesVideoStates.

#[local] Hint Resolve keeps_vwf_modify_auth_states
  keeps_vwf_modify_category_states keeps_vwf_run_db keeps_vwf_run_fs
  keeps_vwf_do_delete_video_files keeps_vwf_delete : preserves.

(** Readiness of an entry about to be stored, from what is known of the
    entry it was made from. *)
Ltac ready :=
  unfold video_context_ready in *;
  cbv [video_handler.STATE_WAITING_TITLE video_handler.STATE_WAITING_VIDEO
       video_handler.STATE_WAITING_CATEGORY
       video_handler.STATE_CONFIRM_DELETE] in *;
  cbn [fst snd video_handler.set_title video_handler.set_link
       video_handler.set_file video_handler.set_category_id
       ctx_title ctx_type ctx_path_or_url empty_context] in *;
  repeat match goal with
         | H : (_ =? _) = true |- _ => apply Z.eqb_eq in H
         | H : _ ∧ _ |- _ => destruct H
         end;
  subst;
  split; intros ?; try discriminate;
  repeat match goal with
         | H : ?P → _, H' : ?P |- _ => specialize (H H')
         | H : _ ∧ _ |- _ => destruct H
         end;
  repeat split; eauto.

#[local] Hint Extern 2
  (preserves keeps_video_states_wf (modify_video_states (<[_ := _]>))) =>
  apply keeps_vwf_insert; ready : preserves.

(** As [preserves_steps], keeping what each test found. *)
Ltac preserves_steps_eqn :=
  repeat first
    [ progress auto with preserves typeclass_instances
    | apply preserves_bind; [typeclasses eauto| |intros ?]
    | apply preserves_for_each; [typeclasses eauto|intros ?]
    | match goal with
      | |- preserves _ (match ?x with _ => _ end) => destruct x eqn:?
      end ].

Lemma preserves_get_video_states_then {A : Type}
    (k : gmap Z (Z * Context) → M A) :
  (∀ w, video_states_wf (video_states w) →
        preserves keeps_video_states_wf (k (video_states w))) →
  preserves keeps_video_states_wf (get_video_states ≫= k).
Proof.
  intros Hk w Hwf. rewrite bind_run. cbn.
  specialize (Hk w Hwf w Hwf).
  destruct (k (video_states w) w) as [[y w2] out2]. exact Hk.
Qed.

Lemma video_on_message_keeps_vwf (cfg : Config) (env : Env) (event : Event) :
  preserves keeps_video_states_wf (video_handler.on_message cfg env event).
Proof.
  unfold video_handler.on_message. cbv zeta.
  apply preserves_get_video_states_then. intros w Hwf.
  destruct (video_states w !! sender_id event) as [[state context]|] eqn:Hlook;
    [|auto with preserves typeclass_instances].
  pose proof (Hwf _ _ Hlook) as Hready.
  unfold video_handler.on_media, video_handler.show_category_selection.
  preserves_steps_eqn.
Qed.

Lemma on_category_selected_keeps_vwf (cfg : Config) (env : Env)
    (event : Event) (category_id0 : Z) :
  preserves keeps_video_states_wf
            (video_handler.on_category_selected cfg env event category_id0).
Proof.
  unfold video_handler.on_category_selected. cbv zeta.
  apply preserves_bind; [typeclasses eauto| |intros ok].
  { unfold check_access. preserves_steps. }
  destruct (negb ok); [auto with preserves typeclass_instances|].
  apply preserves_get_video_states_then. intros w Hwf.
  destruct (video_states w !! sender_id event) as [[state context]|] eqn:Hlook;
    [|auto with preserves typeclass_instances].
  pose proof (Hwf _ _ Hlook) as Hready.
  preserves_steps_eqn.
Qed.

Lemma handle_update_keeps_vwf (cfg : Config) (env : Env) (u : Update) :
  preserves keeps_video_states_wf (handle_update cfg env u).
Proof.
  destruct u as [event|event data].
  - unfold handle_update, on_new_message.
    apply preserves_bind; [typeclasses eauto| |intros _].
    { unfold_handlers; preserves_steps. }
    apply preserves_bind; [typeclasses eauto| |intros _].
    { unfold_handlers; preserves_steps. }
    apply preserves_bind; [typeclasses eauto| |intros _].
    { unfold_handlers; preserves_steps. }
    apply video_on_message_keeps_vwf.
  - destruct data;
      try apply on_category_selected_keeps_vwf;
      unfold_handlers; preserves_steps.
Qed.

(** X13: through every session the video conversation of each user
    carries what its state promises: a title once the upload is
    awaited, and a title, a kind and a location once the category is
    awaited. *)
Theorem video_states_wf_invariant (cfg : Config)
    (us : list (Env * Update)) (w : World) :
  video_states_wf (video_states w) →
  video_states_wf (video_states (handle_updates cfg us w).1.2).
Proof.
  revert w. change (preserves keeps_video_states_wf (handle_updates cfg us)).
  apply preserves_handle_updates; [typeclasses eauto|].
  intros env u _. apply handle_update_keeps_vwf.
Qed.

Lemma video_states_wf_empty : video_states_wf ∅.
Proof. intros uid entry Hlook. rewrite lookup_empty in Hlook. discriminate. Qed.

(** X13, for the sample session started without conversations. *)
Lemma video_states_wf_invariant_witness :
  video_states_wf
    (video_states (handle_updates sample_cfg sample_session
                                  (initial_world media_fs)).1.2).
Proof.
  apply (video_states_wf_invariant sample_cfg sample_session
           (initial_world media_fs)).
  exact video_states_wf_empty.
Defined.

(** X14: in a state every session keeps ([video_states_wf], [db_wf]), a
    sender with access who is awaited to choose a category and clicks
    one always gets the video stored: the row carries the title, kind,
    location and thumbnail collected so far and the id clicked (whether
    or not such a category exists), the conversation ends, and the
    reply names the title. *)
Theorem category_selection_stores_video (cfg : Config) (env : Env)
    (event : Event) (category_id0 : Z) (w : World) (context : Context) :
  check_access cfg env event w = (true, w, []) →
  video_states_wf (video_states w) →
  db_wf (db w) →
  video_states w !! sender_id event
    = Some (video_handler.STATE_WAITING_CATEGORY, context) →
  ∃ t ty p,
    ctx_title context = Some t
    ∧ ctx_type context = Some ty
    ∧ ctx_path_or_url context = Some p
    ∧ video_handler.on_category_selected cfg env event category_id0 w
      = (tt,
         {| db :=
              {| users := users (db w);
                 categories := categories (db w);
                 categories_seq := categories_seq (db w);
                 videos :=
                   videos (db w)
                   ++ [ {| vid_id := videos_seq (db w) + 1; title := t;
                           type := ty; path_or_url := p;
                           category_id := category_id0;
                           thumbnail_path := ctx_thumbnail_path context |} ];
                 videos_seq := videos_seq (db w) + 1 |};
            fs := fs w;
            auth_states := auth_states w;
            category_states := category_states w;
            video_states := delete (sender_id event) (video_states w) |},
         [Edit (VideoAdded (Some t))]).
Proof.
  intros Hok Hvwf Hwf Hlook.
  destruct (Hvwf _ _ Hlook) as [_ Hready].
  destruct (Hready eq_refl) as ([t Ht] & [ty Hty] & [p Hp]).
  cbn [snd] in Ht, Hty, Hp.
  exists t, ty, p. repeat (split; [assumption|]).
  destruct Hwf as (_ & _ & _ & _ & _ & _ & Hseq).
  unfold video_handler.on_category_selected. cbv zeta.
  rewrite bind_run, Hok. cbn [negb]. run. rewrite Hlook. run.
  cbn [video_handler.set_category_id ctx_title ctx_type ctx_path_or_url
       ctx_thumbnail_path db].
  rewrite Ht, Hty, Hp.
  unfold add_video, sql_insert_video.
  cbn [get_connection sqlite3_connect foreign_keys andb].
  replace (videos_seq (db w) + 1 =? 0) with false
    by (symmetry; apply Z.eqb_neq; lia).
  run. cbn [video_states db fs auth_states category_states].
  rewrite delete_insert_eq. reflexivity.
Qed.

(** X14, for user 7 choosing category 1 at second 200. *)
Lemma category_selection_stores_video_witness :
  ∃ w', video_handler.on_category_selected sample_cfg (env_at 200)
          (click_from 7) 1 choosing_category_world
        = (tt, w', [Edit (VideoAdded (Some (py"Clip")))])
        ∧ videos (db w')
          = [ {| vid_id := 1; title := py"Clip"; type := py"link";
                 path_or_url := py"https://example.com/v";
                 category_id := 1; thumbnail_path := None |} ]
        ∧ video_states w' !! 7 = None.
Proof.
  destruct (category_selection_stores_video sample_cfg (env_at 200)
              (click_from 7) 1 choosing_category_world
              {| ctx_title := Some (py"Clip");
                 ctx_type := Some (py"link");
                 ctx_path_or_url := Some (py"https://example.com/v");
                 ctx_thumbnail_path := None;
                 ctx_category_id := None;
                 ctx_video_id := None |})
    as (t & ty & p & Ht & Hty & Hp & Hrun).
  - reflexivity.
  - intros uid entry Hlook.
    unfold choosing_category_world in Hlook. cbn [video_states] in Hlook.
    apply lookup_singleton_Some in Hlook as [_ <-]. ready.
  - db_wf_closed.
  - reflexivity.
  - injection Ht as <-. injection Hty as <-. injection Hp as <-.
    eexists. split; [exact Hrun|]. split; reflexivity.
Defined.

(** ** Who can be granted access *)

Lemma startswith_app (s p q : Py.str) :
  Py.startswith s (p ++ q) = true → Py.startswith s p = true.
Proof.
  revert s. induction p as [|c p IH]; intros s; simpl;
    [intros _; destruct s; reflexivity|].
  destruct s as [|d s]; simpl; [discriminate|].
  rewrite !andb_true_iff. intros [Hc Hrest]. split; [exact Hc|].
  apply IH. exact Hrest.
Qed.

Lemma start_is_a_command (s : Py.str) :
  Py.startswith s (py"/") = false → Py.startswith s (py"/start") = false.
Proof.
  intros Hno. destruct (Py.startswith s (py"/start")) eqn:Hstart;
    [|reflexivity].
  apply (startswith_app s (py"/") (py"start")) in Hstart. congruence.
Qed.

Lemma callbacks_keep_users (cfg : Config) (env : Env) (event : Event)
    (data : Callback) :
  preserves same_users (on_callback cfg env event data).
Proof. destruct data; unfold_handlers; preserves_steps. Qed.







Ltac run_world :=
  run; cbn [db fs auth_states category_states video_states
            sender_id sender_username text media].

(** X16: the login of a user other than the admin, end to end.  The user
    has no valid access and no conversation going on, and the password
    does not start with ['/'].  The message ["/start"] is answered with
    the prompt, the password sent next is answered with the confirmation
    and the main menu, and from then on [check_access] holds at every
    clock reading before the password's reading plus [ACCESS_TIMEOUT]. *)
Theorem login_flow (cfg : Config) (env0 env1 env2 : Env) (uid : Z)
    (name : option Py.str) (w : World) (e2 : Event) :
  uid ≠ ADMIN_ID cfg →
  Py.startswith (ACCESS_PASSWORD cfg) (py"/") = false →
  check_user_access (now env0) uid (db w) = false →
  category_states w !! uid = None →
  video_states w !! uid = None →
  sender_id e2 = uid →
  let says txt := NewMessage {| sender_id := uid; sender_username := name;
                                text := txt; media := None |} in
  ∃ w',
    handle_updates cfg [ (env0, says (py"/start"));
                         (env1, says (ACCESS_PASSWORD cfg)) ] w
    = (tt, w', [Respond WelcomePrompt; Respond PasswordCorrect;
                Respond MainMenu])
    ∧ auth_states w' = delete uid (auth_states w)
    ∧ users (db w')
      = <[uid := {| username := name;
                    access_until := now env1 + ACCESS_TIMEOUT |}]>
          (users (db w))
    ∧ (now env2 < now env1 + ACCESS_TIMEOUT →
       check_access cfg env2 e2 w' = (true, w', [])).
Proof.
  intros Hna Hpw Hnoaccess Hcat Hvid He2 says.
  assert (Hneq : (uid =? ADMIN_ID cfg) = false) by (apply Z.eqb_neq; exact Hna).
  assert (Hpw' : Py.startswith (ACCESS_PASSWORD cfg) (py"/start") = false)
    by (apply start_is_a_command; exact Hpw).
  assert (Hrefl : Py.eqb (ACCESS_PASSWORD cfg) (ACCESS_PASSWORD cfg) = true)
    by (apply eqb_eq; reflexivity).
  eexists. split; [|split; [|split]].
  - subst says.
    cbv [handle_updates handle_update on_new_message start_handler
         message_handler category_handler.on_message
         video_handler.on_message].
    cbn [sender_id sender_username text media].
    change (Py.startswith (py"/start") (py"/start")) with true.
    change (Py.startswith (py"/start") (py"/")) with true.
    rewrite Hneq, Hpw, Hpw'. cbn [orb].
    repeat (progress
              (run_world; cbv [save_user_access];
               rewrite ?Hnoaccess, ?Hcat, ?Hvid, ?lookup_insert_eq, ?Hrefl;
               cbn [Z.eqb auth_handler.STATE_WAITING_PASSWORD Pos.eqb])).
    reflexivity.
  - cbn [auth_states]. apply delete_insert_eq.
  - reflexivity.
  - intros Hlt. rewrite check_access_run, He2, Hneq.
    unfold check_user_access, get_user. cbn [db users].
    rewrite lookup_insert_eq. cbn [access_until].
    replace (now env2 <? now env1 + ACCESS_TIMEOUT) with true
      by (symmetry; apply Z.ltb_lt; exact Hlt).
    reflexivity.
Qed.

(** X16, for user 7, whose earlier access ran out at second 100: prompted
    at second 200, accepted at second 210, still authorized at second
    3000. *)
Lemma login_flow_witness :
  ∃ w',
    handle_updates sample_cfg
      [ (env_at 200, NewMessage (message_from 7 (py"/start")));
        (env_at 210, NewMessage (message_from 7 (py"secret"))) ]
      (world_of expired_db)
    = (tt, w', [Respond WelcomePrompt; Respond PasswordCorrect;
                Respond MainMenu])
    ∧ check_access sample_cfg (env_at 3000) (click_from 7) w'
      = (true, w', []).
Proof.
  destruct (login_flow sample_cfg (env_at 200) (env_at 210) (env_at 3000)
              7 (Some (py"alice")) (world_of expired_db) (click_from 7))
    as (w' & Hrun & _ & _ & Hcheck).
  - vm_compute. discriminate.
  - reflexivity.
  - reflexivity.
  - reflexivity.
  - reflexivity.
  - reflexivity.
  - exists w'. split; [exact Hrun|]. apply Hcheck. reflexivity.
Defined.

(** ** Messages and the three flows *)

Lemma world_eta (w : World) :
  {| db := db w; fs := fs w; auth_states := auth_states w;
     category_states := category_states w;
     video_states := video_states w |} = w.
Proof. destruct w; reflexivity. Qed.

(** X17: a message that is not the start command, from a user who is in
    no conversation (no password asked, no category name and no video
    step awaited), is ignored by every handler: nothing changes and
    nothing is sent, whoever the sender is. *)
Theorem idle_message_is_ignored (cfg : Config) (env : Env) (event : Event)
    (w : World) :
  Py.startswith (text event) (py"/start") = false →
  auth_states w !! sender_id event = None →
  category_states w !! sender_id event = None →
  video_states w !! sender_id event = None →
  on_new_message cfg env event w = (tt, w, []).
Proof.
  intros Hstart Hauth Hcat Hvid.
  unfold on_new_message, message_handler, category_handler.on_message,
    video_handler.on_message.
  rewrite Hstart. cbv zeta.
  destruct (Py.startswith (text event) (py"/")
            || (sender_id event =? ADMIN_ID cfg));
    run_world; rewrite ?Hauth, ?Hcat, ?Hvid; run_world;
    rewrite ?Hauth, ?Hcat, ?Hvid; reflexivity.
Qed.

(** X17, for a chat message of user 7 in the sample library. *)
Lemma idle_message_is_ignored_witness :
  on_new_message sample_cfg (env_at 200) (message_from 7 (py"hello"))
                 library_world
  = (tt, library_world, []).
Proof.
  apply (idle_message_is_ignored sample_cfg (env_at 200)
           (message_from 7 (py"hello")) library_world); reflexivity.
Defined.

(** X18: while a category name is awaited, a message that is blank after
    stripping is answered with "Invalid Name" and a name that is already
    taken with the failure text; in both cases nothing is stored and the
    name is still awaited. *)
Theorem category_name_rejected (cfg : Config) (env : Env) (event : Event)
    (w : World) (context : Context) :
  category_states w !! sender_id event
    = Some (category_handler.STATE_WAITING_CATEGORY_NAME, context) →
  (Py.strip (text event) = [] →
   category_handler.on_message cfg env event w
   = (tt, w, [Respond InvalidName]))
  ∧ (Py.strip (text event) ≠ [] →
     Py.strip (text event) ∈ List.map cat_name (categories (db w)) →
     category_handler.on_message cfg env event w
     = (tt, w, [Respond CategoryAddFailed])).
Proof.
  intros Hstate. split.
  - intros Hblank. unfold category_handler.on_message. run_world.
    rewrite Hstate. cbn [Z.eqb category_handler.STATE_WAITING_CATEGORY_NAME
                         Pos.eqb].
    rewrite Hblank. reflexivity.
  - intros Hname Htaken. unfold category_handler.on_message. run_world.
    rewrite Hstate. cbn [Z.eqb category_handler.STATE_WAITING_CATEGORY_NAME
                         Pos.eqb].
    destruct (Py.strip (text event)) as [|c name] eqn:Hstrip;
      [congruence|]. cbn [Py.truthy negb].
    rewrite add_category_duplicate by exact Htaken.
    run_world. rewrite world_eta. reflexivity.
Qed.

(** X18, for user 7 asked for a name in a store that has "Demo". *)
Lemma category_name_rejected_witness :
  category_handler.on_message sample_cfg (env_at 200)
    (message_from 7 (py"   ")) two_flows_world
  = (tt, two_flows_world, [Respond InvalidName])
  ∧ category_handler.on_message sample_cfg (env_at 200)
      (message_from 7 (py" Demo ")) two_flows_world
    = (tt, two_flows_world, [Respond CategoryAddFailed]).
Proof.
  split.
  - apply (category_name_rejected sample_cfg (env_at 200)
             (message_from 7 (py"   ")) two_flows_world empty_context);
      reflexivity.
  - apply (category_name_rejected sample_cfg (env_at 200)
             (message_from 7 (py" Demo ")) two_flows_world empty_context).
    + reflexivity.
    + vm_compute. discriminate.
    + vm_compute. apply list_elem_of_here.
Defined.

(** X19, at a concrete state: see [category_name_is_accepted_unchecked];
    user 7, without access since second 100, names the category
    "Demo". *)
Lemma category_name_is_accepted_unchecked_witness :
  ∃ w', category_handler.on_message sample_cfg (env_at 200)
          (message_from 7 (py"Demo")) expired_naming_world
        = (tt, w', [Respond (CategoryAdded (py"Demo"))])
        ∧ categories (db w') = [ {| cat_id := 1; cat_name := py"Demo" |} ].
Proof.
  destruct (category_name_is_accepted_unchecked sample_cfg (env_at 200)
              (message_from 7 (py"Demo")) expired_naming_world
              empty_context)
    as (w' & Hrun & Hcats);
    [reflexivity|reflexivity|reflexivity|cbn; lia|].
  exists w'. split; [exact Hrun|exact Hcats].
Defined.

(** X20: the three flows read the same message.  A user with a category
    name awaited and a video title awaited at the same time (both
    buttons were clicked) who sends one text gets both: the category is
    created under that text and the video conversation takes the same
    text as title. *)
Theorem one_message_feeds_both_flows (cfg : Config) (env : Env)
    (event : Event) (w : World) (cctx vctx : Context) :
  Py.startswith (text event) (py"/start") = false →
  auth_states w !! sender_id event = None →
  category_states w !! sender_id event
    = Some (category_handler.STATE_WAITING_CATEGORY_NAME, cctx) →
  video_states w !! sender_id event
    = Some (video_handler.STATE_WAITING_TITLE, vctx) →
  Py.strip (text event) ≠ [] →
  Py.strip (text event) ∉ List.map cat_name (categories (db w)) →
  0 ≤ categories_seq (db w) →
  on_new_message cfg env event w
  = (tt,
     {| db :=
          {| users := users (db w);
             categories :=
               categories (db w)
               ++ [ {| cat_id := categories_seq (db w) + 1;
                       cat_name := Py.strip (text event) |} ];
             categories_seq := categories_seq (db w) + 1;
             videos := videos (db w);
             videos_seq := videos_seq (db w) |};
        fs := fs w;
        auth_states := auth_states w;
        category_states := delete (sender_id event) (category_states w);
        video_states :=
          <[sender_id event :=
              (video_handler.STATE_WAITING_VIDEO,
               video_handler.set_title vctx (Py.strip (text event)))]>
            (video_states w) |},
     [ Respond (CategoryAdded (Py.strip (text event)));
       Respond (VideoUploadPrompt (Py.strip (text event))) ]).
Proof.
  intros Hstart Hauth Hcat Hvid Hname Hfresh Hseq.
  unfold on_new_message, message_handler, category_handler.on_message,
    video_handler.on_message.
  rewrite Hstart. cbv zeta.
  assert (Htruthy : Py.truthy (Py.strip (text event)) = true)
    by (destruct (Py.strip (text event)); [congruence|reflexivity]).
  assert (Hne : (categories_seq (db w) + 1 =? 0) = false)
    by (apply Z.eqb_neq; lia).
  destruct (Py.startswith (text event) (py"/")
            || (sender_id event =? ADMIN_ID cfg));
    repeat (progress
              (run_world;
               rewrite ?Hauth, ?Hcat, ?Hvid, ?Htruthy,
                 ?(add_category_fresh _ _ Hfresh), ?Hne;
               cbn [Z.eqb category_handler.STATE_WAITING_CATEGORY_NAME
                    video_handler.STATE_WAITING_TITLE Pos.eqb negb]));
    reflexivity.
Qed.

(** X20, for user 7 sending "News" with both conversations open. *)
Lemma one_message_feeds_both_flows_witness :
  ∃ w', on_new_message sample_cfg (env_at 200) (message_from 7 (py"News"))
                       two_flows_world
        = (tt, w', [ Respond (CategoryAdded (py"News"));
                     Respond (VideoUploadPrompt (py"News")) ])
        ∧ categories (db w')
          = [ {| cat_id := 1; cat_name := py"Demo" |};
              {| cat_id := 2; cat_name := py"News" |} ].
Proof.
  eexists. split.
  - apply (one_message_feeds_both_flows sample_cfg (env_at 200)
             (message_from 7 (py"News")) two_flows_world
             empty_context empty_context);
      try reflexivity.
    + vm_compute. discriminate.
    + vm_compute. not_in_list.
    + cbn. lia.
  - reflexivity.
Defined.

(** ** The video wizard *)

Lemma is_valid_url_accepts (url : Py.str) : is_valid_url url = true.
Proof.
  unfold is_valid_url. pose proof (normalize_url_length url) as Hlen.
  destruct (Py.len (normalize_url url) <? 5) eqn:Hlt; [|reflexivity].
  apply Z.ltb_lt in Hlt. lia.
Qed.

Lemma get_all_categories_nonempty (d : Database) :
  categories d ≠ [] → ∃ c cs, get_all_categories d = c :: cs.
Proof.
  intros Hne. destruct (get_all_categories d) as [|c cs] eqn:Hall; [|eauto].
  exfalso. apply Hne. apply Permutation_nil_r.
  rewrite <- (order_by_perm cat_name (categories d)).
  unfold get_all_categories in Hall. rewrite Hall. reflexivity.
Qed.

(** X21: the link wizard, from title to stored row.  A user awaited for
    a title sends a text that is not blank, then any non-empty text (no
    text is refused as a link), then, with access, picks a category
    while at least one category exists.  The replies are the upload
    prompt, the category choice and the confirmation, and the [videos]
    table gains exactly one row: the stripped first text as title, kind
    ["link"], the stripped second text as location, the id picked.  The
    conversation is over. *)
Theorem link_wizard (cfg : Config) (env1 env2 env3 : Env) (uid : Z)
    (name : option Py.str) (t1 t2 : Py.str) (e3 : Event)
    (category_id0 : Z) (w : World) (vctx : Context) :
  video_states w !! uid = Some (video_handler.STATE_WAITING_TITLE, vctx) →
  Py.strip t1 ≠ [] →
  t2 ≠ [] →
  categories (db w) ≠ [] →
  0 ≤ videos_seq (db w) →
  sender_id e3 = uid →
  (uid =? ADMIN_ID cfg) || check_user_access (now env3) uid (db w) = true →
  let says txt := {| sender_id := uid; sender_username := name;
                     text := txt; media := None |} in
  ∃ w3,
    (video_handler.on_message cfg env1 (says t1) ;;
     video_handler.on_message cfg env2 (says t2) ;;
     video_handler.on_category_selected cfg env3 e3 category_id0) w
    = (tt, w3,
       [ Respond (VideoUploadPrompt (Py.strip t1));
         Respond (SelectCategory (get_all_categories (db w)));
         Edit (VideoAdded (Some (Py.strip t1))) ])
    ∧ db w3
      = {| users := users (db w);
           categories := categories (db w);
           categories_seq := categories_seq (db w);
           videos :=
             videos (db w)
             ++ [ {| vid_id := videos_seq (db w) + 1;
                     title := Py.strip t1; type := py"link";
                     path_or_url := Py.strip t2;
                     category_id := category_id0;
                     thumbnail_path := ctx_thumbnail_path vctx |} ];
           videos_seq := videos_seq (db w) + 1 |}
    ∧ video_states w3 !! uid = None.
Proof.
  intros Hstate Ht1 Ht2 Hcats Hseq He3 Hacc says.
  destruct (get_all_categories_nonempty (db w) Hcats) as (c & cs & Hall).
  assert (Htruthy1 : Py.truthy (Py.strip t1) = true)
    by (destruct (Py.strip t1); [congruence|reflexivity]).
  assert (Htruthy2 : Py.truthy t2 = true)
    by (destruct t2; [congruence|reflexivity]).
  assert (Hne : (videos_seq (db w) + 1 =? 0) = false)
    by (apply Z.eqb_neq; lia).
  assert (Hok : ∀ w0, db w0 = db w →
            check_access cfg env3 e3 w0 = (true, w0, [])).
  { intros w0 Hdb. rewrite check_access_run, He3, Hdb.
    destruct (uid =? ADMIN_ID cfg); [reflexivity|].
    cbn [orb] in Hacc. rewrite Hacc. reflexivity. }
  eexists. split; [|split].
  - subst says.
    unfold video_handler.on_message, video_handler.on_category_selected,
      video_handler.show_category_selection.
    cbn [sender_id sender_username text media].
    rewrite !bind_run.
    repeat (progress
              (run_world;
               rewrite ?Hstate, ?lookup_insert_eq, ?Htruthy1, ?Htruthy2,
                 ?is_valid_url_accepts, ?Hall, ?He3;
               cbn [Z.eqb video_handler.STATE_WAITING_TITLE
                    video_handler.STATE_WAITING_VIDEO Pos.eqb negb])).
    rewrite Hok by reflexivity.
    repeat (progress
              (run_world;
               rewrite ?lookup_insert_eq, ?He3;
               cbn [negb video_handler.set_category_id
                    video_handler.set_link video_handler.set_title
                    ctx_title ctx_type ctx_path_or_url ctx_thumbnail_path];
               cbv [add_video sql_insert_video];
               cbn [get_connection sqlite3_connect foreign_keys andb];
               rewrite ?Hne)).
    reflexivity.
  - reflexivity.
  - cbn [video_states]. apply lookup_delete_eq.
Qed.

(** X21, for user 7 at seconds 200 to 220. *)
Lemma link_wizard_witness :
  ∃ w3,
    (video_handler.on_message sample_cfg (env_at 200)
       (message_from 7 (py" Clip ")) ;;
     video_handler.on_message sample_cfg (env_at 210)
       (message_from 7 (py"https://example.com/v")) ;;
     video_handler.on_category_selected sample_cfg (env_at 220)
       (click_from 7) 1) adding_video_world
    = (tt, w3,
       [ Respond (VideoUploadPrompt (py"Clip"));
         Respond (SelectCategory [ {| cat_id := 1; cat_name := py"Demo" |} ]);
         Edit (VideoAdded (Some (py"Clip"))) ])
    ∧ videos (db w3)
      = [ {| vid_id := 1; title := py"Clip"; type := py"link";
             path_or_url := py"https://example.com/v"; category_id := 1;
             thumbnail_path := None |} ].
Proof.
  destruct (link_wizard sample_cfg (env_at 200) (env_at 210) (env_at 220)
              7 (Some (py"alice")) (py" Clip ") (py"https://example.com/v")
              (click_from 7) 1 adding_video_world empty_context)
    as (w3 & Hrun & Hdb & _);
    [reflexivity|vm_compute; discriminate|vm_compute; discriminate
    |vm_compute; discriminate|cbn; lia|reflexivity|reflexivity|].
  exists w3. split; [exact Hrun|]. rewrite Hdb. reflexivity.
Defined.

(** ** Browsing *)





(** ** What a button may touch *)

#[local] Instance same_db_preorder : PreOrder same_db.
Proof.
  split; [intros w; reflexivity|].
  intros w1 w2 w3 H12 H23. unfold same_db in *. congruence.
Qed.

Section WritesDb.

Lemma same_db_modify_auth_states (f : gmap Z Z → gmap Z Z) :
  preserves same_db (modify_auth_states f).
Proof. unfold_step. reflexivity. Qed.

Lemma same_db_modify_category_states f :
  preserves same_db (modify_category_states f).
Proof. unfold_step. reflexivity. Qed.

Lemma same_db_modify_video_states f :
  preserves same_db (modify_video_states f).
Proof. unfold_step. reflexivity. Qed.

Lemma same_db_run_fs {A : Type}
    (f : gmap Py.str Node → A * gmap Py.str Node) :
  preserves same_db (run_fs f).
Proof. unfold_step. reflexivity. Qed.

Lemma same_db_do_delete_video_files (video : VideoRow) :
  preserves same_db (do_delete_video_files video).
Proof. unfold_step. reflexivity. Qed.

End WritesDb.

#[local] Hint Resolve same_db_modify_auth_states
  same_db_modify_category_states same_db_modify_video_states
  same_db_run_fs same_db_do_delete_video_files : preserves.

Lemma callbacks_view (cfg : Config) (env : Env) (event : Event)
    (data : Callback) :
  is_view data = true → preserves same_world (on_callback cfg env event data).
Proof.
  destruct data; cbn [is_view]; intros H; try discriminate H;
    unfold_handlers; preserves_steps.
Qed.

Lemma callbacks_db (cfg : Config) (env : Env) (event : Event)
    (data : Callback) :
  may_write_database data = false →
  preserves same_db (on_callback cfg env event data).
Proof.
  destruct data; cbn [may_write_database]; intros H; try discriminate H;
    unfold_handlers; preserves_steps.
Qed.

Lemma callbacks_files (cfg : Config) (env : Env) (event : Event)
    (data : Callback) :
  may_write_files data = false →
  preserves same_files (on_callback cfg env event data).
Proof.
  destruct data; cbn [may_write_files]; intros H; try discriminate H;
    unfold_handlers; preserves_steps.
Qed.

(** X23: what a button click can touch, whoever clicks and in whatever
    state.  The menus, listings, browsing and playing change nothing at
    all.  Only the two delete confirmations and the choice of a
    category for a new video can change the database, only the two
    delete confirmations can change files, and no click changes the
    [users] table. *)
Theorem callback_footprint (cfg : Config) (env : Env) (event : Event)
    (data : Callback) (w : World) :
  let w' := (on_callback cfg env event data w).1.2 in
  (is_view data = true → w' = w)
  ∧ (may_write_database data = false → db w' = db w)
  ∧ (may_write_files data = false → fs w' = fs w)
  ∧ users (db w') = users (db w).
Proof.
  intros w'. subst w'. split; [|split; [|split]].
  - intros H. apply (callbacks_view cfg env event data H w).
  - intros H. apply (callbacks_db cfg env event data H w).
  - intros H. apply (callbacks_files cfg env event data H w).
  - apply (callbacks_keep_users cfg env event data w).
Qed.

(** X23, for the admin browsing and for the admin opening the "Add
    Video" wizard in the sample library. *)
Lemma callback_footprint_witness :
  (on_callback sample_cfg (env_at 200) (click_from 1000) (browse_cat_ 1)
               library_world).1.2 = library_world
  ∧ db (on_callback sample_cfg (env_at 200) (click_from 1000) video_add
                    library_world).1.2 = db library_world.
Proof.
  split.
  - apply (callback_footprint sample_cfg (env_at 200) (click_from 1000)
             (browse_cat_ 1) library_world). reflexivity.
  - apply (callback_footprint sample_cfg (env_at 200) (click_from 1000)
             video_add library_world). reflexivity.
Defined.

(** X24, at a concrete state: see [callbacks_deny_without_access]; user
    7, without access since second 100, confirms the deletion of
    category 1. *)
Lemma callbacks_deny_without_access_witness :
  on_callback sample_cfg (env_at 200) (click_from 7) (confirm_delete_ 1)
              expired_naming_world
  = (tt, expired_naming_world, [Answer AccessExpired]).
Proof.
  apply (callbacks_deny_without_access sample_cfg (env_at 200)
           (click_from 7) (confirm_delete_ 1) expired_naming_world).
  reflexivity.
Defined.

(** ** Deleting one video *)

(** X26: confirming the deletion of a video, for a sender with access.
    For an id that is not stored nothing changes and the reply is the
    failure text.  For a stored id the row is removed (the id is not
    found afterwards, every other id is found as before), the file
    cleanup of that row is run on the files, the reply names the title —
    and the conversation states are left as they were. *)
Theorem confirm_delete_video_spec (cfg : Config) (env : Env)
    (event : Event) (video_id : Z) (w : World) :
  check_access cfg env event w = (true, w, []) →
  (get_video video_id (db w) = None →
   video_handler.on_confirm_delete_video cfg env event video_id w
   = (tt, w, [Edit VideoDeleteFailed]))
  ∧ (∀ v, get_video video_id (db w) = Some v →
     ∃ w',
       video_handler.on_confirm_delete_video cfg env event video_id w
       = (tt, w',
          List.map Fs (delete_video_files v (fs w)).2
          ++ [Edit (VideoDeleted (title v))])
       ∧ get_video video_id (db w') = None
       ∧ (∀ id', id' ≠ video_id →
                 get_video id' (db w') = get_video id' (db w))
       ∧ fs w' = (delete_video_files v (fs w)).1.2
       ∧ video_states w' = video_states w
       ∧ category_states w' = category_states w).
Proof.
  intros Hok. split.
  - intros Hnone. unfold video_handler.on_confirm_delete_video.
    rewrite bind_run, Hok. cbn [negb]. run_world.
    rewrite delete_video_missing by exact Hnone.
    run_world. rewrite world_eta. reflexivity.
  - intros v Hsome. unfold video_handler.on_confirm_delete_video.
    rewrite bind_run, Hok. cbn [negb]. run_world.
    unfold delete_video at 1. rewrite Hsome. run_world.
    unfold do_delete_video_files. cbn [fs].
    destruct (delete_video_files v (fs w)) as [[ok fs'] ops] eqn:Hfiles.
    run_world. eexists. split; [reflexivity|].
    cbn [db fs video_states category_states fst snd].
    split; [|split; [|repeat split]].
    + pose proof (get_video_after_delete video_id video_id (db w)) as H.
      rewrite Z.eqb_refl in H. exact H.
    + intros id' Hne.
      pose proof (get_video_after_delete video_id id' (db w)) as H.
      destruct (Z.eqb_spec id' video_id); [contradiction|exact H].
Qed.

(** X26, for the admin deleting "Talk" (a link) from the sample
    library: no file is touched. *)
Lemma confirm_delete_video_spec_witness :
  ∃ w', video_handler.on_confirm_delete_video sample_cfg (env_at 200)
          (click_from 1000) 2 library_world
        = (tt, w', [Edit (VideoDeleted (py"Talk"))])
        ∧ get_video 2 (db w') = None
        ∧ fs w' = library_fs.
Proof.
  destruct (confirm_delete_video_spec sample_cfg (env_at 200)
              (click_from 1000) 2 library_world eq_refl) as [_ Hsome].
  destruct (Hsome talk_row eq_refl)
    as (w' & Hrun & Hgone & _ & Hfs & _).
  exists w'. split; [exact Hrun|]. split; [exact Hgone|exact Hfs].
Defined.

(** ** The upload step *)



(** ** The files a category deletion can remove *)

Lemma cleanup_step (video : VideoRow) (l : list VideoRow) (w : World) :
  for_each (video :: l) (λ video, do_delete_video_files video ;; mret tt) w
  = (let '(ok, fs1, ops) := delete_video_files video (fs w) in
     let '(y, w2, out2) :=
       for_each l (λ video, do_delete_video_files video ;; mret tt)
         {| db := db w; fs := fs1; auth_states := auth_states w;
            category_states := category_states w;
            video_states := video_states w |} in
     (y, w2, List.map Fs ops ++ out2)).
Proof.
  cbn [for_each]. rewrite !bind_run. unfold do_delete_video_files.
  destruct (delete_video_files video (fs w)) as [[ok fs1] ops].
  cbn [mret M_ret]. rewrite app_nil_r. reflexivity.
Qed.

Lemma cleanup_frame (l : list VideoRow) (w : World) (q : Py.str) :
  let w' :=
    (for_each l (λ video, do_delete_video_files video ;; mret tt) w).1.2 in
  fs w' !! q = fs w !! q
  ∨ (fs w' !! q = None
     ∧ ∃ v, In v l ∧ type v = py"file"
            ∧ (q = path_or_url v ∨ thumbnail_path v = Some q)).
Proof.
  revert w. induction l as [|video l IH]; intros w; [left; reflexivity|].
  cbv zeta. rewrite cleanup_step.
  pose proof (delete_video_files_frame video (fs w) q) as Hstep.
  destruct (delete_video_files video (fs w)) as [[ok fs1] ops].
  cbn [fst snd] in Hstep.
  set (w1 := {| db := db w; fs := fs1; auth_states := auth_states w;
                category_states := category_states w;
                video_states := video_states w |}).
  specialize (IH w1). cbv zeta in IH.
  destruct (for_each l _ w1) as [[[] w2] out2]. cbn [fst snd] in *.
  destruct IH as [Hsame|(Hnone & v & Hin & Hfile & Hpath)].
  - rewrite Hsame. cbn [fs w1].
    destruct Hstep as [Hstep|(Hgone & Hfile & Hpath)]; [left; exact Hstep|].
    right. split; [exact Hgone|]. exists video.
    split; [left; reflexivity|auto].
  - right. split; [exact Hnone|]. exists v. split; [right; exact Hin|auto].
Qed.

Lemma confirm_delete_run (cfg : Config) (env : Env) (event : Event)
    (category_id0 : Z) (w : World) :
  check_access cfg env event w = (true, w, []) →
  category_handler.on_confirm_delete cfg env event category_id0 w
  = (let '(y, w2, out2) :=
       for_each (select_videos_by_category category_id0 (db w))
         (λ video, do_delete_video_files video ;; mret tt)
         {| db := sql_delete_category get_connection category_id0 (db w);
            fs := fs w; auth_states := auth_states w;
            category_states := category_states w;
            video_states := video_states w |} in
     (tt, w2, out2 ++ [Edit CategoryDeleted])).
Proof.
  intros Hok. unfold category_handler.on_confirm_delete.
  rewrite bind_run, Hok. cbn [negb].
  rewrite bind_run. unfold run_db. cbn [delete_category].
  rewrite bind_run.
  destruct (for_each _ _ _) as [[[] w2] out2]. reflexivity.
Qed.

Lemma confirm_delete_denied (cfg : Config) (env : Env) (event : Event)
    (category_id0 : Z) (w : World) :
  check_access cfg env event w = (false, w, []) →
  category_handler.on_confirm_delete cfg env event category_id0 w
  = (tt, w, [Answer AccessExpired]).
Proof.
  intros Hno. unfold category_handler.on_confirm_delete.
  rewrite bind_run, Hno. reflexivity.
Qed.

(** X28: confirming the deletion of a category never creates or changes
    a file, and the only files it can remove are the location and the
    thumbnail of videos of kind ["file"] that were stored under that
    category; the files of every other video stay (unless they share a
    path with one of those).  Without access nothing is removed at
    all. *)
Theorem confirm_delete_removes_only_category_files (cfg : Config)
    (env : Env) (event : Event) (category_id0 : Z) (w : World)
    (q : Py.str) :
  let w' :=
    (category_handler.on_confirm_delete cfg env event category_id0 w).1.2 in
  fs w' !! q = fs w !! q
  ∨ (fs w' !! q = None
     ∧ (check_access cfg env event w).1.1 = true
     ∧ ∃ v, In v (videos (db w))
            ∧ category_id v = category_id0
            ∧ type v = py"file"
            ∧ (q = path_or_url v ∨ thumbnail_path v = Some q)).
Proof.
  intros w'. subst w'.
  pose proof (check_access_run cfg env event w) as Hcheck.
  destruct (if sender_id event =? ADMIN_ID cfg then true
            else check_user_access (now env) (sender_id event) (db w)).
  2: { rewrite (confirm_delete_denied _ _ _ _ _ Hcheck). left. reflexivity. }
  rewrite (confirm_delete_run _ _ _ _ _ Hcheck), Hcheck. cbn [fst snd].
  match goal with
  | |- context [for_each ?l ?body ?w1] =>
      pose proof (cleanup_frame l w1 q) as Hframe;
      cbv zeta in Hframe;
      destruct (for_each l body w1) as [[[] w2] out2]
  end.
  cbn [fst snd fs] in *.
  destruct Hframe as [Hsame|(Hnone & v & Hin & Hfile & Hpath)];
    [left; exact Hsame|].
  right. split; [exact Hnone|]. split; [reflexivity|].
  exists v. unfold select_videos_by_category in Hin.
  apply filter_In in Hin as [Hin Hid]. apply Z.eqb_eq in Hid. auto.
Qed.
